(** * Business accounting app: transaction normalisation, running balances,
      period reports and the account store.

    Shallow embedding of
    - [frontend/src/contexts/AppContext.tsx]  (normaliser and reducer),
    - [frontend/src/pages/UploadPage.tsx]     (sheet parser, upload hand-over),
    - [frontend/src/pages/ReportsPage.tsx]    (report generation),
    - [frontend/src/components/TransactionEditor.tsx] (editor save path).

    Conventions of the model.
    - A JavaScript number held by the program is an integer of [Z], and
      sums are exact.  A coercion [Number(s)] is computed in full, with the
      rounding of double precision; its result is [NaN], an integer, an
      infinity or a fraction.  Only the first two are numbers of the model:
      where the code would go on with an infinity or a fraction, the
      statements about it assume that the coercion yields neither.
    - [Date] reads the offset of local time and the date strings that
      ECMA-262 leaves to the implementation from an explicit host.
    - Strings are byte strings; case folding and white space are ASCII.
    - A plain object used as a dictionary is a [gmap string _].
    - [Math.random] and the clock are read from an explicit environment. *)

From stdpp Require Import gmap strings list fin_maps pretty sorting.
From Stdlib Require Import ZArith Lia Ascii.
From Stdlib Require OrderedTypeEx.

#[local] Set Warnings "-register-all".
#[local] Open Scope Z_scope.

(* ===================================================================== *)
(** ** JavaScript values and the coercions the code relies on *)
(* ===================================================================== *)

Module Js.

Inductive value : Type :=
| Undefined
| Null
| Bool (b : bool)
| Num (z : Z)
| Str (s : string)
| Obj (props : gmap string value).

(** [ToBoolean]: what [v || d] and [!v] test. *)
Definition truthy (v : value) : bool :=
  match v with
  | Undefined | Null => false
  | Bool b => b
  | Num z => negb (z =? 0)
  | Str s => negb (String.eqb s "")
  | Obj _ => true
  end.

(** [s || d] for a string [s]. *)
Definition strOr (s d : string) : string :=
  if String.eqb s "" then d else s.

(** [a || b] for operands of type [string | null]. *)
Definition orNull (a b : option string) : option string :=
  match a with
  | Some s => if String.eqb s "" then b else a
  | None => b
  end.

(** [n || 0] for a number [n]: both [NaN] and [0] are falsy. *)
Definition numOr0 (n : option Z) : Z :=
  match n with
  | Some z => if z =? 0 then 0 else z
  | None => 0
  end.

Definition is_digit (c : ascii) : bool :=
  ((48 <=? N_of_ascii c) && (N_of_ascii c <=? 57))%N.

Definition is_space (c : ascii) : bool :=
  let n := N_of_ascii c in
  ((n =? 32) || ((9 <=? n) && (n <=? 13)))%N.

Definition digit_val (c : ascii) : option Z :=
  if is_digit c then Some (Z.of_N (N_of_ascii c) - 48) else None.

Fixpoint trimStart (s : string) : string :=
  match s with
  | String c r => if is_space c then trimStart r else s
  | EmptyString => EmptyString
  end.

Fixpoint trimEnd (s : string) : string :=
  match s with
  | String c r =>
      match trimEnd r with
      | EmptyString => if is_space c then EmptyString else String c EmptyString
      | r' => String c r'
      end
  | EmptyString => EmptyString
  end.

Definition trim (s : string) : string := trimEnd (trimStart s).

Definition lower (c : ascii) : ascii :=
  let n := N_of_ascii c in
  if ((65 <=? n) && (n <=? 90))%N then ascii_of_N (n + 32) else c.

Fixpoint toLowerCase (s : string) : string :=
  match s with
  | String c r => String (lower c) (toLowerCase r)
  | EmptyString => EmptyString
  end.

Definition startsWith (s prefix : string) : bool := String.prefix prefix s.

(** [s.replace(/^prefix/i, '')] for a lower-case literal [prefix]. *)
Definition dropPrefixCI (prefix s : string) : string :=
  if startsWith (toLowerCase s) prefix
  then String.substring (String.length prefix)
                        (String.length s - String.length prefix) s
  else s.

(** [s.replace(/\s+/g, '-')]: every run of white space becomes one dash. *)
Fixpoint dashRuns (inRun : bool) (s : string) : string :=
  match s with
  | String c r =>
      if is_space c
      then (if inRun then dashRuns true r else String "-" (dashRuns true r))
      else String c (dashRuns false r)
  | EmptyString => EmptyString
  end.

Definition padStart2 (s : string) : string :=
  match String.length s with
  | O => "00"
  | S O => "0" +:+ s
  | _ => s
  end.

(** Value of a run of decimal digits. *)
Fixpoint digitsFrom (acc : Z) (s : string) : option Z :=
  match s with
  | String c r =>
      match digit_val c with
      | Some d => digitsFrom (10 * acc + d) r
      | None => None
      end
  | EmptyString => Some acc
  end.

(** The result of a coercion to number, as far as the model tells numbers
    apart: [NaN], an integer, an infinity, or a finite number that is not
    an integer, of which only the sign is kept. *)
Inductive numeric : Type :=
| NaN
| Int (z : Z)
| Infinite (negative : bool)
| Fraction (negative : bool).

(** Value of the digit [c] in the given radix (2, 8, 10 or 16). *)
Definition digitOf (radix : Z) (c : ascii) : option Z :=
  let n := Z.of_N (N_of_ascii c) in
  let v := if (48 <=? n) && (n <=? 57) then n - 48
           else if (97 <=? n) && (n <=? 102) then n - 87
           else if (65 <=? n) && (n <=? 70) then n - 55
           else radix in
  if v <? radix then Some v else None.

(** The longest run of digits at the head of [s]: the number read on top
    of [acc], how many digits were read on top of [count], and the rest. *)
Fixpoint scanDigits (radix acc count : Z) (s : string) : Z * Z * string :=
  match s with
  | String c r =>
      match digitOf radix c with
      | Some d => scanDigits radix (radix * acc + d) (count + 1) r
      | None => (acc, count, s)
      end
  | EmptyString => (acc, count, s)
  end.

(** [ExponentPart], or nothing, up to the end of the string: the
    exponent. *)
Definition exponentPart (s : string) : option Z :=
  match s with
  | EmptyString => Some 0
  | String c r =>
      if Ascii.eqb c "e" || Ascii.eqb c "E" then
        let '(negative, digits) :=
          match r with
          | String "+" r' => (false, r')
          | String "-" r' => (true, r')
          | _ => (false, r)
          end in
        let '(e, n, rest) := scanDigits 10 0 0 digits in
        if (0 <? n) && String.eqb rest ""
        then Some (if negative then - e else e)
        else None
      else None
  end.

(** [StrUnsignedDecimalLiteral] other than [Infinity]: digits with an
    optional fraction and exponent.  The literal denotes [n * 10 ^ k] for
    the pair [(n, k)] returned. *)
Definition unsignedDecimal (s : string) : option (Z * Z) :=
  let '(i, ni, r1) := scanDigits 10 0 0 s in
  match r1 with
  | String "." r2 =>
      let '(f, nf, r3) := scanDigits 10 i 0 r2 in
      if 0 <? ni + nf
      then e ← exponentPart r3; Some (f, e - nf)
      else None
  | _ =>
      if 0 <? ni
      then e ← exponentPart r1; Some (i, e)
      else None
  end.

(** [NonDecimalIntegerLiteral]: [0x], [0o] or [0b] and digits of that
    radix. *)
Definition nonDecimal (s : string) : option Z :=
  match s with
  | String "0" (String c r) =>
      let radix :=
        if Ascii.eqb c "x" || Ascii.eqb c "X" then 16
        else if Ascii.eqb c "o" || Ascii.eqb c "O" then 8
        else if Ascii.eqb c "b" || Ascii.eqb c "B" then 2
        else 0 in
      let '(v, n, rest) := scanDigits radix 0 0 r in
      if (0 <? radix) && (0 <? n) && String.eqb rest "" then Some v else None
  | _ => None
  end.

(** The Number value of the rational [p / q], for [p >= 0] and [q > 0]:
    the nearest double-precision value, ties to even, and an infinity
    beyond the largest double. *)
Definition roundRatio (negative : bool) (p q : Z) : numeric :=
  let e0 := Z.log2 p - Z.log2 q in
  let below := if 0 <=? e0 then p <? q * 2 ^ e0 else p * 2 ^ (- e0) <? q in
  (* 2 ^ fl <= p / q < 2 ^ (fl + 1) *)
  let fl := if below then e0 - 1 else e0 in
  (* the last binary place a double of that size keeps *)
  let e := Z.max (fl - 52) (-1074) in
  let num := if 0 <=? e then p else p * 2 ^ (- e) in
  let den := if 0 <=? e then q * 2 ^ e else q in
  let m0 := num / den in
  let r := num mod den in
  let m := if 2 * r <? den then m0
           else if den <? 2 * r then m0 + 1
           else if Z.even m0 then m0 else m0 + 1 in
  if 0 <=? e then
    if 2 ^ 1024 <=? m * 2 ^ e then Infinite negative
    else Int (if negative then - (m * 2 ^ e) else m * 2 ^ e)
  else
    if m mod 2 ^ (- e) =? 0
    then Int (if negative then - (m / 2 ^ (- e)) else m / 2 ^ (- e))
    else Fraction negative.

(** The Number value of [n * 10 ^ k] for [n >= 0].  Far outside the range
    of the doubles the result is settled without computing the power. *)
Definition roundDecimal (negative : bool) (n k : Z) : numeric :=
  if n =? 0 then Int 0
  else if 400 <? k then Infinite negative
  else if k + Z.log2 n <? - 400 then Int 0
  else if 0 <=? k then roundRatio negative (n * 10 ^ k) 1
  else roundRatio negative n (10 ^ (- k)).

(** [StrUnsignedDecimalLiteral] after its sign. *)
Definition strDecimal (negative : bool) (s : string) : numeric :=
  if String.eqb s "Infinity" then Infinite negative
  else match unsignedDecimal s with
       | Some (n, k) => roundDecimal negative n k
       | None => NaN
       end.

(** [Number(s)] on a string, by the grammar [StringNumericLiteral]:
    surrounding white space is ignored, the empty string is [0], a literal
    with a radix prefix or a signed decimal literal (with an optional
    fraction and exponent, or [Infinity]) is its value rounded to double
    precision, and anything else is [NaN]. *)
Definition StringToNumeric (s : string) : numeric :=
  match trim s with
  | EmptyString => Int 0
  | t =>
      match nonDecimal t with
      | Some v => roundRatio false v 1
      | None =>
          match t with
          | String "+" r => strDecimal false r
          | String "-" r => strDecimal true r
          | _ => strDecimal false t
          end
      end
  end.

(** [Number(s)] as a number of the model: the integer it yields, [None]
    for [NaN].  An infinity or a fraction is no number of the model and is
    read as [None] as well; the statements that depend on the value exclude
    these two cases by [integral]. *)
Definition StringToNumber (s : string) : option Z :=
  match StringToNumeric s with
  | Int z => Some z
  | _ => None
  end.

(** [Number(v)]. *)
Definition ToNumber (v : value) : option Z :=
  match v with
  | Undefined => None
  | Null => Some 0
  | Bool b => Some (if b then 1 else 0)
  | Num z => Some z
  | Str s => StringToNumber s
  | Obj _ => None
  end.

(** [Number(v)] in full. *)
Definition ToNumeric (v : value) : numeric :=
  match v with
  | Str s => StringToNumeric s
  | _ => match ToNumber v with
         | Some z => Int z
         | None => NaN
         end
  end.


Definition numToString (n : option Z) : string :=
  match n with
  | Some z => pretty z
  | None => "NaN"
  end.

(** [String(v)]. *)
Definition ToString (v : value) : string :=
  match v with
  | Undefined => "undefined"
  | Null => "null"
  | Bool b => if b then "true" else "false"
  | Num z => pretty z
  | Str s => s
  | Obj _ => "[object Object]"
  end.

(** [typeof v === 'number'] *)
Definition isNumber (v : value) : bool :=
  match v with Num _ => true | _ => false end.

(** [Array.prototype.findIndex]; [-1] when nothing matches. *)
Fixpoint findIndexFrom {A} (p : A → bool) (i : Z) (l : list A) : Z :=
  match l with
  | [] => -1
  | x :: r => if p x then i else findIndexFrom p (i + 1) r
  end.

Definition findIndex {A} (p : A → bool) (l : list A) : Z :=
  findIndexFrom p 0 l.

(** [a[i]] for an index that may be negative or past the end. *)
Definition at_ {A} (l : list A) (i : Z) : option A :=
  if i <? 0 then None else l !! Z.to_nat i.

(** Stable sort by a comparator, as [Array.prototype.sort] is since
    ES2019.  [after x y] says that the comparator puts [x] strictly after
    [y] (a positive result); a [NaN] result counts as [+0]. *)
Fixpoint insertBy {A} (after : A → A → bool) (x : A) (l : list A) : list A :=
  match l with
  | [] => [x]
  | y :: r => if after x y then y :: insertBy after x r else x :: l
  end.

Definition sortBy {A} (after : A → A → bool) (l : list A) : list A :=
  foldr (insertBy after) [] l.

(** [a.localeCompare(b) > 0] on the alphabet of period keys. *)
Definition localeAfter (a b : string) : bool :=
  match String.compare a b with Gt => true | _ => false end.

End Js.

(** Exceptions: a computation returns a value or throws a message. *)
Inductive result (A : Type) : Type :=
| Ok (a : A)
| Throw (msg : string).
Arguments Ok {A} a.
Arguments Throw {A} msg.

Definition bindR {A B} (r : result A) (k : A → result B) : result B :=
  match r with
  | Ok a => k a
  | Throw m => Throw m
  end.

(* ===================================================================== *)
(** ** [Date]: time values, ISO strings and local-time fields *)
(* ===================================================================== *)

(** A [Date] object is its time value in milliseconds since the epoch, or
    [None] for an Invalid Date. *)
Module JsDate.

Definition msPerDay : Z := 86400000.
Definition maxTime : Z := 8640000000000000.

(** What the host contributes to [Date].  [LocalTZA t isUTC] is the offset
    of local time in milliseconds east of Greenwich, at the time value [t]
    when [isUTC] holds and at the local time [t] otherwise; it varies with
    [t] where the zone changes its offset, as with daylight saving.  From
    the local time a day before an instant to that instant the offset moves
    by a day at most.  [parseOther] is [Date.parse] on the strings whose
    result this model does not fix: the formats and the out-of-range fields
    an implementation accepts, and the forms of the ECMA-262 format other
    than a date [YYYY-MM-DD]. *)
Record Host : Type := {
  LocalTZA : Z → bool → Z;
  parseOther : string → option Z;
  LocalTZA_day :
    ∀ t, Z.abs (LocalTZA t true
                - LocalTZA (t + LocalTZA t true - msPerDay) false) ≤ msPerDay;
}.

(** A host at a fixed offset from Greenwich that reads no other strings. *)
Definition fixedZone (offset : Z) : Host := {|
  LocalTZA := λ _ _, offset;
  parseOther := λ _, None;
  LocalTZA_day := ltac:(intros; unfold msPerDay; lia);
|}.

(** [LocalTime(t)] and [UTC(t)]. *)
Definition LocalTime (host : Host) (t : Z) : Z := t + LocalTZA host t true.
Definition UTC (host : Host) (t : Z) : Z := t - LocalTZA host t false.


(** Day number of a proleptic Gregorian date, day 0 being 1970-01-01. *)
Definition days_from_civil (y m d : Z) : Z :=
  let y' := if m <=? 2 then y - 1 else y in
  let era := y' / 400 in
  let yoe := y' - era * 400 in
  let mp := if m >? 2 then m - 3 else m + 9 in
  let doy := (153 * mp + 2) / 5 + d - 1 in
  let doe := yoe * 365 + yoe / 4 - yoe / 100 + doy in
  era * 146097 + doe - 719468.

(** Inverse: year, month (1..12) and day of month of a day number. *)
Definition civil_from_days (z : Z) : Z * Z * Z :=
  let z' := z + 719468 in
  let era := z' / 146097 in
  let doe := z' - era * 146097 in
  let yoe := (doe - doe / 1460 + doe / 36524 - doe / 146096) / 365 in
  let doy := doe - (365 * yoe + yoe / 4 - yoe / 100) in
  let mp := (5 * doy + 2) / 153 in
  let d := doy - (153 * mp + 2) / 5 + 1 in
  let m := if mp <? 10 then mp + 3 else mp - 9 in
  (if m <=? 2 then yoe + era * 400 + 1 else yoe + era * 400, m, d).

Definition isLeap (y : Z) : bool :=
  ((y mod 4 =? 0) && negb (y mod 100 =? 0)) || (y mod 400 =? 0).

Definition daysInMonth (y m : Z) : Z :=
  if m =? 2 then (if isLeap y then 29 else 28)
  else if (m =? 4) || (m =? 6) || (m =? 9) || (m =? 11) then 30
  else 31.

Definition TimeClip (t : Z) : option Z :=
  if Z.abs t <=? maxTime then Some t else None.

(** The test [/^\d{4}-\d{2}-\d{2}$/]. *)
Definition isIsoDateShape (s : string) : bool :=
  match String.list_ascii_of_string s with
  | [y1; y2; y3; y4; h1; m1; m2; h2; d1; d2] =>
      forallb Js.is_digit [y1; y2; y3; y4; m1; m2; d1; d2]
      && Ascii.eqb h1 "-" && Ascii.eqb h2 "-"
  | _ => false
  end.

(** [Date.parse] on a date [YYYY-MM-DD] of the ECMA-262 format whose
    month and day exist: UTC midnight of that day. *)
Definition calendarDate (s : string) : option Z :=
  if isIsoDateShape s then
    y ← Js.digitsFrom 0 (String.substring 0 4 s);
    m ← Js.digitsFrom 0 (String.substring 5 2 s);
    d ← Js.digitsFrom 0 (String.substring 8 2 s);
    if (1 <=? m) && (m <=? 12) && (1 <=? d) && (d <=? daysInMonth y m)
    then Some (days_from_civil y m d * msPerDay)
    else None
  else None.

(** [Date.parse]: fixed for the calendar dates, the host's otherwise. *)
Definition parse (host : Host) (s : string) : option Z :=
  match calendarDate s with
  | Some t => Some t
  | None => parseOther host s
  end.

(** [new Date(s)] for a string [s]. *)
Definition ofString (host : Host) (s : string) : option Z :=
  parse host s ≫= TimeClip.

(** [new Date(v)] for a value [v]; a plain object is first turned into the
    string [[object Object]]. *)
Definition ofValue (host : Host) (v : Js.value) : option Z :=
  match v with
  | Js.Str s => ofString host s
  | Js.Obj _ => ofString host (Js.ToString v)
  | _ => Js.ToNumber v ≫= TimeClip
  end.

Definition getFullYear (host : Host) (t : option Z) : option Z :=
  (λ t, (civil_from_days (LocalTime host t / msPerDay)).1.1) <$> t.

(** Zero-based month of the local date. *)
Definition getMonth (host : Host) (t : option Z) : option Z :=
  (λ t, (civil_from_days (LocalTime host t / msPerDay)).1.2 - 1) <$> t.

Definition getDate (host : Host) (t : option Z) : option Z :=
  (λ t, (civil_from_days (LocalTime host t / msPerDay)).2) <$> t.

(** [d.setDate(n)]: the local day of month becomes [n], overflowing into
    the neighbouring months; the local time of day is kept, and the result
    is taken back to UTC with the offset in force at the new local time. *)
Definition setDate (host : Host) (t : option Z) (n : option Z) : option Z :=
  t ← t; n ← n;
  let l := LocalTime host t in
  let '(y, m, _) := civil_from_days (l / msPerDay) in
  TimeClip (UTC host ((days_from_civil y m 1 + (n - 1)) * msPerDay
                      + l mod msPerDay)).

Definition pad (width : nat) (z : Z) : string :=
  let s := pretty z in
  String.string_of_list_ascii
    (replicate (width - String.length s) "0"%char) +:+ s.

Definition yearString (y : Z) : string :=
  if (0 <=? y) && (y <=? 9999) then pad 4 y
  else if y <? 0 then "-" +:+ pad 6 (- y)
  else "+" +:+ pad 6 y.

(** [d.toISOString().split('T')[0]] of a valid time value. *)
Definition isoDate (t : Z) : string :=
  let '(y, m, d) := civil_from_days (t / msPerDay) in
  yearString y +:+ "-" +:+ pad 2 m +:+ "-" +:+ pad 2 d.

(** [d.toISOString()] of a valid time value. *)
Definition isoString (t : Z) : string :=
  let r := t mod msPerDay in
  isoDate t +:+ "T" +:+ pad 2 (r / 3600000) +:+ ":"
    +:+ pad 2 (r / 60000 mod 60) +:+ ":" +:+ pad 2 (r / 1000 mod 60)
    +:+ "." +:+ pad 3 (r mod 1000) +:+ "Z".

(** [d.toISOString().split('T')[0]]; an Invalid Date throws [RangeError]. *)
Definition toISODate (t : option Z) : result string :=
  match t with
  | Some t => Ok (isoDate t)
  | None => Throw "Invalid time value"
  end.

End JsDate.

(** What a handler reads from outside the program: the clock, the host of
    [Date] and the pseudo-random generator.  [random k] is the base-36 suffix
    [Math.random().toString(36).substr(2, n)] obtained at the [k]-th element
    of the loop in progress; it may be any string, the empty one included. *)
Record Env : Type := {
  now : Z;
  host : JsDate.Host;
  random : nat → string;
}.

(** [new Date().toISOString().split('T')[0]] *)
Definition today (env : Env) : string := JsDate.isoDate (now env).

(* ===================================================================== *)
(** ** Data model ([types/index.ts]) *)
(* ===================================================================== *)

(** [TransactionItem]; [saldo_berjalan] is an optional property. *)
Record TransactionItem : Type := {
  id : string;
  tanggal : string;
  uraian : string;
  penerimaan : gmap string Z;
  pengeluaran : gmap string Z;
  jumlah : Z;
  saldo_berjalan : option Z;
}.

(** A [Partial<TransactionItem>] as it reaches the normaliser at run time:
    the text fields may be absent, and the two category fields may hold any
    value (legacy records carry a single string there). *)
Record RawTransaction : Type := {
  raw_id : option string;
  raw_tanggal : option string;
  raw_uraian : option string;
  raw_penerimaan : Js.value;
  raw_pengeluaran : Js.value;
  raw_jumlah : Js.value;
  raw_saldo_berjalan : Js.value;
}.

Definition numbers (m : gmap string Z) : Js.value := Js.Obj (Js.Num <$> m).

Definition optNumber (n : option Z) : Js.value :=
  match n with
  | Some z => Js.Num z
  | None => Js.Undefined
  end.

(** A well-typed [TransactionItem] passed where a partial record is
    expected. *)
Definition asRaw (tx : TransactionItem) : RawTransaction := {|
  raw_id := Some (id tx);
  raw_tanggal := Some (tanggal tx);
  raw_uraian := Some (uraian tx);
  raw_penerimaan := numbers (penerimaan tx);
  raw_pengeluaran := numbers (pengeluaran tx);
  raw_jumlah := Js.Num (jumlah tx);
  raw_saldo_berjalan := optNumber (saldo_berjalan tx);
|}.

(** [AccountBase] of the store. *)
Record AccountBase : Type := {
  name : string;
  transactions : list TransactionItem;
  balance : Z;
}.

Record AppState : Type := {
  accounts : list AccountBase;
  currentAccount : option string;
  isLoading : bool;
  error : option string;
  isBackendReady : bool;
}.

Inductive AppAction : Type :=
| SET_ACCOUNTS (payload : list AccountBase)
| SET_CURRENT_ACCOUNT (payload : option string)
| UPDATE_ACCOUNT (accountName : string) (txs : list TransactionItem)
| ADD_ACCOUNT (payload : AccountBase)
| SET_LOADING (payload : bool)
| SET_ERROR (payload : option string)
| SET_BACKEND_READY (payload : bool).

(** [Object.values(m).reduce((sum, val) => sum + (Number(val) || 0), 0)] *)
Definition sumValues (m : gmap string Z) : Z :=
  map_fold (λ _ val sum, sum + Js.numOr0 (Js.ToNumber (Js.Num val))) 0 m.

(** Income minus expense of a transaction's own category maps. *)
Definition net (tx : TransactionItem) : Z :=
  sumValues (penerimaan tx) - sumValues (pengeluaran tx).

(* ===================================================================== *)
(** ** [contexts/AppContext.tsx] *)
(* ===================================================================== *)

Module AppContext.

Definition initialState : AppState := {|
  accounts := [];
  currentAccount := None;
  isLoading := false;
  error := None;
  isBackendReady := true;
|}.

Definition calculateAccountBalance (txs : list TransactionItem) : Z :=
  foldl (λ balance tx,
           let income := sumValues (penerimaan tx) in
           let expense := sumValues (pengeluaran tx) in
           balance + (income - expense))
        0 txs.

(** [k] is the position of the record in the array being mapped; it
    selects the random suffix used when the record has no id. *)
Definition normalizeTransaction (env : Env) (k : nat) (tx : RawTransaction)
  : TransactionItem :=
  let id0 := Js.strOr (default "" (raw_id tx)) ("tx-" +:+ random env k) in
  let tanggal0 := Js.strOr (default "" (raw_tanggal tx)) (today env) in
  let uraian0 := Js.strOr (default "" (raw_uraian tx)) "" in
  (* Handle penerimaan *)
  let penerimaan0 : gmap string Z :=
    match raw_penerimaan tx with
    | Js.Str s => {[ "Penerimaan" := Js.numOr0 (Js.ToNumber (Js.Str s)) ]}
    | Js.Obj props =>
        map_fold (λ key value acc, <[key := Js.numOr0 (Js.ToNumber value)]> acc)
                 ∅ props
    | _ => ∅
    end in
  (* Handle pengeluaran *)
  let pengeluaran0 : gmap string Z :=
    match raw_pengeluaran tx with
    | Js.Str s => {[ "Pengeluaran" := Js.numOr0 (Js.ToNumber (Js.Str s)) ]}
    | Js.Obj props =>
        map_fold (λ key value acc, <[key := Js.numOr0 (Js.ToNumber value)]> acc)
                 ∅ props
    | _ => ∅
    end in
  (* Calculate jumlah *)
  let penerimaanTotal := sumValues penerimaan0 in
  let pengeluaranTotal := sumValues pengeluaran0 in
  {| id := id0;
     tanggal := tanggal0;
     uraian := uraian0;
     penerimaan := penerimaan0;
     pengeluaran := pengeluaran0;
     jumlah := penerimaanTotal - pengeluaranTotal;
     saldo_berjalan := Some 0 |}.

Definition createAccount (env : Env) (name0 : string)
    (txs : list TransactionItem) : AccountBase := {|
  name := name0;
  transactions := imap (λ k tx, normalizeTransaction env k (asRaw tx)) txs;
  balance := calculateAccountBalance txs;
|}.

Definition appReducer (env : Env) (state : AppState) (action : AppAction)
  : AppState :=
  match action with
  | SET_ACCOUNTS payload =>
      let accounts0 :=
        (λ account,
           {| name := name account;
              transactions := transactions account;
              balance := calculateAccountBalance (transactions account) |})
          <$> payload in
      {| accounts := accounts0;
         currentAccount :=
           Js.orNull (currentAccount state)
                     (Js.orNull (name <$> head accounts0) None);
         isLoading := false;
         error := None;
         isBackendReady := isBackendReady state |}
  | SET_CURRENT_ACCOUNT payload =>
      {| accounts := accounts state;
         currentAccount := payload;
         isLoading := isLoading state;
         error := error state;
         isBackendReady := isBackendReady state |}
  | UPDATE_ACCOUNT accountName txs =>
      let updatedAccounts :=
        (λ account,
           if String.eqb (name account) accountName
           then createAccount env accountName txs
           else account)
          <$> accounts state in
      {| accounts := updatedAccounts;
         currentAccount := currentAccount state;
         isLoading := isLoading state;
         error := error state;
         isBackendReady := isBackendReady state |}
  | ADD_ACCOUNT payload =>
      let accountName :=
        Js.strOr (name payload)
                 ("Akun Baru " +:+ pretty (Z.of_nat (length (accounts state)) + 1)) in
      if existsb (λ acc, String.eqb (name acc) accountName) (accounts state)
      then state
      else
        let newAccount := createAccount env accountName (transactions payload) in
        {| accounts := accounts state ++ [newAccount];
           currentAccount := Some (name newAccount);
           isLoading := isLoading state;
           error := error state;
           isBackendReady := isBackendReady state |}
  | SET_LOADING payload =>
      {| accounts := accounts state;
         currentAccount := currentAccount state;
         isLoading := payload;
         error := error state;
         isBackendReady := isBackendReady state |}
  | SET_ERROR payload =>
      {| accounts := accounts state;
         currentAccount := currentAccount state;
         isLoading := false;
         error := payload;
         isBackendReady := isBackendReady state |}
  | SET_BACKEND_READY payload =>
      {| accounts := accounts state;
         currentAccount := currentAccount state;
         isLoading := isLoading state;
         error := error state;
         isBackendReady := payload |}
  end.

(** The store after a sequence of dispatches. *)
Definition dispatchAll (env : Env) (state : AppState) (actions : list AppAction)
  : AppState :=
  foldl (appReducer env) state actions.

End AppContext.

(* ===================================================================== *)
(** ** [pages/UploadPage.tsx] *)
(* ===================================================================== *)

Module AccountData.
(** [AccountData] as declared in [UploadPage.tsx]. *)
Record t : Type := {
  id : string;
  name : string;
  balance : Z;
  transactions : list TransactionItem;
  code : option string;
  type_ : option string;
  currency : option string;
  isActive : option bool;
  createdAt : option string;
  updatedAt : option string;
}.
End AccountData.

(** An uploaded account handed to the store, whose payload type
    [AccountBase] names three of its properties. *)
Definition asAccountBase (a : AccountData.t) : AccountBase := {|
  name := AccountData.name a;
  transactions := AccountData.transactions a;
  balance := AccountData.balance a;
|}.

Module UploadPage.

(** One sheet of the workbook: its name and
    [XLSX.utils.sheet_to_json(worksheet, { header: 1, defval: '' })]. *)
Definition Sheet : Type := string * list (list Js.value).

Definition getStringValue (row : list Js.value) (index : Z) : string :=
  match Js.at_ row index with
  | None => ""
  | Some Js.Null | Some Js.Undefined => ""
  | Some value => Js.trim (Js.ToString value)
  end.

Definition getNumberValue (row : list Js.value) (index : Z) : Z :=
  match Js.at_ row index with
  | None => 0
  | Some Js.Null | Some Js.Undefined | Some (Js.Str EmptyString) => 0
  | Some value =>
      match Js.ToNumber value with
      | None => 0
      | Some num => num
      end
  end.

(** [new Date('1899-12-30T00:00:00.000Z').getTime()] *)
Definition excelEpoch : Z := JsDate.days_from_civil 1899 12 30 * JsDate.msPerDay.

Definition parseExcelDate (env : Env) (value : Js.value) : result string :=
  if negb (Js.truthy value)
     && negb (match value with Js.Num 0 => true | _ => false end)
  then Ok (today env)
  else
    match value with
    | Js.Str s =>
        if JsDate.isIsoDateShape s then Ok s
        else match JsDate.ofValue (host env) value with
             | Some t => Ok (JsDate.isoDate t)
             | None => Ok (today env)
             end
    | Js.Num n =>
        if n >? 0 then
          let date := JsDate.TimeClip (excelEpoch + n * 86400000) in
          let date :=
            if n >=? 60
            then JsDate.setDate (host env) date
                   ((λ d, d - 1) <$> JsDate.getDate (host env) date)
            else date in
          JsDate.toISODate date
        else match JsDate.ofValue (host env) value with
             | Some t => Ok (JsDate.isoDate t)
             | None => Ok (today env)
             end
    | _ =>
        match JsDate.ofValue (host env) value with
        | Some t => Ok (JsDate.isoDate t)
        | None => Ok (today env)
        end
    end.

(** Indices of the headers that start with [prefix], ignoring case. *)
Definition prefixedCols (prefix : string) (headers : list string) : list Z :=
  filter (λ i, i ≠ -1)
    (imap (λ i h, if Js.startsWith (Js.toLowerCase h) prefix
                  then Z.of_nat i else -1) headers).

(** The categories of one row: a column contributes when its cell is a
    positive number. *)
Definition categories (prefix : string) (headers : list string)
    (cols : list Z) (row : list Js.value) : gmap string Z :=
  foldl (λ acc col,
           let value := getNumberValue row col in
           if value >? 0
           then <[Js.dropPrefixCI prefix (default "" (Js.at_ headers col)) := value]> acc
           else acc)
        ∅ cols.

Definition total (m : gmap string Z) : Z :=
  map_fold (λ _ val sum, sum + val) 0 m.

(** State of the row loop. *)
Record RowLoop : Type := {
  txs : list TransactionItem;
  runningBalance : Z;
}.

(** Body of the row loop for row [i] (the header is row 0). *)
Definition processRow (env : Env) (headers : list string)
    (dateCol descCol jumlahCol : Z) (penerimaanCols pengeluaranCols : list Z)
    (i : nat) (row : list Js.value) (st : RowLoop) : result RowLoop :=
  match row with
  | [] => Ok st
  | _ =>
      let penerimaan0 := categories "penerimaan_" headers penerimaanCols row in
      let pengeluaran0 := categories "pengeluaran_" headers pengeluaranCols row in
      let totalPenerimaan := total penerimaan0 in
      let totalPengeluaran := total pengeluaran0 in
      (* Get transaction amount (use 0 if not a number) *)
      let amount :=
        match Js.at_ row jumlahCol with
        | Some (Js.Num z) => z
        | _ => 0
        end in
      (* Get or calculate balance *)
      let saldo := getNumberValue row jumlahCol in
      let runningBalance0 :=
        if saldo =? 0
        then runningBalance st + (totalPenerimaan - totalPengeluaran)
        else saldo in
      let rawDateValue := default Js.Null (Js.at_ row dateCol) in
      bindR (parseExcelDate env rawDateValue) (λ date,
        let transaction := {|
          id := "tx-" +:+ pretty (now env) +:+ "-" +:+ pretty i +:+ "-"
                  +:+ random env i;
          tanggal := date;
          uraian := Js.strOr (getStringValue row descCol)
                             "Transaksi Tanpa Keterangan";
          penerimaan := penerimaan0;
          pengeluaran := pengeluaran0;
          jumlah := amount;
          saldo_berjalan := Some runningBalance0 |} in
        Ok {| txs := txs st ++ [transaction];
              runningBalance := runningBalance0 |})
  end.

Fixpoint processRows (env : Env) (headers : list string)
    (dateCol descCol jumlahCol : Z) (penerimaanCols pengeluaranCols : list Z)
    (i : nat) (rows : list (list Js.value)) (st : RowLoop) : result RowLoop :=
  match rows with
  | [] => Ok st
  | row :: rest =>
      bindR (processRow env headers dateCol descCol jumlahCol
                        penerimaanCols pengeluaranCols i row st)
            (processRows env headers dateCol descCol jumlahCol
                         penerimaanCols pengeluaranCols (S i) rest)
  end.

(** Body of the sheet loop: the accounts collected so far, extended by
    this sheet's account when the sheet yields one. *)
Definition processSheet (env : Env) (sheet : Sheet)
    (accounts0 : list AccountData.t) : result (list AccountData.t) :=
  let '(sheetName, jsonData) := sheet in
  match jsonData with
  | [] => Ok accounts0
  | headerRow :: dataRows =>
      let headers :=
        (λ h, Js.trim (Js.ToString (if Js.truthy h then h else Js.Str "")))
          <$> headerRow in
      let dateCol := Js.findIndex (λ h, String.eqb (Js.toLowerCase h) "tanggal") headers in
      let descCol := Js.findIndex (λ h, String.eqb (Js.toLowerCase h) "uraian") headers in
      let jumlahCol := Js.findIndex (λ h, String.eqb (Js.toLowerCase h) "jumlah") headers in
      let penerimaanCols := prefixedCols "penerimaan_" headers in
      let pengeluaranCols := prefixedCols "pengeluaran_" headers in
      (* Skip if required columns are missing *)
      if (dateCol =? -1) || (descCol =? -1) || (jumlahCol =? -1)
      then Ok accounts0
      else
        bindR (processRows env headers dateCol descCol jumlahCol
                           penerimaanCols pengeluaranCols 1 dataRows
                           {| txs := []; runningBalance := 0 |})
          (λ st,
             match txs st with
             | [] => Ok accounts0
             | _ =>
                 Ok (accounts0 ++ [ {|
                   AccountData.id :=
                     "acc-" +:+ pretty (now env) +:+ "-"
                       +:+ Js.toLowerCase (Js.dashRuns false sheetName);
                   AccountData.name := sheetName;
                   AccountData.balance := runningBalance st;
                   AccountData.transactions := txs st;
                   AccountData.code := None;
                   AccountData.type_ := None;
                   AccountData.currency := Some "IDR";
                   AccountData.isActive := Some true;
                   AccountData.createdAt := Some (JsDate.isoString (now env));
                   AccountData.updatedAt := Some (JsDate.isoString (now env)) |} ])
             end)
  end.

Fixpoint processSheets (env : Env) (sheets : list Sheet)
    (accounts0 : list AccountData.t) : result (list AccountData.t) :=
  match sheets with
  | [] => Ok accounts0
  | sheet :: rest =>
      bindR (processSheet env sheet accounts0) (processSheets env rest)
  end.

(** The [try] block of [handleFileUpload] on a workbook already read. *)
Definition parseWorkbook (env : Env) (workbook : list Sheet)
  : result (list AccountData.t) :=
  match workbook with
  | [] => Throw "File does not contain any sheets"
  | _ =>
      bindR (processSheets env workbook [])
        (λ accounts0,
           match accounts0 with
           | [] => Throw "Tidak ada data transaksi yang valid dalam file"
           | _ => Ok accounts0
           end)
  end.

(** [handleFileUpload]: the accounts returned and the actions
    dispatched on the way. *)
Definition handleFileUpload (env : Env) (workbook : list Sheet)
  : list AccountData.t * list AppAction :=
  match parseWorkbook env workbook with
  | Ok accounts0 => (accounts0, [SET_LOADING true; SET_LOADING false])
  | Throw errorMessage =>
      ([], [SET_LOADING true; SET_ERROR (Some errorMessage); SET_LOADING false])
  end.

(** The transaction mapper inside [processAndUpdateAccounts]; [k] is the
    position of the transaction in its account.  For a [TransactionItem]
    the two category fields are objects, so the legacy test
    [typeof tx.penerimaan === 'string'] is false and the fields are kept. *)
Definition mapTransaction (env : Env) (k : nat) (tx : TransactionItem)
  : TransactionItem :=
  let defaultPenerimaan := penerimaan tx in
  let defaultPengeluaran := pengeluaran tx in
  (* Calculate jumlah if not provided *)
  let jumlah0 := jumlah tx in
  let jumlah1 :=
    if jumlah0 =? 0
    then sumValues defaultPenerimaan - sumValues defaultPengeluaran
    else jumlah0 in
  {| id := Js.strOr (id tx) ("tx-" +:+ pretty (now env) +:+ "-" +:+ random env k);
     tanggal := Js.strOr (tanggal tx) (today env);
     uraian := Js.strOr (uraian tx) "";
     penerimaan := defaultPenerimaan;
     pengeluaran := defaultPengeluaran;
     jumlah := jumlah1;
     saldo_berjalan := saldo_berjalan tx |}.

Definition mapAccount (env : Env) (j : nat) (account : AccountData.t)
  : AccountData.t := {|
  AccountData.id := Js.strOr (AccountData.id account) ("acc-" +:+ random env j);
  AccountData.name := Js.strOr (AccountData.name account) "Akun Tanpa Nama";
  AccountData.balance := AccountData.balance account;
  AccountData.transactions :=
    imap (mapTransaction env) (AccountData.transactions account);
  AccountData.code := AccountData.code account;
  AccountData.type_ := AccountData.type_ account;
  AccountData.currency :=
    Some (Js.strOr (default "" (AccountData.currency account)) "IDR");
  AccountData.isActive :=
    Some (match AccountData.isActive account with Some false => false | _ => true end);
  AccountData.createdAt :=
    Some (Js.strOr (default "" (AccountData.createdAt account))
                   (JsDate.isoString (now env)));
  AccountData.updatedAt := Some (JsDate.isoString (now env));
|}.

(** [processAndUpdateAccounts]: its result and the actions it dispatches.
    [state] is the store snapshot the component rendered with. *)
Definition processAndUpdateAccounts (env : Env) (state : AppState)
    (accounts0 : list AccountData.t) : bool * list AppAction :=
  match accounts0 with
  | [] => (false, [])
  | _ =>
      let mappedAccounts := imap (mapAccount env) accounts0 in
      (true,
       SET_ACCOUNTS (asAccountBase <$> mappedAccounts)
       :: match mappedAccounts, Js.orNull (currentAccount state) None with
          | first :: _, None =>
              (* Set the first account as current if none is selected *)
              [SET_CURRENT_ACCOUNT (Some (AccountData.id first))]
          | _, _ => []
          end)
  end.

(** [onFileChange] / [handleDrop] after validation: parse, hand the
    accounts over, and the store that results. *)
Definition upload (env : Env) (state : AppState) (workbook : list Sheet)
  : AppState :=
  let '(accounts0, dispatched) := handleFileUpload env workbook in
  let state1 := AppContext.dispatchAll env state dispatched in
  match accounts0 with
  | [] => state1
  | _ =>
      AppContext.dispatchAll env state1
        (processAndUpdateAccounts env state accounts0).2
  end.

End UploadPage.

(* ===================================================================== *)
(** ** [pages/ReportsPage.tsx] *)
(* ===================================================================== *)

Module BalanceReport.
Record t : Type := {
  date : string;
  income : Z;
  expense : Z;
  balance : Z;
  runningBalance : Z;
}.
End BalanceReport.

Module BalanceByPeriod.
Record t : Type := {
  period : string;
  income : Z;
  expense : Z;
  balance : Z;
}.
End BalanceByPeriod.

Module IncomeStatement.
Record t : Type := {
  income : gmap string Z;
  expenses : gmap string Z;
  net_income : Z;
}.
End IncomeStatement.

(** [ReportData].  The balance sheet is always three empty objects and is
    left out; of [cash_flow] only [net_cash_flow] is an integer, the other
    three figures being percentage splits. *)
Module ReportData.
Record t : Type := {
  monthly : list BalanceByPeriod.t;
  yearly : list BalanceByPeriod.t;
  running : list BalanceReport.t;
  income_statement : IncomeStatement.t;
  net_cash_flow : Z;
}.
End ReportData.

Module ReportsPage.

(** Value stored under a period key of [monthlyData] / [yearlyData]. *)
Record Sums : Type := { income : Z; expense : Z }.

(** [new Date(a.tanggal).getTime() - new Date(b.tanggal).getTime() > 0] *)
Definition dateAfter (host : JsDate.Host) (a b : TransactionItem) : bool :=
  match JsDate.ofString host (tanggal a), JsDate.ofString host (tanggal b) with
  | Some ta, Some tb => ta - tb >? 0
  | _, _ => false
  end.

(** [Object.values(m).reduce((sum, val) => sum + (typeof val === 'number' ? val : 0), 0)] *)
Definition sumNumbers (m : gmap string Z) : Z :=
  map_fold (λ _ val sum, sum + (if Js.isNumber (Js.Num val) then val else 0)) 0 m.

(** [if (!data[key]) data[key] = { income: 0, expense: 0 };
     data[key].income += income; data[key].expense += expense;] *)
Definition addTo (key : string) (income0 expense0 : Z)
    (data : gmap string Sums) : gmap string Sums :=
  let cur := default {| income := 0; expense := 0 |} (data !! key) in
  <[key := {| income := income cur + income0;
              expense := expense cur + expense0 |}]> data.

Definition monthYearOf (host : JsDate.Host) (tanggal0 : string) : string :=
  let date := JsDate.ofString host tanggal0 in
  let year := JsDate.getFullYear host date in
  let month := (λ m, m + 1) <$> JsDate.getMonth host date in
  Js.numToString year +:+ "-" +:+ Js.padStart2 (Js.numToString month).

Definition yearStrOf (host : JsDate.Host) (tanggal0 : string) : string :=
  Js.numToString (JsDate.getFullYear host (JsDate.ofString host tanggal0)).

(** State of the [forEach] over the sorted transactions. *)
Record Loop : Type := {
  monthlyData : gmap string Sums;
  yearlyData : gmap string Sums;
  runningBalanceData : list BalanceReport.t;
  runningBalance : Z;
}.

Definition step (host : JsDate.Host) (st : Loop) (transaction : TransactionItem) : Loop :=
  let monthYear := monthYearOf host (tanggal transaction) in
  let yearStr := yearStrOf host (tanggal transaction) in
  (* Calculate income and expense for the transaction *)
  let income0 := sumNumbers (penerimaan transaction) in
  let expense0 := sumNumbers (pengeluaran transaction) in
  let balance0 := income0 - expense0 in
  (* Update running balance *)
  let runningBalance0 := runningBalance st + balance0 in
  {| monthlyData := addTo monthYear income0 expense0 (monthlyData st);
     yearlyData := addTo yearStr income0 expense0 (yearlyData st);
     runningBalanceData :=
       runningBalanceData st ++
         [ {| BalanceReport.date := tanggal transaction;
              BalanceReport.income := income0;
              BalanceReport.expense := expense0;
              BalanceReport.balance := balance0;
              BalanceReport.runningBalance := runningBalance0 |} ];
     runningBalance := runningBalance0 |}.

(** [Object.entries(data).sort(([a], [b]) => a.localeCompare(b)).map(...)] *)
Definition periodReports (data : gmap string Sums) : list BalanceByPeriod.t :=
  (λ e : string * Sums,
     {| BalanceByPeriod.period := e.1;
        BalanceByPeriod.income := income e.2;
        BalanceByPeriod.expense := expense e.2;
        BalanceByPeriod.balance := income e.2 - expense e.2 |})
    <$> Js.sortBy (λ a b : string * Sums, Js.localeAfter a.1 b.1) (map_to_list data).

(** [entries.forEach(([category, amount]) =>
      totals[category] = (totals[category] || 0) + value)] *)
Definition addCategories (m : gmap string Z) (totals : gmap string Z)
  : gmap string Z :=
  map_fold (λ category amount acc,
              let value := if Js.isNumber (Js.Num amount) then amount else 0 in
              <[category := Js.numOr0 (acc !! category) + value]> acc)
           totals m.

Definition generateReports (host : JsDate.Host) (account : option AccountBase)
  : option ReportData.t :=
  match account with
  | None => None
  | Some account =>
      (* Sort transactions by date *)
      let sortedTransactions := Js.sortBy (dateAfter host) (transactions account) in
      let st :=
        foldl (step host)
              {| monthlyData := ∅; yearlyData := ∅;
                 runningBalanceData := []; runningBalance := 0 |}
              sortedTransactions in
      let monthlyReports := periodReports (monthlyData st) in
      let yearlyReports := periodReports (yearlyData st) in
      let netOfMonths :=
        foldl (λ sum r, sum + BalanceByPeriod.balance r) 0 monthlyReports in
      Some {|
        ReportData.monthly := monthlyReports;
        ReportData.yearly := yearlyReports;
        ReportData.running := runningBalanceData st;
        ReportData.income_statement := {|
          IncomeStatement.income :=
            foldl (λ acc tx, addCategories (penerimaan tx) acc) ∅
                  (transactions account);
          IncomeStatement.expenses :=
            foldl (λ acc tx, addCategories (pengeluaran tx) acc) ∅
                  (transactions account);
          IncomeStatement.net_income := netOfMonths |};
        ReportData.net_cash_flow := netOfMonths |}
  end.

End ReportsPage.

(* ===================================================================== *)
(** ** [components/TransactionEditor.tsx] and [pages/EditorPage.tsx] *)
(* ===================================================================== *)

Module SimpleFormData.
Inductive Tipe : Type := Penerimaan | Pengeluaran.

Record t : Type := {
  id : option string;
  tanggal : string;
  tipe : Tipe;
  kategori : string;
  uraian : string;
  jumlah : string;
}.
End SimpleFormData.

Module TransactionEditor.

(** The [map] with the captured accumulator [runningBalance]. *)
Fixpoint withRunningBalance (runningBalance : Z) (txs : list TransactionItem)
  : list TransactionItem :=
  match txs with
  | [] => []
  | tx :: rest =>
      let penerimaan0 := sumValues (penerimaan tx) in
      let pengeluaran0 := sumValues (pengeluaran tx) in
      let jumlah0 := penerimaan0 - pengeluaran0 in
      let runningBalance0 := runningBalance + jumlah0 in
      {| id := id tx;
         tanggal := tanggal tx;
         uraian := uraian tx;
         penerimaan := penerimaan tx;
         pengeluaran := pengeluaran tx;
         jumlah := jumlah0;
         saldo_berjalan := Some runningBalance0 |}
      :: withRunningBalance runningBalance0 rest
  end.

Definition transactionsWithRunningBalance (txs : list TransactionItem)
  : list TransactionItem :=
  withRunningBalance 0 txs.

(** The form checks of [handleSaveTransaction]: [true] when some field is
    rejected. *)
Definition hasErrors (simpleForm : SimpleFormData.t) : bool :=
  String.eqb (SimpleFormData.tanggal simpleForm) ""
  || String.eqb (SimpleFormData.kategori simpleForm) ""
  || String.eqb (SimpleFormData.uraian simpleForm) ""
  || match Js.StringToNumber (SimpleFormData.jumlah simpleForm) with
     | None => true
     | Some n => n <=? 0
     end.

(** [handleSaveTransaction]: the list passed to [onSave], or [None] when
    the form is rejected and nothing is saved. *)
Definition handleSaveTransaction (env : Env) (simpleForm : SimpleFormData.t)
    (editingId : option string) (editedTransactions : list TransactionItem)
  : option (list TransactionItem) :=
  if hasErrors simpleForm then None
  else
    let amount := default 0 (Js.StringToNumber (SimpleFormData.jumlah simpleForm)) in
    let penerimaan0 : gmap string Z :=
      match SimpleFormData.tipe simpleForm with
      | SimpleFormData.Penerimaan => {[ SimpleFormData.kategori simpleForm := amount ]}
      | SimpleFormData.Pengeluaran => ∅
      end in
    let pengeluaran0 : gmap string Z :=
      match SimpleFormData.tipe simpleForm with
      | SimpleFormData.Penerimaan => ∅
      | SimpleFormData.Pengeluaran => {[ SimpleFormData.kategori simpleForm := amount ]}
      end in
    let penerimaanTotal := sumValues penerimaan0 in
    let pengeluaranTotal := sumValues pengeluaran0 in
    let txData (id0 : string) : TransactionItem :=
      {| id := id0;
         tanggal := SimpleFormData.tanggal simpleForm;
         uraian := SimpleFormData.uraian simpleForm;
         penerimaan := penerimaan0;
         pengeluaran := pengeluaran0;
         jumlah := penerimaanTotal - pengeluaranTotal;
         saldo_berjalan := Some 0 |} in
    match Js.orNull editingId None with
    | Some editingId0 =>
        (* Update existing transaction *)
        match find (λ tx, String.eqb (id tx) editingId0) editedTransactions with
        | Some updatedTransaction =>
            Some ((λ tx, if String.eqb (id tx) editingId0
                         then txData (id updatedTransaction)
                         else tx) <$> editedTransactions)
        | None => Some editedTransactions
        end
    | None =>
        (* Add new transaction *)
        Some (editedTransactions ++ [txData ("tx-" +:+ pretty (now env))])
    end.


End TransactionEditor.

Module EditorPage.

Definition selectedAccount (state : AppState) : option AccountBase :=
  match currentAccount state with
  | Some c => find (λ acc, String.eqb (name acc) c) (accounts state)
  | None => None
  end.

(** [handleSaveTransactions]: the action dispatched, if any. *)
Definition handleSaveTransactions (state : AppState)
    (txs : list TransactionItem) : list AppAction :=
  match selectedAccount state with
  | None => []
  | Some account => [UPDATE_ACCOUNT (name account) txs]
  end.

(** [handleAddAccount] for the name typed into the prompt. *)
Definition handleAddAccount (state : AppState) (accountName : string)
  : list AppAction :=
  if negb (String.eqb accountName "")
     && negb (existsb (λ acc, String.eqb (name acc) accountName) (accounts state))
  then [ADD_ACCOUNT {| name := accountName; transactions := []; balance := 0 |}]
  else [].

End EditorPage.

(* ===================================================================== *)
(** ** Properties named by the specification *)
(* ===================================================================== *)

(** The amount of a transaction is derived from its own category maps. *)
Definition amountDerived (t : TransactionItem) : Prop := jumlah t = net t.

(** A canonical transaction: well typed, with an id and a date, and with a
    derived amount. *)
Definition canonical (t : TransactionItem) : Prop :=
  id t ≠ "" ∧ tanggal t ≠ "" ∧ amountDerived t.

Definition sumZ (l : list Z) : Z := foldr Z.add 0 l.

(** [balances] is the running total of [amounts]:
    [balances[i] = balances[i-1] + amounts[i]] with [balances[-1] = 0]. *)
Definition previous (balances : list Z) (i : nat) : Z :=
  match i with
  | O => 0
  | S j => default 0 (balances !! j)
  end.

Definition accumulates (amounts balances : list Z) : Prop :=
  length balances = length amounts
  ∧ ∀ i a, amounts !! i = Some a →
           balances !! i = Some (previous balances i + a).

(** The running totals of [amounts] on top of [start]. *)
Fixpoint runningTotals (start : Z) (amounts : list Z) : list Z :=
  match amounts with
  | [] => []
  | a :: rest => (start + a) :: runningTotals (start + a) rest
  end.

(** Income minus expense summed over all buckets of a period table. *)
Definition bucketNet (data : gmap string ReportsPage.Sums) : Z :=
  sumZ ((λ e : string * ReportsPage.Sums,
           ReportsPage.income e.2 - ReportsPage.expense e.2)
          <$> map_to_list data).

Definition timeOf (host : JsDate.Host) (tx : TransactionItem) : option Z :=
  JsDate.ofString host (tanggal tx).

Definition validDate (host : JsDate.Host) (tx : TransactionItem) : Prop :=
  is_Some (timeOf host tx).

(** [a] is dated no later than [b]. *)
Definition chronological (host : JsDate.Host) (a b : TransactionItem) : Prop :=
  match timeOf host a, timeOf host b with
  | Some ta, Some tb => ta ≤ tb
  | _, _ => False
  end.

(** Period keys in strictly ascending order. *)
Definition periodBefore (a b : BalanceByPeriod.t) : Prop :=
  String.compare (BalanceByPeriod.period a) (BalanceByPeriod.period b) = Lt.

Definition netOfPeriods (l : list BalanceByPeriod.t) : Z :=
  sumZ (BalanceByPeriod.balance <$> l).

(** Period keys in ascending order, as entries of a period table. *)
Definition keyLe (a b : string * ReportsPage.Sums) : Prop :=
  String.compare a.1 b.1 ≠ Gt.

(** The stored balance of an account is the balance of its own
    transactions. *)
Definition balanced (acc : AccountBase) : Prop :=
  balance acc = AppContext.calculateAccountBalance (transactions acc).

(** *** The store *)

Definition names (s : AppState) : list string := name <$> accounts s.

(** The current-account pointer is null or names an existing account. *)
Definition pointerValid (s : AppState) : Prop :=
  match currentAccount s with
  | None => True
  | Some c => c ∈ names s
  end.

(** Number of accounts the pointer designates. *)
Definition currentCount (s : AppState) : nat :=
  length (filter (λ acc, currentAccount s = Some (name acc)) (accounts s)).

Definition storeInvariant (s : AppState) : Prop :=
  pointerValid s ∧ (accounts s ≠ [] → currentCount s = 1%nat).

(** States the reducer can reach from the initial state, whatever is
    dispatched. *)
Inductive reachable : AppState → Prop :=
| reachable_init : reachable AppContext.initialState
| reachable_step env s a :
    reachable s → reachable (AppContext.appReducer env s a).

(** Payloads that respect the callers' contract: a pointer to an existing
    account, and a replacement list with distinct non-empty names that still
    holds the current account. *)
Definition admissible (s : AppState) (a : AppAction) : Prop :=
  match a with
  | SET_CURRENT_ACCOUNT (Some c) => c ∈ names s
  | SET_CURRENT_ACCOUNT None => accounts s = []
  | SET_ACCOUNTS payload =>
      NoDup (name <$> payload) ∧ ("" ∉ name <$> payload)
      ∧ match currentAccount s with
        | Some c => c ∈ name <$> payload
        | None => True
        end
  | _ => True
  end.

Inductive reachableAdmissibly : AppState → Prop :=
| admissibly_init : reachableAdmissibly AppContext.initialState
| admissibly_step env s a :
    reachableAdmissibly s → admissible s a →
    reachableAdmissibly (AppContext.appReducer env s a).

(** Distinct non-empty names, and a pointer that is null only while the
    store is empty. *)
Definition wellNamed (s : AppState) : Prop :=
  NoDup (names s) ∧ ("" ∉ names s)
  ∧ match currentAccount s with
    | None => accounts s = []
    | Some c => c ∈ names s
    end.

(** The name [ADD_ACCOUNT] works with. *)
Definition effectiveName (s : AppState) (payload : AccountBase) : string :=
  Js.strOr (name payload)
           ("Akun Baru " +:+ pretty (Z.of_nat (length (accounts s)) + 1)).

(** *** Sample data *)

Module Sample.

Definition env : Env := {|
  now := 1705276800000;
  host := JsDate.fixedZone 25200000;
  random := λ k, "r" +:+ pretty k;
|}.

(** Header [tanggal, uraian, jumlah, penerimaan_gaji, pengeluaran_sewa]. *)
Definition header : list Js.value :=
  [Js.Str "tanggal"; Js.Str "uraian"; Js.Str "jumlah";
   Js.Str "penerimaan_gaji"; Js.Str "pengeluaran_sewa"].

(** Row [2024-01-15, "Gaji bulanan", 0, 5000000, 0]. *)
Definition salaryRow : list Js.value :=
  [Js.Str "2024-01-15"; Js.Str "Gaji bulanan"; Js.Num 0; Js.Num 5000000; Js.Num 0].

Definition salarySheet (sheetName : string) : UploadPage.Sheet :=
  (sheetName, [header; salaryRow]).

(** The same row with [999] typed into the [jumlah] column. *)
Definition overriddenRow : list Js.value :=
  [Js.Str "2024-01-15"; Js.Str "Gaji bulanan"; Js.Num 999; Js.Num 5000000; Js.Num 0].

Definition overriddenSheet : UploadPage.Sheet := ("Kas", [header; overriddenRow]).

(** 2024-01-10, amount +100. *)
Definition jan10 : TransactionItem := {|
  id := "tx-a"; tanggal := "2024-01-10"; uraian := "Penjualan";
  penerimaan := {[ "penjualan" := 100 ]}; pengeluaran := ∅;
  jumlah := 100; saldo_berjalan := Some 0 |}.

(** 2024-01-05, amount -30. *)
Definition jan05 : TransactionItem := {|
  id := "tx-b"; tanggal := "2024-01-05"; uraian := "Belanja";
  penerimaan := ∅; pengeluaran := {[ "belanja" := 30 ]};
  jumlah := -30; saldo_berjalan := Some 0 |}.

Definition ledger : AccountBase :=
  {| name := "Kas"; transactions := [jan10; jan05]; balance := 70 |}.

(** A canonical transaction that carries a running balance of 70. *)
Definition withBalance : TransactionItem := {|
  id := "tx-a"; tanggal := "2024-01-10"; uraian := "Penjualan";
  penerimaan := {[ "penjualan" := 100 ]}; pengeluaran := ∅;
  jumlah := 100; saldo_berjalan := Some 70 |}.



Definition emptyAccount (n : string) : AccountBase :=
  {| name := n; transactions := []; balance := 0 |}.

(** A store holding the single account "Akun Baru 2". *)
Definition oneAccount : AppState :=
  AppContext.appReducer env AppContext.initialState
    (ADD_ACCOUNT (emptyAccount "Akun Baru 2")).

(** A store with the accounts "Kas" and "Bank", "Bank" being current. *)
Definition twoAccounts : AppState :=
  AppContext.dispatchAll env AppContext.initialState
    [ADD_ACCOUNT (emptyAccount "Kas"); ADD_ACCOUNT (emptyAccount "Bank")].

(** The store after uploading a workbook with the single sheet "Kas". *)
Definition uploaded : AppState :=
  UploadPage.upload env AppContext.initialState [salarySheet "Kas"].

(** The store after uploading the sheet with 999 in the [jumlah] column. *)
Definition uploadedOverridden : AppState :=
  UploadPage.upload env AppContext.initialState [overriddenSheet].

Definition salaryForm : SimpleFormData.t := {|
  SimpleFormData.id := None;
  SimpleFormData.tanggal := "2024-01-15";
  SimpleFormData.tipe := SimpleFormData.Penerimaan;
  SimpleFormData.kategori := "gaji";
  SimpleFormData.uraian := "Gaji bulanan";
  SimpleFormData.jumlah := "5000000" |}.

End Sample.

(* ===================================================================== *)
(** ** [utils/validators.ts] *)
(* ===================================================================== *)

Module Validation.
Record t : Type := {
  isValid : bool;
  errors : gmap string string;
}.
End Validation.

Module BalanceCheck.
Record t : Type := {
  isValid : bool;
  currentBalance : Z;
  expectedBalance : Z;
}.
End BalanceCheck.

Module Validators.

Definition isValidDate (host : JsDate.Host) (dateString : string) : bool :=
  if negb (JsDate.isIsoDateShape dateString) then false
  else match JsDate.ofString host dateString with
       | None => false
       | Some _ => true
       end.

Definition getDateValidationError (host : JsDate.Host) (dateString : string)
  : option string :=
  if String.eqb dateString "" then Some "Tanggal tidak boleh kosong"
  else if negb (JsDate.isIsoDateShape dateString)
  then Some "Format tanggal tidak valid. Gunakan format YYYY-MM-DD"
  else match JsDate.ofString host dateString with
       | None => Some "Tanggal tidak valid"
       | Some _ => None
       end.

(** [!isNaN(num) && isFinite(num) && num >= 0] *)
Definition isValidNumber (value : Js.value) : bool :=
  match value with
  | Js.Str EmptyString => false
  | _ =>
      match Js.ToNumeric value with
      | Js.NaN => false
      | Js.Infinite _ => false
      | Js.Int num => num >=? 0
      | Js.Fraction negative => negb negative
      end
  end.

Definition getNumberValidationError (value : Js.value) (fieldName : string)
  : option string :=
  match value with
  | Js.Str EmptyString => Some (fieldName +:+ " tidak boleh kosong")
  | _ =>
      match Js.ToNumeric value with
      | Js.NaN => Some (fieldName +:+ " harus berupa angka")
      | Js.Infinite _ => Some (fieldName +:+ " tidak valid")
      | Js.Int num =>
          if num <? 0 then Some (fieldName +:+ " tidak boleh negatif") else None
      | Js.Fraction negative =>
          if negative then Some (fieldName +:+ " tidak boleh negatif") else None
      end
  end.

(** The class [[\w\-\s]]. *)
Definition isCategoryChar (c : ascii) : bool :=
  let n := N_of_ascii c in
  (((65 <=? n) && (n <=? 90)) || ((97 <=? n) && (n <=? 122))
   || Js.is_digit c || (n =? 95) || (n =? 45))%N
  || Js.is_space c.

Fixpoint allChars (p : ascii → bool) (s : string) : bool :=
  match s with
  | String c r => p c && allChars p r
  | EmptyString => true
  end.

(** The test [/^[\w\-\s]+$/]. *)
Definition matchesCategoryName (name0 : string) : bool :=
  negb (String.eqb name0 "") && allChars isCategoryChar name0.

Definition isValidCategoryName (name0 : string) : bool :=
  if String.eqb (Js.trim name0) "" then false
  else matchesCategoryName name0.

Definition getCategoryNameError (name0 : string) : option string :=
  if String.eqb (Js.trim name0) "" then Some "Nama kategori tidak boleh kosong"
  else if negb (matchesCategoryName name0)
  then Some "Nama kategori hanya boleh berisi huruf, angka, spasi, dan tanda hubung (-)"
  else None.

(** [Object.values(m).some(v => v > 0)] *)
Definition somePositive (m : gmap string Z) : bool :=
  map_fold (λ _ v found, found || (v >? 0)) false m.

(** [Object.keys(m).forEach(cat => { ... errors[`<field>_${cat}`] = ... })] *)
Definition categoryErrors (field label : string) (m : gmap string Z)
    (errors0 : gmap string string) : gmap string string :=
  map_fold (λ cat _ acc,
              match getCategoryNameError cat with
              | Some error0 =>
                  <[field +:+ "_" +:+ cat := label +:+ ": " +:+ error0]> acc
              | None => acc
              end)
           errors0 m.

Definition validateTransaction (host : JsDate.Host)
    (transaction : TransactionItem) : Validation.t :=
  let errors0 : gmap string string := ∅ in
  (* Validate date *)
  let errors1 :=
    match getDateValidationError host (tanggal transaction) with
    | Some dateError => <["tanggal" := dateError]> errors0
    | None => errors0
    end in
  (* Validate jumlah *)
  let errors2 :=
    match Js.ToNumber (Js.Num (jumlah transaction)) with
    | None => <["jumlah" := "Jumlah harus berupa angka"]> errors1
    | Some _ => errors1
    end in
  (* Validate description *)
  let errors3 :=
    if String.eqb (Js.trim (uraian transaction)) ""
    then <["uraian" := "Uraian tidak boleh kosong"]> errors2
    else errors2 in
  (* Validate at least one amount field is filled *)
  let hasPenerimaan := somePositive (penerimaan transaction) in
  let hasPengeluaran := somePositive (pengeluaran transaction) in
  let errors4 :=
    if negb hasPenerimaan && negb hasPengeluaran
    then <["amount" := "Minimal harus ada satu nilai penerimaan atau pengeluaran"]> errors3
    else errors3 in
  (* Validate category names *)
  let errors5 :=
    categoryErrors "penerimaan" "Kategori Penerimaan" (penerimaan transaction) errors4 in
  let errors6 :=
    categoryErrors "pengeluaran" "Kategori Pengeluaran" (pengeluaran transaction) errors5 in
  {| Validation.isValid := Nat.eqb (size errors6) 0;
     Validation.errors := errors6 |}.



End Validators.

(* ===================================================================== *)
(** ** [AppProvider]: the snapshot kept in local storage *)
(* ===================================================================== *)

Module AppProvider.

(** What [localStorage.getItem('accountingAppState')] and [JSON.parse] give:
    nothing, text that does not parse, or an object with the two saved
    fields, either of which may be missing.  Serialising a well-typed value
    and parsing it back is taken to return the value. *)
Inductive Stored : Type :=
| Absent
| Corrupt
| Snapshot (accounts0 : option (list AccountBase)) (currentAccount0 : option string).

(** The effect run when [state.accounts] or [state.currentAccount] change. *)
Definition save (state : AppState) : Stored :=
  Snapshot (Some (accounts state)) (currentAccount state).

(** The effect run on mount: the actions it dispatches. *)
Definition load (stored : Stored) : list AppAction :=
  match stored with
  | Absent => []
  | Corrupt => [SET_ERROR (Some "Failed to load saved data")]
  | Snapshot accounts0 currentAccount0 =>
      SET_ACCOUNTS (default [] accounts0)
      :: match Js.orNull currentAccount0 None with
         | Some c => [SET_CURRENT_ACCOUNT (Some c)]
         | None => []
         end
  end.

(** The store a freshly mounted provider holds after loading. *)
Definition restore (env : Env) (stored : Stored) : AppState :=
  AppContext.dispatchAll env AppContext.initialState (load stored).

End AppProvider.

(** The render of [EditorPage] when no account is selected but accounts
    exist: the first account is made current. *)
Module EditorRender.

Definition autoSelect (state : AppState) : list AppAction :=
  match EditorPage.selectedAccount state, accounts state with
  | None, first :: _ => [SET_CURRENT_ACCOUNT (Some (name first))]
  | _, _ => []
  end.

End EditorRender.

(* ===================================================================== *)
(** ** Further properties of the code *)
(* ===================================================================== *)

(** The largest serial day count whose date is still a valid time value. *)
Definition maxSerial : Z := 100025569.

(** One 400-year cycle of the calendar: the date of day [doe] of the cycle,
    as [civil_from_days] computes it, and the day of the cycle
    [days_from_civil] gives back. *)
Definition cycleOk (doe : Z) : bool :=
  let yoe := (doe - doe / 1460 + doe / 36524 - doe / 146096) / 365 in
  let doy := doe - (365 * yoe + yoe / 4 - yoe / 100) in
  let mp := (5 * doy + 2) / 153 in
  let d := doy - (153 * mp + 2) / 5 + 1 in
  let m := if mp <? 10 then mp + 3 else mp - 9 in
  let mp' := if m >? 2 then m - 3 else m + 9 in
  (0 <=? yoe) && (yoe <? 400) && (1 <=? m) && (m <=? 12)
  && (1 <=? d) && (d <=? 31)
  && (yoe * 365 + yoe / 4 - yoe / 100 + ((153 * mp' + 2) / 5 + d - 1) =? doe).

(** [p] holds of the [count] integers from [start] on. *)
Fixpoint allFrom (p : Z → bool) (start : Z) (count : nat) : bool :=
  match count with
  | O => true
  | S c => if p start then allFrom p (start + 1) c else false
  end.

(** The headers of a sheet as the parser reads them. *)
Definition normalizedHeaders (headerRow : list Js.value) : list string :=
  (λ h, Js.trim (Js.ToString (if Js.truthy h then h else Js.Str ""))) <$> headerRow.

Definition hasColumn (column : string) (headers : list string) : bool :=
  existsb (λ h, String.eqb (Js.toLowerCase h) column) headers.

Definition nonEmptyRow (row : list Js.value) : bool :=
  match row with
  | [] => false
  | _ => true
  end.

(** A sheet that has the three required columns and a non-empty data row. *)
Definition usable (sheet : UploadPage.Sheet) : bool :=
  match sheet.2 with
  | [] => false
  | headerRow :: dataRows =>
      let headers := normalizedHeaders headerRow in
      hasColumn "tanggal" headers && hasColumn "uraian" headers
      && hasColumn "jumlah" headers && existsb nonEmptyRow dataRows
  end.

(** [a] is the account the parser builds from [sheet]. *)
Definition parsedFrom (env : Env) (sheet : UploadPage.Sheet) (a : AccountData.t)
  : Prop :=
  AccountData.name a = sheet.1
  ∧ AccountData.id a
    = "acc-" +:+ pretty (now env) +:+ "-"
        +:+ Js.toLowerCase (Js.dashRuns false sheet.1)
  ∧ length (AccountData.transactions a)
    = length (filter (λ row, nonEmptyRow row) (tail sheet.2))
  ∧ AccountData.transactions a ≠ []
  ∧ last (saldo_berjalan <$> AccountData.transactions a)
    = Some (Some (AccountData.balance a)).

(** The fields of a transaction the editor shows and keeps. *)
Definition identified (t : TransactionItem) : Prop :=
  id t ≠ "" ∧ tanggal t ≠ "".

(** The amount a form stands for: positive for income, negative for
    expense. *)
Definition signedAmount (tipe0 : SimpleFormData.Tipe) (amount : Z) : Z :=
  match tipe0 with
  | SimpleFormData.Penerimaan => amount
  | SimpleFormData.Pengeluaran => - amount
  end.

(** Income and expense of the transactions that fall under period [k] for
    the key function [key]. *)
Definition inPeriod (key : string → string) (k : string)
    (txs : list TransactionItem) : list TransactionItem :=
  filter (λ tx, key (tanggal tx) = k) txs.

Definition incomeOf (txs : list TransactionItem) : Z :=
  sumZ ((λ tx, sumValues (penerimaan tx)) <$> txs).

Definition expenseOf (txs : list TransactionItem) : Z :=
  sumZ ((λ tx, sumValues (pengeluaran tx)) <$> txs).

(** A period entry that sums the transactions of its period. *)
Definition sumsPeriod (key : string → string) (txs : list TransactionItem)
    (p : BalanceByPeriod.t) : Prop :=
  inPeriod key (BalanceByPeriod.period p) txs ≠ []
  ∧ BalanceByPeriod.income p = incomeOf (inPeriod key (BalanceByPeriod.period p) txs)
  ∧ BalanceByPeriod.expense p = expenseOf (inPeriod key (BalanceByPeriod.period p) txs)
  ∧ BalanceByPeriod.balance p = BalanceByPeriod.income p - BalanceByPeriod.expense p.


(** A date cell the parser can turn into a date. *)
Definition readable (value : Js.value) : bool :=
  match value with
  | Js.Num n => n <=? maxSerial
  | _ => true
  end.

(** The date cells the parser reads in a sheet: one for each non-empty
    data row of a sheet that has the three required columns. *)
Definition dateCells (sheet : UploadPage.Sheet) : list Js.value :=
  match sheet.2 with
  | [] => []
  | headerRow :: dataRows =>
      let headers := normalizedHeaders headerRow in
      if hasColumn "tanggal" headers && hasColumn "uraian" headers
         && hasColumn "jumlah" headers
      then
        (λ row,
           default Js.Null
             (Js.at_ row
                (Js.findIndex (λ h, String.eqb (Js.toLowerCase h) "tanggal")
                              headers)))
          <$> filter (λ row, nonEmptyRow row) dataRows
      else []
  end.

Definition datesReadable (sheet : UploadPage.Sheet) : bool :=
  forallb readable (dateCells sheet).

(** The column of a sheet the parser reads amounts and typed balances
    from. *)
Definition amountColumn (sheet : UploadPage.Sheet) : Z :=
  match sheet.2 with
  | [] => -1
  | headerRow :: _ =>
      Js.findIndex (λ h, String.eqb (Js.toLowerCase h) "jumlah")
                   (normalizedHeaders headerRow)
  end.

(** No data row of the sheet has a non-zero number in that column. *)
Definition noTypedBalance (sheet : UploadPage.Sheet) : Prop :=
  Forall (λ row, UploadPage.getNumberValue row (amountColumn sheet) = 0)
         (tail sheet.2).

(** The account's running balances accumulate the net amounts of its
    transactions from 0, and its balance is their total. *)
Definition runningFromZero (a : AccountData.t) : Prop :=
  AccountData.balance a
  = AppContext.calculateAccountBalance (AccountData.transactions a)
  ∧ saldo_berjalan <$> AccountData.transactions a
    = Some <$> runningTotals 0 (net <$> AccountData.transactions a).

(** A string without the character "-". *)
Fixpoint noDash (s : string) : bool :=
  match s with
  | EmptyString => true
  | String c r => negb (Ascii.eqb c "-") && noDash r
  end.

Module Sample2.

(** A sheet without a [jumlah] column. *)
Definition noAmountSheet : UploadPage.Sheet :=
  ("Bank", [ [Js.Str "Tanggal"; Js.Str "Uraian"; Js.Str "penerimaan_gaji"];
             [Js.Str "2024-01-15"; Js.Str "Gaji"; Js.Num 5000000] ]).

(** Two data rows, the second with the running balance 900 typed into the
    [jumlah] column; an empty row in between. *)
Definition twoRowSheet : UploadPage.Sheet :=
  ("Kas Besar",
   [ Sample.header;
     Sample.salaryRow;
     [];
     [Js.Str "2024-01-20"; Js.Str "Sewa"; Js.Num 900; Js.Num 0; Js.Num 100] ]).

Definition farFuture : Js.value := Js.Num 100025570.

(** Row [2024-01-15, "Gaji bulanan", 0, 5000000, 0] with the date held in
    a date cell: a workbook read without conversion of dates hands the cell
    over as the serial number of the day, 45306. *)
Definition salaryDateRow : list Js.value :=
  [Js.Num 45306; Js.Str "Gaji bulanan"; Js.Num 0; Js.Num 5000000; Js.Num 0].

Definition salaryDateSheet (sheetName : string) : UploadPage.Sheet :=
  (sheetName, [Sample.header; salaryDateRow]).




(** A host with New York's offsets around its changes of 2024: four hours
    behind Greenwich from 10 March, 07:00 UTC, to 3 November, 06:00 UTC,
    and five hours behind otherwise.  A local time is read with the offset
    in force before the change it falls next to. *)
Definition newYork : JsDate.Host := {|
  JsDate.LocalTZA := λ t isUTC,
    if isUTC
    then (if (1710054000000 <=? t) && (t <? 1730613600000)
          then -14400000 else -18000000)
    else (if (1710039600000 <=? t) && (t <? 1730599200000)
          then -14400000 else -18000000);
  JsDate.parseOther := λ _, None;
  JsDate.LocalTZA_day :=
    ltac:(intros t; unfold JsDate.msPerDay;
          repeat match goal with
                 | |- context [if ?c then _ else _] => destruct c
                 end; lia);
|}.

Definition newYorkEnv : Env := {|
  now := 1705276800000;
  host := newYork;
  random := λ k, "r" +:+ pretty k;
|}.

(** A store whose pointer names no account. *)
Definition dangling : AppState := Sample.uploaded.

Definition expenseForm : SimpleFormData.t := {|
  SimpleFormData.id := Some "tx-a";
  SimpleFormData.tanggal := "2024-02-01";
  SimpleFormData.tipe := SimpleFormData.Pengeluaran;
  SimpleFormData.kategori := "sewa";
  SimpleFormData.uraian := "Sewa kantor";
  SimpleFormData.jumlah := "250" |}.


End Sample2.

(* ===================================================================== *)
(** * Proofs *)
(* ===================================================================== *)

(** ** Coercions *)

Section coercions.

Lemma numOr0_Some z : Js.numOr0 (Some z) = z.
Proof. unfold Js.numOr0. destruct (Z.eqb_spec z 0); congruence. Qed.












Lemma strOr_nonempty s d : d ≠ "" → Js.strOr s d ≠ "".
Proof.
  unfold Js.strOr. intros Hd. destruct (String.eqb_spec s ""); congruence.
Qed.

Lemma strOr_id s d : s ≠ "" → Js.strOr s d = s.
Proof.
  unfold Js.strOr. intros Hs. destruct (String.eqb_spec s ""); congruence.
Qed.

Lemma strOr_empty s : Js.strOr s "" = s.
Proof. unfold Js.strOr. destruct (String.eqb_spec s ""); congruence. Qed.

Lemma append_cons_nonempty s c r : s +:+ String c r ≠ "".
Proof. destruct s; discriminate. Qed.

Lemma today_nonempty env : today env ≠ "".
Proof.
  unfold today, JsDate.isoDate.
  destruct (JsDate.civil_from_days _) as [[y m] d].
  apply append_cons_nonempty.
Qed.

Lemma fresh_id_nonempty r : "tx-" +:+ r ≠ "".
Proof. discriminate. Qed.

End coercions.

(** ** Sums over category maps *)

Section sums.

Lemma fold_values_ext {B} (f g : string → Z → B → B) (b : B) (m : gmap string Z) :
  (∀ k v acc, f k v acc = g k v acc) → map_fold f b m = map_fold g b m.
Proof.
  intros Hfg. rewrite !map_fold_foldr.
  induction (map_to_list m) as [|[k v] l IH]; simpl; [done|].
  by rewrite IH, Hfg.
Qed.

Lemma sumValues_plain (m : gmap string Z) :
  sumValues m = map_fold (λ _ val sum, sum + val) 0 m.
Proof.
  apply fold_values_ext. intros k v acc. f_equal. apply numOr0_Some.
Qed.

Lemma sumNumbers_sumValues (m : gmap string Z) :
  ReportsPage.sumNumbers m = sumValues m.
Proof. by rewrite sumValues_plain. Qed.

Lemma total_sumValues (m : gmap string Z) : UploadPage.total m = sumValues m.
Proof. by rewrite sumValues_plain. Qed.

Lemma sumValues_empty : sumValues ∅ = 0.
Proof. reflexivity. Qed.

Lemma sumValues_singleton k v : sumValues {[ k := v ]} = v.
Proof.
  unfold sumValues. rewrite map_fold_singleton.
  exact (numOr0_Some v).
Qed.

End sums.

(** ** The normaliser *)

Section normalizer.
Context (env : Env) (k : nat).

Lemma normalize_props (props : gmap string Js.value) :
  map_fold (λ key value acc, <[key := Js.numOr0 (Js.ToNumber value)]> acc) ∅ props
  = (λ v, Js.numOr0 (Js.ToNumber v)) <$> props.
Proof.
  apply (map_fold_weak_ind (λ r m, r = (λ v, Js.numOr0 (Js.ToNumber v)) <$> m)).
  - by rewrite fmap_empty.
  - intros i x m r _ ->. by rewrite fmap_insert.
Qed.

Lemma normalize_numbers (m : gmap string Z) :
  map_fold (λ key value acc, <[key := Js.numOr0 (Js.ToNumber value)]> acc) ∅
           (Js.Num <$> m) = m.
Proof.
  rewrite normalize_props, <- map_fmap_compose.
  rewrite <- (map_fmap_id m) at 2.
  apply map_fmap_ext. intros i x _. simpl. apply numOr0_Some.
Qed.

Lemma normalize_asRaw (t : TransactionItem) :
  AppContext.normalizeTransaction env k (asRaw t) =
  {| id := Js.strOr (id t) ("tx-" +:+ random env k);
     tanggal := Js.strOr (tanggal t) (today env);
     uraian := uraian t;
     penerimaan := penerimaan t;
     pengeluaran := pengeluaran t;
     jumlah := net t;
     saldo_berjalan := Some 0 |}.
Proof.
  unfold AppContext.normalizeTransaction, asRaw, numbers, net; simpl.
  rewrite !normalize_numbers, strOr_empty. reflexivity.
Qed.

Lemma normalize_jumlah (tx : RawTransaction) :
  amountDerived (AppContext.normalizeTransaction env k tx).
Proof. reflexivity. Qed.

Lemma normalize_saldo (tx : RawTransaction) :
  saldo_berjalan (AppContext.normalizeTransaction env k tx) = Some 0.
Proof. reflexivity. Qed.

Lemma normalize_id_nonempty tx :
  id (AppContext.normalizeTransaction env k tx) ≠ "".
Proof. apply strOr_nonempty, fresh_id_nonempty. Qed.

Lemma normalize_tanggal_nonempty tx :
  tanggal (AppContext.normalizeTransaction env k tx) ≠ "".
Proof. apply strOr_nonempty, today_nonempty. Qed.

Lemma normalize_net (t : TransactionItem) :
  net (AppContext.normalizeTransaction env k (asRaw t)) = net t.
Proof. by rewrite normalize_asRaw. Qed.

End normalizer.

Lemma normalize_idempotent env k env' k' (x : RawTransaction) :
  AppContext.normalizeTransaction env' k'
    (asRaw (AppContext.normalizeTransaction env k x))
  = AppContext.normalizeTransaction env k x.
Proof.
  rewrite normalize_asRaw.
  rewrite (strOr_id _ _ (normalize_id_nonempty env k x)).
  rewrite (strOr_id _ _ (normalize_tanggal_nonempty env k x)).
  rewrite <- (normalize_jumlah env k x).
  rewrite <- (normalize_saldo env k x) at 1.
  by destruct (AppContext.normalizeTransaction env k x).
Qed.

(** Every transaction of an account built by [createAccount] went through
    the normaliser. *)
Lemma createAccount_transactions env n txs (P : TransactionItem → Prop) :
  (∀ k tx, P (AppContext.normalizeTransaction env k tx)) →
  Forall P (transactions (AppContext.createAccount env n txs)).
Proof.
  intros HP. apply Forall_lookup. intros i t Hi. simpl in Hi.
  rewrite list_lookup_imap in Hi.
  destruct (txs !! i) as [tx|]; simplify_eq/=. apply HP.
Qed.

(** ** Claims about the normaliser *)

(** Claim C10.  Whatever the input record, also one that carries a non-zero
    running balance, [normalizeTransaction] returns a transaction whose
    running balance is 0; hence every transaction of an account written by
    [UPDATE_ACCOUNT] or appended by [ADD_ACCOUNT] has running balance 0. *)
Theorem normalization_discards_running_balance (env : Env) :
  (∀ k tx, saldo_berjalan (AppContext.normalizeTransaction env k tx) = Some 0)
  ∧ (∀ n txs,
       Forall (λ t, saldo_berjalan t = Some 0)
              (transactions (AppContext.createAccount env n txs)))
  ∧ (∀ s n txs,
       Forall (λ acc, name acc = n →
                      Forall (λ t, saldo_berjalan t = Some 0) (transactions acc))
              (accounts (AppContext.appReducer env s (UPDATE_ACCOUNT n txs))))
  ∧ (∀ s p,
       AppContext.appReducer env s (ADD_ACCOUNT p) = s
       ∨ ∃ acc,
           accounts (AppContext.appReducer env s (ADD_ACCOUNT p))
           = accounts s ++ [acc]
           ∧ Forall (λ t, saldo_berjalan t = Some 0) (transactions acc)).
Proof.
  assert (Hc : ∀ n txs,
             Forall (λ t, saldo_berjalan t = Some 0)
                    (transactions (AppContext.createAccount env n txs))).
  { intros n txs. apply createAccount_transactions. intros; reflexivity. }
  split; [reflexivity|]. split; [exact Hc|]. split.
  - intros s n txs. simpl. apply Forall_fmap, Forall_forall.
    intros acc _. unfold compose.
    destruct (String.eqb_spec (name acc) n) as [_|Hne]; [intros _; apply Hc | done].
  - intros s p. simpl.
    destruct (existsb _ (accounts s)); [by left | right].
    eexists; split; [reflexivity | apply Hc].
Qed.

Lemma normalization_discards_running_balance_witness :
  saldo_berjalan Sample.withBalance = Some 70
  ∧ saldo_berjalan
      (AppContext.normalizeTransaction Sample.env 0 (asRaw Sample.withBalance))
    = Some 0.
Proof.
  split; [reflexivity|].
  apply (proj1 (normalization_discards_running_balance Sample.env)).
Defined.




(** Claim C8, as stated: every canonical transaction would be a fixed point
    of the normaliser.  [Sample.withBalance] is canonical and carries the
    running balance 70, which normalisation resets. *)
Lemma canonical_not_fixed_point :
  canonical Sample.withBalance
  ∧ AppContext.normalizeTransaction Sample.env 0 (asRaw Sample.withBalance)
    ≠ Sample.withBalance.
Proof.
  split.
  - split; [discriminate | split; [discriminate|]].
    unfold amountDerived, net, Sample.withBalance; simpl.
    by rewrite sumValues_singleton, sumValues_empty.
  - intros H. apply (f_equal saldo_berjalan) in H. discriminate H.
Qed.

(** Claim C8, amended.  Normalisation is idempotent:
    [normalize (normalize x) = normalize x] for every input [x], whatever the
    clock and the random source of the second pass.  A canonical transaction
    is a fixed point up to its running balance, which is reset to 0; it is a
    fixed point exactly when its running balance is already 0. *)
Theorem normalization_idempotent (env : Env) (k : nat) :
  (∀ env' k' x,
     AppContext.normalizeTransaction env' k'
       (asRaw (AppContext.normalizeTransaction env k x))
     = AppContext.normalizeTransaction env k x)
  ∧ (∀ t, canonical t →
          AppContext.normalizeTransaction env k (asRaw t)
          = {| id := id t; tanggal := tanggal t; uraian := uraian t;
               penerimaan := penerimaan t; pengeluaran := pengeluaran t;
               jumlah := jumlah t; saldo_berjalan := Some 0 |})
  ∧ (∀ t, canonical t →
          AppContext.normalizeTransaction env k (asRaw t) = t
          ↔ saldo_berjalan t = Some 0).
Proof.
  assert (Hfix : ∀ t, canonical t →
            AppContext.normalizeTransaction env k (asRaw t)
            = {| id := id t; tanggal := tanggal t; uraian := uraian t;
                 penerimaan := penerimaan t; pengeluaran := pengeluaran t;
                 jumlah := jumlah t; saldo_berjalan := Some 0 |}).
  { intros t (Hid & Hdate & Hsum). rewrite normalize_asRaw.
    rewrite (strOr_id _ _ Hid), (strOr_id _ _ Hdate).
    unfold amountDerived in Hsum. by rewrite Hsum. }
  split; [intros; apply normalize_idempotent|]. split; [exact Hfix|].
  intros t Hc. rewrite (Hfix t Hc). split.
  - intros H. apply (f_equal saldo_berjalan) in H. by rewrite <- H.
  - intros H. destruct t; simpl in *. by rewrite H.
Qed.

Lemma normalization_idempotent_witness :
  AppContext.normalizeTransaction Sample.env 0 (asRaw Sample.jan10) = Sample.jan10.
Proof.
  apply (proj2 (proj2 (normalization_idempotent Sample.env 0)) Sample.jan10).
  - split; [discriminate | split; [discriminate|]].
    unfold amountDerived, net, Sample.jan10; simpl.
    by rewrite sumValues_singleton, sumValues_empty.
  - reflexivity.
Defined.

(** ** The reducer *)

Section reducer.
Context (env : Env).

Lemma existsb_name (n : string) (l : list AccountBase) :
  existsb (λ acc, String.eqb (name acc) n) l = true ↔ n ∈ name <$> l.
Proof.
  induction l as [|a l IH]; cbn [existsb].
  - split; [discriminate | by intros ?%elem_of_nil].
  - rewrite fmap_cons, orb_true_iff, IH, elem_of_cons.
    destruct (String.eqb_spec (name a) n) as [Heq|Hne].
    + split; intros _; left; done.
    + split; intros [H|H]; try discriminate; try congruence; by right.
Qed.

Lemma createAccount_name n txs : name (AppContext.createAccount env n txs) = n.
Proof. reflexivity. Qed.

Lemma update_other_name n txs (l : list AccountBase) :
  n ∉ name <$> l →
  (λ account, if String.eqb (name account) n
              then AppContext.createAccount env n txs else account) <$> l = l.
Proof.
  induction l as [|a l IH]; [done|].
  rewrite !fmap_cons, not_elem_of_cons. intros [Hn Hl].
  destruct (String.eqb_spec (name a) n); [congruence|]. by rewrite IH.
Qed.

Lemma update_names n txs s :
  names (AppContext.appReducer env s (UPDATE_ACCOUNT n txs)) = names s.
Proof.
  unfold names; simpl. rewrite <- list_fmap_compose.
  apply list_fmap_ext. intros i a _. simpl.
  by destruct (String.eqb_spec (name a) n).
Qed.

Lemma effectiveName_nonempty s payload : effectiveName s payload ≠ "".
Proof. apply strOr_nonempty. discriminate. Qed.

Lemma add_account_cases s payload :
  let accountName := effectiveName s payload in
  let s' := AppContext.appReducer env s (ADD_ACCOUNT payload) in
  (accountName ∈ names s → s' = s)
  ∧ (accountName ∉ names s →
       s' = {| accounts :=
                 accounts s
                 ++ [AppContext.createAccount env accountName (transactions payload)];
               currentAccount := Some accountName;
               isLoading := isLoading s;
               error := error s;
               isBackendReady := isBackendReady s |}).
Proof.
  simpl. fold (effectiveName s payload).
  destruct (existsb _ (accounts s)) eqn:E.
  - split; [done|]. intros []. by apply existsb_name.
  - split; [|done]. intros Hin%existsb_name. congruence.
Qed.

End reducer.

(** Claim C6, as stated: [ADD_ACCOUNT] would append the payload whenever no
    account bears the given name.  In the store [Sample.oneAccount], whose
    only account is "Akun Baru 2", no account has the empty name, yet adding
    an account with the empty name leaves the store unchanged: the name
    looked up is the default "Akun Baru 2", not the given one. *)
Lemma add_account_empty_name_not_appended :
  names Sample.oneAccount = ["Akun Baru 2"]
  ∧ (name (Sample.emptyAccount "") ∉ names Sample.oneAccount)
  ∧ AppContext.appReducer Sample.env Sample.oneAccount
      (ADD_ACCOUNT (Sample.emptyAccount ""))
    = Sample.oneAccount.
Proof.
  split; [reflexivity|]. split; [|reflexivity].
  change (names Sample.oneAccount) with ["Akun Baru 2"].
  simpl. intros [?|?%elem_of_nil]%elem_of_cons; [discriminate | done].
Qed.

(** Claim C6, amended.  [ADD_ACCOUNT] works with the effective name: the
    payload's name or, when that is empty, the default
    ["Akun Baru <count + 1>"].  When an account with the effective name
    exists, the state stays completely unchanged; otherwise the new account
    is appended under that name with its transactions normalised and a
    balance freshly computed from the payload's transactions, and it becomes
    the current account. *)
Theorem add_account_by_effective_name (env : Env) (s : AppState)
    (payload : AccountBase) :
  let accountName := effectiveName s payload in
  let s' := AppContext.appReducer env s (ADD_ACCOUNT payload) in
  (name payload ≠ "" → accountName = name payload)
  ∧ (accountName ∈ names s → s' = s)
  ∧ (accountName ∉ names s →
       accounts s'
       = accounts s
         ++ [ {| name := accountName;
                 transactions :=
                   imap (λ k tx, AppContext.normalizeTransaction env k (asRaw tx))
                        (transactions payload);
                 balance :=
                   AppContext.calculateAccountBalance (transactions payload) |} ]
       ∧ currentAccount s' = Some accountName
       ∧ isLoading s' = isLoading s
       ∧ error s' = error s
       ∧ isBackendReady s' = isBackendReady s).
Proof.
  intros accountName s'.
  destruct (add_account_cases env s payload) as [Hdup Hnew].
  split; [intros Hn; by apply strOr_id|]. split; [exact Hdup|].
  intros Hfresh. subst s'. by rewrite (Hnew Hfresh).
Qed.

Lemma add_account_by_effective_name_witness :
  AppContext.appReducer Sample.env Sample.oneAccount
    (ADD_ACCOUNT (Sample.emptyAccount "Akun Baru 2"))
  = Sample.oneAccount
  ∧ currentAccount
      (AppContext.appReducer Sample.env Sample.oneAccount
         (ADD_ACCOUNT (Sample.emptyAccount "Bank")))
    = Some "Bank".
Proof.
  pose proof (add_account_by_effective_name Sample.env Sample.oneAccount
                (Sample.emptyAccount "Akun Baru 2")) as (_ & Hdup & _).
  pose proof (add_account_by_effective_name Sample.env Sample.oneAccount
                (Sample.emptyAccount "Bank")) as (_ & _ & Hnew).
  split.
  - apply Hdup. change (names Sample.oneAccount) with ["Akun Baru 2"].
    apply elem_of_cons. by left.
  - apply Hnew. change (names Sample.oneAccount) with ["Akun Baru 2"].
    intros [?|?%elem_of_nil]%elem_of_cons; [discriminate | done].
Defined.

(** Claim C7.  [UPDATE_ACCOUNT n txs] replaces, in every account named [n],
    the transaction list (by the normalised [txs]) and the balance (recomputed
    from [txs]); every account with another name is unchanged, position by
    position, and so are the current-account pointer and the other fields of
    the state.  When no account is named [n] the account list is unchanged. *)
Theorem update_account_frame (env : Env) (s : AppState) (n : string)
    (txs : list TransactionItem) :
  let s' := AppContext.appReducer env s (UPDATE_ACCOUNT n txs) in
  currentAccount s' = currentAccount s
  ∧ isLoading s' = isLoading s
  ∧ error s' = error s
  ∧ isBackendReady s' = isBackendReady s
  ∧ length (accounts s') = length (accounts s)
  ∧ names s' = names s
  ∧ (∀ i acc, accounts s !! i = Some acc → name acc ≠ n →
              accounts s' !! i = Some acc)
  ∧ (∀ i acc, accounts s !! i = Some acc → name acc = n →
              accounts s' !! i
              = Some {| name := n;
                        transactions :=
                          imap (λ k tx, AppContext.normalizeTransaction env k (asRaw tx))
                               txs;
                        balance := AppContext.calculateAccountBalance txs |})
  ∧ (n ∉ names s → accounts s' = accounts s).
Proof.
  intros s'. repeat (split; [reflexivity|]).
  split; [apply length_fmap|]. split; [apply update_names|].
  split; [|split].
  - intros i acc Hi Hn. subst s'; simpl. rewrite list_lookup_fmap, Hi. simpl.
    by destruct (String.eqb_spec (name acc) n).
  - intros i acc Hi Hn. subst s'; simpl. rewrite list_lookup_fmap, Hi. simpl.
    by destruct (String.eqb_spec (name acc) n).
  - apply update_other_name.
Qed.

Lemma update_account_frame_witness :
  accounts (AppContext.appReducer Sample.env Sample.twoAccounts
              (UPDATE_ACCOUNT "Kas" [Sample.jan10; Sample.jan05])) !! 1%nat
  = Some (Sample.emptyAccount "Bank")
  ∧ accounts (AppContext.appReducer Sample.env Sample.twoAccounts
                (UPDATE_ACCOUNT "Gudang" [Sample.jan10]))
    = accounts Sample.twoAccounts.
Proof.
  pose proof (update_account_frame Sample.env Sample.twoAccounts "Kas"
                [Sample.jan10; Sample.jan05]) as (_&_&_&_&_&_& Hother &_).
  pose proof (update_account_frame Sample.env Sample.twoAccounts "Gudang"
                [Sample.jan10]) as (_&_&_&_&_&_&_&_& Hnone).
  split.
  - apply Hother; [reflexivity | discriminate].
  - apply Hnone. change (names Sample.twoAccounts) with ["Kas"; "Bank"].
    rewrite !not_elem_of_cons. repeat split; try discriminate.
    apply not_elem_of_nil.
Defined.

(** ** The current-account pointer *)

Section pointer.

Lemma reachable_dispatchAll env s actions :
  reachable s → reachable (AppContext.dispatchAll env s actions).
Proof.
  revert s. induction actions as [|a actions IH]; intros s Hs; [done|].
  apply IH. by constructor.
Qed.

Lemma reachable_upload env s workbook :
  reachable s → reachable (UploadPage.upload env s workbook).
Proof.
  intros Hs. unfold UploadPage.upload.
  destruct (UploadPage.handleFileUpload env workbook) as [[|a l] d];
    repeat apply reachable_dispatchAll; done.
Qed.

Lemma filter_current_absent (l : list AccountBase) (c : string) :
  c ∉ name <$> l →
  filter (λ acc, Some c = Some (name acc)) l = [].
Proof.
  induction l as [|a l IH]; [done|].
  rewrite fmap_cons, not_elem_of_cons. intros [Hc Hl].
  rewrite filter_cons_False by congruence. by apply IH.
Qed.

Lemma filter_current_unique (l : list AccountBase) (c : string) :
  NoDup (name <$> l) → c ∈ name <$> l →
  length (filter (λ acc, Some c = Some (name acc)) l) = 1%nat.
Proof.
  induction l as [|a l IH]; [by intros _ ?%elem_of_nil|].
  rewrite fmap_cons, NoDup_cons, elem_of_cons. intros [Ha Hl] Hc.
  destruct (decide (c = name a)) as [->|Hne].
  - rewrite filter_cons_True by done.
    by rewrite (filter_current_absent l (name a) Ha).
  - rewrite filter_cons_False by congruence.
    apply IH; [done|]. by destruct Hc.
Qed.

Lemma wellNamed_invariant s : wellNamed s → storeInvariant s.
Proof.
  intros (Hdup & _ & Hcur). unfold storeInvariant, pointerValid, currentCount.
  destruct (currentAccount s) as [c|]; [|by split].
  split; [done|]. intros _. by apply filter_current_unique.
Qed.

Lemma wellNamed_step env s a :
  wellNamed s → admissible s a → wellNamed (AppContext.appReducer env s a).
Proof.
  intros (Hdup & Hne & Hcur) Ha. destruct a as [payload|payload|n txs|payload| | |].
  - (* SET_ACCOUNTS *)
    destruct Ha as (Hdup' & Hne' & Hin). unfold wellNamed, names; simpl.
    rewrite <- list_fmap_compose.
    change (name ∘ _) with name. repeat split; [done..|].
    destruct (currentAccount s) as [c|]; simpl.
    + destruct (String.eqb_spec c ""); [congruence | done].
    + destruct payload as [|a l]; [done|]. simpl.
      rewrite fmap_cons, not_elem_of_cons in Hne'.
      destruct (String.eqb_spec (name a) ""); [destruct Hne'; congruence|].
      apply elem_of_cons. by left.
  - (* SET_CURRENT_ACCOUNT *)
    unfold wellNamed, names; simpl. by destruct payload.
  - (* UPDATE_ACCOUNT *)
    unfold wellNamed. rewrite update_names. repeat split; [done..|].
    change (currentAccount _) with (currentAccount s).
    destruct (currentAccount s); [done|]. simpl. by rewrite Hcur.
  - (* ADD_ACCOUNT *)
    destruct (add_account_cases env s payload) as [Hold Hnew].
    destruct (decide (effectiveName s payload ∈ names s)) as [Hin|Hout].
    + rewrite (Hold Hin). by repeat split.
    + rewrite (Hnew Hout). unfold wellNamed, names; simpl.
      rewrite fmap_app. simpl. repeat split.
      * apply NoDup_app. repeat split; [done| |apply NoDup_singleton].
        intros x Hx ->%list_elem_of_singleton. done.
      * rewrite elem_of_app, list_elem_of_singleton.
        intros [?|Heq]; [done|]. by apply (effectiveName_nonempty s payload).
      * rewrite elem_of_app, list_elem_of_singleton. by right.
  - done.
  - done.
  - done.
Qed.

Lemma reachableAdmissibly_wellNamed s : reachableAdmissibly s → wellNamed s.
Proof.
  induction 1 as [|env s a _ IH Ha].
  - repeat split; [apply NoDup_nil_2 | apply not_elem_of_nil].
  - by apply wellNamed_step.
Qed.

End pointer.

(** Claim C5, as stated: in every reachable state the pointer would be null
    or name an existing account.  After uploading a workbook with the single
    sheet "Kas" into the initial store, the only account is named "Kas" while
    the pointer holds that account's generated id. *)
Lemma upload_leaves_dangling_pointer :
  reachable Sample.uploaded
  ∧ names Sample.uploaded = ["Kas"]
  ∧ currentAccount Sample.uploaded = Some "acc-1705276800000-kas"
  ∧ ¬ storeInvariant Sample.uploaded.
Proof.
  split; [apply reachable_upload, reachable_init|].
  split; [reflexivity|]. split; [reflexivity|].
  intros [Hp _]. unfold pointerValid in Hp.
  change (currentAccount Sample.uploaded)
    with (Some "acc-1705276800000-kas") in Hp.
  change (names Sample.uploaded) with ["Kas"] in Hp.
  apply elem_of_cons in Hp as [?|?%elem_of_nil]; [discriminate | done].
Qed.

(** Claim C5, amended.  The reducer stores the payloads of
    [SET_CURRENT_ACCOUNT] and [SET_ACCOUNTS] without validating them.  In every
    state reached from the initial one by actions whose
    [SET_CURRENT_ACCOUNT] payload names an existing account (or is null while
    there are no accounts) and whose [SET_ACCOUNTS] payload has distinct
    non-empty names including the current one, the pointer is null or the
    name of an existing account, and whenever an account exists exactly one
    account is current. *)
Theorem pointer_valid_under_admissible_actions (s : AppState) :
  reachableAdmissibly s → storeInvariant s.
Proof. intros Hs. by apply wellNamed_invariant, reachableAdmissibly_wellNamed. Qed.

Lemma pointer_valid_under_admissible_actions_witness :
  storeInvariant Sample.twoAccounts.
Proof.
  apply pointer_valid_under_admissible_actions.
  unfold Sample.twoAccounts, AppContext.dispatchAll. cbn [foldl].
  apply admissibly_step; [|exact I].
  apply admissibly_step; [|exact I].
  apply admissibly_init.
Defined.

(** ** The upload path *)

(** A sheet with header
    [tanggal, uraian, jumlah, penerimaan_gaji, pengeluaran_sewa] and the
    single row [2024-01-15, "Gaji bulanan", 0, 5000000, 0], the date typed
    as text, uploaded into any store, yields one account holding exactly one
    transaction: date 2024-01-15, description "Gaji bulanan", income
    [{gaji: 5000000}], no expense, amount 5000000 and running balance
    5000000. *)
Lemma salary_row_uploaded (env : Env) (s : AppState) (sheetName : string) :
  accounts (UploadPage.upload env s [Sample.salarySheet sheetName])
  = [ {| name := Js.strOr sheetName "Akun Tanpa Nama";
         transactions :=
           [ {| id := "tx-" +:+ pretty (now env) +:+ "-1-" +:+ random env 1;
                tanggal := "2024-01-15";
                uraian := "Gaji bulanan";
                penerimaan := {[ "gaji" := 5000000 ]};
                pengeluaran := ∅;
                jumlah := 5000000;
                saldo_berjalan := Some 5000000 |} ];
         balance := 5000000 |} ].
Proof. destruct s as [accs [[|ch c]|] l e b]; reflexivity. Qed.

(** The parser on its own leaves the amount of that row at the value of the
    [jumlah] cell, 0; the amount 5000000 is derived when the accounts are
    handed to the store. *)
Lemma salary_row_parsed (env : Env) (sheetName : string) :
  (jumlah <$> ((UploadPage.handleFileUpload env [Sample.salarySheet sheetName]).1
               ≫= AccountData.transactions)) = [0].
Proof. reflexivity. Qed.

(** ** Amount derivation *)

Section amounts.
Context (env : Env).

Lemma withRunningBalance_derived rb txs :
  Forall amountDerived (TransactionEditor.withRunningBalance rb txs).
Proof.
  revert rb. induction txs as [|tx txs IH]; intros rb; simpl.
  - constructor.
  - constructor; [reflexivity | apply IH].
Qed.

Lemma handleSaveTransaction_derived simpleForm editingId edited updated :
  Forall amountDerived edited →
  TransactionEditor.handleSaveTransaction env simpleForm editingId edited
  = Some updated →
  Forall amountDerived updated.
Proof.
  unfold TransactionEditor.handleSaveTransaction. intros Hed.
  destruct (TransactionEditor.hasErrors simpleForm); [discriminate|].
  destruct (Js.orNull editingId None) as [editingId0|].
  - destruct (find _ edited) as [found|]; intros [= <-]; [|done].
    apply Forall_fmap. eapply Forall_impl; [exact Hed|].
    intros tx Htx. unfold compose.
    destruct (String.eqb (id tx) editingId0); [reflexivity | done].
  - intros [= <-]. apply Forall_app. split; [done|].
    constructor; [reflexivity | constructor].
Qed.

Lemma processRow_amount headers dateCol descCol jumlahCol pCols kCols i row st st' :
  row ≠ [] →
  UploadPage.processRow env headers dateCol descCol jumlahCol pCols kCols i row st
  = Ok st' →
  ∃ tx, UploadPage.txs st' = UploadPage.txs st ++ [tx]
        ∧ jumlah tx = match Js.at_ row jumlahCol with
                      | Some (Js.Num z) => z
                      | _ => 0
                      end.
Proof.
  intros Hrow. unfold UploadPage.processRow.
  destruct row as [|cell row]; [done|].
  destruct (UploadPage.parseExcelDate env _) as [date|msg]; simpl; [|discriminate].
  intros [= <-]. simpl. eexists; split; reflexivity.
Qed.

Lemma mapTransaction_amount k tx :
  jumlah (UploadPage.mapTransaction env k tx)
  = if jumlah tx =? 0 then net tx else jumlah tx.
Proof. reflexivity. Qed.

End amounts.

(** Claim C1, as stated: after the parser pass, too, the amount would equal
    income minus expense.  With 999 typed into the [jumlah] column of the
    salary row, the transaction that reaches the store has amount 999 while
    its income map sums to 5000000. *)
Lemma parsed_amount_taken_from_sheet :
  jumlah <$> (accounts Sample.uploadedOverridden ≫= transactions) = [999]
  ∧ net <$> (accounts Sample.uploadedOverridden ≫= transactions) = [5000000]
  ∧ ¬ Forall amountDerived (accounts Sample.uploadedOverridden ≫= transactions).
Proof.
  split; [reflexivity|]. split; [reflexivity|].
  intros H. apply (Forall_fmap_ext_1 jumlah net) in H.
  vm_compute in H. discriminate H.
Qed.

(** Claim C1, amended.  After [normalizeTransaction] - hence for every
    transaction of an account written by [UPDATE_ACCOUNT] or [ADD_ACCOUNT] -
    and after the editor's recomputation and its save path, the amount equals
    the sum of the income map minus the sum of the expense map.  The parser
    of [handleFileUpload] copies the numeric [jumlah] cell of the row instead
    (0 when the cell is not a number), and [processAndUpdateAccounts] replaces
    an amount by the derived one only when it is 0. *)
Theorem amount_derivation (env : Env) :
  (∀ k raw, amountDerived (AppContext.normalizeTransaction env k raw))
  ∧ (∀ n txs,
       Forall amountDerived (transactions (AppContext.createAccount env n txs)))
  ∧ (∀ txs,
       Forall amountDerived (TransactionEditor.transactionsWithRunningBalance txs))
  ∧ (∀ simpleForm editingId edited updated,
       Forall amountDerived edited →
       TransactionEditor.handleSaveTransaction env simpleForm editingId edited
       = Some updated →
       Forall amountDerived updated)
  ∧ (∀ headers dateCol descCol jumlahCol pCols kCols i row st st',
       row ≠ [] →
       UploadPage.processRow env headers dateCol descCol jumlahCol pCols kCols
                             i row st = Ok st' →
       ∃ tx, UploadPage.txs st' = UploadPage.txs st ++ [tx]
             ∧ jumlah tx = match Js.at_ row jumlahCol with
                           | Some (Js.Num z) => z
                           | _ => 0
                           end)
  ∧ (∀ k tx,
       jumlah (UploadPage.mapTransaction env k tx)
       = if jumlah tx =? 0 then net tx else jumlah tx).
Proof.
  split; [intros; apply normalize_jumlah|].
  split; [intros; apply createAccount_transactions, normalize_jumlah|].
  split; [intros; apply withRunningBalance_derived|].
  split; [apply handleSaveTransaction_derived|].
  split; [apply processRow_amount | apply mapTransaction_amount].
Qed.

Lemma amount_derivation_witness :
  Forall amountDerived
    (TransactionEditor.transactionsWithRunningBalance [Sample.jan10; Sample.jan05]
     ++ [ {| id := "tx-1705276800000"; tanggal := "2024-01-15";
             uraian := "Gaji bulanan";
             penerimaan := {[ "gaji" := 5000000 ]}; pengeluaran := ∅;
             jumlah := 5000000; saldo_berjalan := Some 0 |} ]).
Proof.
  pose proof (amount_derivation Sample.env) as (_ & _ & Hshown & Hsave & _).
  apply (Hsave Sample.salaryForm None
           (TransactionEditor.transactionsWithRunningBalance
              [Sample.jan10; Sample.jan05])).
  - apply Hshown.
  - reflexivity.
Defined.

(** ** Stable sorting *)

Section sorting.
Context {A : Type} (after : A → A → bool).

Lemma insertBy_Permutation x l : Js.insertBy after x l ≡ₚ x :: l.
Proof.
  induction l as [|y l IH]; simpl; [done|].
  destruct (after x y); [|done]. by rewrite IH, Permutation_swap.
Qed.

Lemma sortBy_Permutation l : Js.sortBy after l ≡ₚ l.
Proof.
  induction l as [|x l IH]; simpl; [done|].
  by rewrite insertBy_Permutation, IH.
Qed.

(** Stability: elements the comparator does not separate keep their
    relative order. *)
Lemma insertBy_filter (P : A → Prop) `{!∀ x, Decision (P x)} x l :
  (∀ a b, P a → P b → after a b = false) →
  filter P (Js.insertBy after x l) = filter P (x :: l).
Proof.
  intros Htie. induction l as [|y l IH]; simpl; [done|].
  destruct (after x y) eqn:E; [|done].
  rewrite (filter_cons _ y), IH, !filter_cons.
  destruct (decide (P x)) as [Hx|Hx], (decide (P y)) as [Hy|Hy]; try done.
  rewrite (Htie x y Hx Hy) in E. discriminate.
Qed.

Lemma sortBy_filter (P : A → Prop) `{!∀ x, Decision (P x)} l :
  (∀ a b, P a → P b → after a b = false) →
  filter P (Js.sortBy after l) = filter P l.
Proof.
  intros Htie. induction l as [|x l IH]; simpl; [done|].
  rewrite insertBy_filter by done. by rewrite !filter_cons, IH.
Qed.

(** Sortedness, for a comparator that decides a transitive order [R] on the
    elements satisfying [Q]. *)
Context (R : relation A) (Q : A → Prop).
Context (R_trans : ∀ x y z, R x y → R y z → R x z).
Context (after_false : ∀ x y, Q x → Q y → after x y = false → R x y).
Context (after_true : ∀ x y, Q x → Q y → after x y = true → R y x).

Lemma insertBy_sorted x l :
  Q x → Forall Q l → StronglySorted R l →
  StronglySorted R (Js.insertBy after x l).
Proof.
  intros Hx. induction l as [|y l IH]; simpl; intros HQ Hs.
  - repeat constructor.
  - apply Forall_cons in HQ as [Hy HQ].
    apply StronglySorted_inv in Hs as [Hs Hall].
    destruct (after x y) eqn:E.
    + constructor; [by apply IH|].
      rewrite insertBy_Permutation. constructor; [by apply after_true | done].
    + constructor; [by constructor|].
      constructor; [by apply after_false|].
      eapply Forall_impl; [exact Hall|]. intros z Hz.
      eapply R_trans; [|exact Hz]. by apply after_false.
Qed.

Lemma sortBy_sorted l : Forall Q l → StronglySorted R (Js.sortBy after l).
Proof.
  induction l as [|x l IH]; simpl; intros HQ; [constructor|].
  apply Forall_cons in HQ as [Hx HQ].
  apply insertBy_sorted; [done| |by apply IH].
  by rewrite sortBy_Permutation.
Qed.

End sorting.

Lemma StronglySorted_fmap_strict {A B} (R : relation A) (S : relation B)
    (f : A → B) (l : list A) :
  (∀ x y, R x y → S (f x) (f y)) →
  StronglySorted R l → StronglySorted S (f <$> l).
Proof.
  intros HRS. induction 1 as [|x l Hs IH Hall]; csimpl; constructor; [done|].
  apply Forall_fmap. eapply Forall_impl; [exact Hall|]. intros y. apply HRS.
Qed.

(** ** Running totals *)

Section running.

Lemma runningTotals_length start amounts :
  length (runningTotals start amounts) = length amounts.
Proof.
  revert start. induction amounts as [|a l IH]; intros start; simpl; [done|].
  by rewrite IH.
Qed.

Lemma runningTotals_lookup start amounts i a :
  amounts !! i = Some a →
  runningTotals start amounts !! i
  = Some (match i with
          | O => start
          | S j => default 0 (runningTotals start amounts !! j)
          end + a).
Proof.
  revert start i. induction amounts as [|a0 l IH]; intros start i Hi; [done|].
  destruct i as [|i]; simpl in *.
  - by simplify_eq.
  - rewrite (IH _ _ Hi). by destruct i.
Qed.

Lemma runningTotals_accumulates amounts :
  accumulates amounts (runningTotals 0 amounts).
Proof.
  split; [apply runningTotals_length|]. intros i a Hi.
  rewrite (runningTotals_lookup 0 amounts i a Hi). by destruct i.
Qed.

Lemma step_running host st l :
  let final := foldl (ReportsPage.step host) st l in
  BalanceReport.date <$> ReportsPage.runningBalanceData final
  = (BalanceReport.date <$> ReportsPage.runningBalanceData st) ++ (tanggal <$> l)
  ∧ BalanceReport.balance <$> ReportsPage.runningBalanceData final
    = (BalanceReport.balance <$> ReportsPage.runningBalanceData st) ++ (net <$> l)
  ∧ BalanceReport.runningBalance <$> ReportsPage.runningBalanceData final
    = (BalanceReport.runningBalance <$> ReportsPage.runningBalanceData st)
      ++ runningTotals (ReportsPage.runningBalance st) (net <$> l).
Proof.
  revert st. induction l as [|tx l IH]; intros st; simpl.
  - by rewrite !app_nil_r.
  - destruct (IH (ReportsPage.step host st tx)) as (Hd & Hb & Hr).
    rewrite Hd, Hb, Hr. simpl. rewrite !fmap_app, <- !app_assoc. simpl.
    unfold net. by rewrite !sumNumbers_sumValues.
Qed.

Lemma withRunningBalance_series rb txs :
  tanggal <$> TransactionEditor.withRunningBalance rb txs = tanggal <$> txs
  ∧ saldo_berjalan <$> TransactionEditor.withRunningBalance rb txs
    = Some <$> runningTotals rb (net <$> txs).
Proof.
  revert rb. induction txs as [|tx txs IH]; intros rb; [done|].
  destruct (IH (rb + net tx)) as [Hd Hs].
  cbn [TransactionEditor.withRunningBalance]. rewrite !fmap_cons.
  cbn [runningTotals]. rewrite fmap_cons.
  fold (net tx). by rewrite Hd, Hs.
Qed.

End running.

(** ** Chronological order *)

Section chronology.
Context (host : JsDate.Host).

Lemma chronological_trans a b c :
  chronological host a b → chronological host b c → chronological host a c.
Proof.
  unfold chronological.
  destruct (timeOf host a), (timeOf host b), (timeOf host c); try done. lia.
Qed.

Lemma dateAfter_false a b :
  validDate host a → validDate host b → ReportsPage.dateAfter host a b = false →
  chronological host a b.
Proof.
  unfold validDate, chronological, ReportsPage.dateAfter, timeOf.
  intros [ta ->] [tb ->]. lia.
Qed.

Lemma dateAfter_true a b :
  validDate host a → validDate host b → ReportsPage.dateAfter host a b = true →
  chronological host b a.
Proof.
  unfold validDate, chronological, ReportsPage.dateAfter, timeOf.
  intros [ta ->] [tb ->]. lia.
Qed.

Lemma dateAfter_tie t a b :
  timeOf host a = Some t → timeOf host b = Some t → ReportsPage.dateAfter host a b = false.
Proof.
  unfold ReportsPage.dateAfter, timeOf. intros -> ->. lia.
Qed.

End chronology.

(** ** Running balances *)

(** Claim C3, as stated: every running-balance series would be computed
    over the date-sorted list.  The editor's series follows the list as it
    is: for the transactions dated 2024-01-10 (+100) and 2024-01-05 (-30),
    inserted in that order, it shows 100 on 2024-01-10 and then 70 on
    2024-01-05, which is not chronological. *)
Lemma editor_series_in_insertion_order :
  (λ t, (tanggal t, saldo_berjalan t))
    <$> TransactionEditor.transactionsWithRunningBalance [Sample.jan10; Sample.jan05]
  = [("2024-01-10", Some 100); ("2024-01-05", Some 70)]
  ∧ ¬ StronglySorted (chronological (host Sample.env))
        (TransactionEditor.transactionsWithRunningBalance
           [Sample.jan10; Sample.jan05]).
Proof.
  split; [reflexivity|].
  intros [_ [H _]%Forall_cons]%StronglySorted_inv.
  vm_compute in H. by apply H.
Qed.

(** Claim C3, amended.  [generateReports] computes the running-balance
    series over the account's transactions sorted by date ascending, the
    sort being stable (transactions of one date keep their relative order),
    with [runningBalance[i] = runningBalance[i-1] + amount[i]] and
    [runningBalance[-1] = 0], the amount being income minus expense; this
    holds for transactions whose dates parse.  For the transactions dated
    2024-01-10 (+100) and 2024-01-05 (-30), inserted in that order, the
    report's series is -30 then 70.  The editor's
    [transactionsWithRunningBalance] accumulates by the same recurrence but
    over the list in the order given, without sorting. *)
Theorem running_balance_series (host : JsDate.Host) :
  (∀ account r,
     Forall (validDate host) (transactions account) →
     ReportsPage.generateReports host (Some account) = Some r →
     ∃ sorted,
       sorted ≡ₚ transactions account
       ∧ StronglySorted (chronological host) sorted
       ∧ (∀ t, filter (λ x, timeOf host x = Some t) sorted
               = filter (λ x, timeOf host x = Some t) (transactions account))
       ∧ BalanceReport.date <$> ReportData.running r = tanggal <$> sorted
       ∧ BalanceReport.balance <$> ReportData.running r = net <$> sorted
       ∧ accumulates (net <$> sorted)
                     (BalanceReport.runningBalance <$> ReportData.running r))
  ∧ ReportData.running <$> ReportsPage.generateReports host (Some Sample.ledger)
    = Some [ {| BalanceReport.date := "2024-01-05";
                BalanceReport.income := 0;
                BalanceReport.expense := 30;
                BalanceReport.balance := -30;
                BalanceReport.runningBalance := -30 |};
             {| BalanceReport.date := "2024-01-10";
                BalanceReport.income := 100;
                BalanceReport.expense := 0;
                BalanceReport.balance := 100;
                BalanceReport.runningBalance := 70 |} ]
  ∧ (∀ txs, ∃ balances,
       tanggal <$> TransactionEditor.transactionsWithRunningBalance txs
       = tanggal <$> txs
       ∧ saldo_berjalan <$> TransactionEditor.transactionsWithRunningBalance txs
         = Some <$> balances
       ∧ accumulates (net <$> txs) balances).
Proof.
  split; [|split].
  - intros account r Hvalid [= <-].
    exists (Js.sortBy (ReportsPage.dateAfter host) (transactions account)).
    split; [apply sortBy_Permutation|].
    split.
    { apply (sortBy_sorted _ (chronological host) (validDate host));
        [apply chronological_trans | apply dateAfter_false
         | apply dateAfter_true | done]. }
    split.
    { intros t. apply sortBy_filter. intros a b. apply dateAfter_tie. }
    simpl.
    destruct (step_running host
                {| ReportsPage.monthlyData := ∅; ReportsPage.yearlyData := ∅;
                   ReportsPage.runningBalanceData := [];
                   ReportsPage.runningBalance := 0 |}
                (Js.sortBy (ReportsPage.dateAfter host) (transactions account)))
      as (Hd & Hb & Hr).
    simpl in Hd, Hb, Hr. rewrite Hd, Hb, Hr.
    repeat split; apply runningTotals_accumulates.
  - reflexivity.
  - intros txs. exists (runningTotals 0 (net <$> txs)).
    destruct (withRunningBalance_series 0 txs) as [Hd Hs].
    split; [exact Hd|]. split; [exact Hs | apply runningTotals_accumulates].
Qed.

Lemma running_balance_series_witness :
  ∃ sorted,
    sorted ≡ₚ [Sample.jan10; Sample.jan05]
    ∧ StronglySorted (chronological (host Sample.env)) sorted
    ∧ BalanceReport.runningBalance
        <$> [ {| BalanceReport.date := "2024-01-05";
                 BalanceReport.income := 0;
                 BalanceReport.expense := 30;
                 BalanceReport.balance := -30;
                 BalanceReport.runningBalance := -30 |};
              {| BalanceReport.date := "2024-01-10";
                 BalanceReport.income := 100;
                 BalanceReport.expense := 0;
                 BalanceReport.balance := 100;
                 BalanceReport.runningBalance := 70 |} ]
      = [-30; 70]
    ∧ accumulates (net <$> sorted) [-30; 70].
Proof.
  destruct (proj1 (running_balance_series (host Sample.env)) Sample.ledger
              (default
                 {| ReportData.monthly := []; ReportData.yearly := [];
                    ReportData.running := [];
                    ReportData.income_statement :=
                      {| IncomeStatement.income := ∅;
                         IncomeStatement.expenses := ∅;
                         IncomeStatement.net_income := 0 |};
                    ReportData.net_cash_flow := 0 |}
                 (ReportsPage.generateReports (host Sample.env) (Some Sample.ledger))))
    as (sorted & Hperm & Hsorted & _ & _ & _ & Hacc).
  - repeat constructor; eexists; vm_compute; reflexivity.
  - reflexivity.
  - exists sorted. split; [exact Hperm|]. split; [exact Hsorted|].
    split; [reflexivity | exact Hacc].
Defined.

(** ** Period aggregates *)

Section aggregates.

Lemma sumZ_Permutation (l1 l2 : list Z) : l1 ≡ₚ l2 → sumZ l1 = sumZ l2.
Proof. intros H. induction H; simpl; lia. Qed.

Lemma sumZ_fmap_Permutation {A} (g : A → Z) (l1 l2 : list A) :
  l1 ≡ₚ l2 → sumZ (g <$> l1) = sumZ (g <$> l2).
Proof. intros H. apply sumZ_Permutation. by rewrite H. Qed.

Lemma foldl_add {A} (g : A → Z) (start : Z) (l : list A) :
  foldl (λ sum r, sum + g r) start l = start + sumZ (g <$> l).
Proof.
  revert start. induction l as [|x l IH]; intros start; csimpl; [lia|].
  rewrite IH. lia.
Qed.

Lemma calculateAccountBalance_sum txs :
  AppContext.calculateAccountBalance txs = sumZ (net <$> txs).
Proof.
  exact (foldl_add net 0 txs).
Qed.

Lemma bucketNet_insert k (x : ReportsPage.Sums) data :
  data !! k = None →
  bucketNet (<[k := x]> data)
  = bucketNet data + (ReportsPage.income x - ReportsPage.expense x).
Proof.
  intros Hk. unfold bucketNet.
  rewrite (sumZ_fmap_Permutation _ _ _ (map_to_list_insert data k x Hk)).
  csimpl. lia.
Qed.

Lemma bucketNet_addTo k income0 expense0 data :
  bucketNet (ReportsPage.addTo k income0 expense0 data)
  = bucketNet data + (income0 - expense0).
Proof.
  unfold ReportsPage.addTo. destruct (data !! k) as [cur|] eqn:Hk; simpl.
  - rewrite <- insert_delete_eq.
    rewrite bucketNet_insert by apply lookup_delete_eq.
    rewrite <- (insert_delete_id data k cur Hk) at 2.
    rewrite bucketNet_insert by apply lookup_delete_eq.
    simpl. lia.
  - rewrite bucketNet_insert by done. simpl. lia.
Qed.

Lemma step_buckets host st l :
  let final := foldl (ReportsPage.step host) st l in
  bucketNet (ReportsPage.monthlyData final)
  = bucketNet (ReportsPage.monthlyData st) + sumZ (net <$> l)
  ∧ bucketNet (ReportsPage.yearlyData final)
    = bucketNet (ReportsPage.yearlyData st) + sumZ (net <$> l).
Proof.
  revert st. induction l as [|tx l IH]; intros st; csimpl; [lia|].
  destruct (IH (ReportsPage.step host st tx)) as [Hm Hy].
  rewrite Hm, Hy. cbn [ReportsPage.step ReportsPage.monthlyData
                       ReportsPage.yearlyData].
  rewrite !bucketNet_addTo.
  unfold net. rewrite !sumNumbers_sumValues. lia.
Qed.

Lemma periodReports_net data :
  netOfPeriods (ReportsPage.periodReports data) = bucketNet data.
Proof.
  unfold netOfPeriods, ReportsPage.periodReports, bucketNet.
  rewrite <- list_fmap_compose.
  apply sumZ_fmap_Permutation, sortBy_Permutation.
Qed.

Lemma compare_refl s : String.compare s s = Eq.
Proof. by apply OrderedTypeEx.String_as_OT.cmp_eq. Qed.

Lemma keyLe_trans a b c : keyLe a b → keyLe b c → keyLe a c.
Proof.
  unfold keyLe. intros Hab Hbc.
  destruct (String.compare a.1 b.1) eqn:E1; [| |done].
  - apply OrderedTypeEx.String_as_OT.cmp_eq in E1. by rewrite E1.
  - destruct (String.compare b.1 c.1) eqn:E2; [| |done].
    + apply OrderedTypeEx.String_as_OT.cmp_eq in E2. rewrite <- E2, E1. done.
    + apply OrderedTypeEx.String_as_OT.cmp_lt in E1, E2.
      pose proof (OrderedTypeEx.String_as_OT.lt_trans _ _ _ E1 E2) as H.
      apply OrderedTypeEx.String_as_OT.cmp_lt in H.
      unfold OrderedTypeEx.String_as_OT.cmp in H. by rewrite H.
Qed.

Lemma sorted_keys_strict (l : list (string * ReportsPage.Sums)) :
  NoDup l.*1 → StronglySorted keyLe l →
  StronglySorted (λ a b, String.compare a.1 b.1 = Lt) l.
Proof.
  intros Hnd Hs. induction Hs as [|x l Hs IH Hall]; [constructor|].
  rewrite fmap_cons in Hnd. apply NoDup_cons in Hnd as [Hx Hnd].
  constructor; [by apply IH|].
  apply Forall_forall. intros y Hy.
  rewrite Forall_forall in Hall. specialize (Hall y Hy). unfold keyLe in Hall.
  destruct (String.compare x.1 y.1) eqn:E; [|done|done].
  apply OrderedTypeEx.String_as_OT.cmp_eq in E.
  destruct Hx. rewrite E. apply list_elem_of_fmap. by exists y.
Qed.

Lemma periodReports_sorted data :
  StronglySorted periodBefore (ReportsPage.periodReports data).
Proof.
  unfold ReportsPage.periodReports.
  apply (StronglySorted_fmap_strict
           (λ a b : string * ReportsPage.Sums, String.compare a.1 b.1 = Lt));
    [done|].
  apply sorted_keys_strict.
  - rewrite sortBy_Permutation. apply NoDup_fst_map_to_list.
  - apply (sortBy_sorted _ keyLe (λ _, True)).
    + apply keyLe_trans.
    + intros x y _ _. unfold keyLe, Js.localeAfter.
      by destruct (String.compare x.1 y.1).
    + intros x y _ _. unfold keyLe, Js.localeAfter.
      rewrite (String.compare_antisym x.1 y.1).
      by destruct (String.compare y.1 x.1).
    + by apply Forall_forall.
Qed.

Lemma createAccount_balanced env n txs :
  balanced (AppContext.createAccount env n txs).
Proof.
  unfold balanced; simpl. rewrite !calculateAccountBalance_sum. f_equal.
  apply list_eq. intros i.
  rewrite !list_lookup_fmap, list_lookup_imap.
  destruct (txs !! i) as [tx|]; simpl; [|done].
  by rewrite normalize_net.
Qed.

Lemma reachable_balanced s : reachable s → Forall balanced (accounts s).
Proof.
  induction 1 as [|env s a _ IH]; [constructor|].
  destruct a as [payload|payload|n txs|payload| | |]; simpl; try done.
  - apply Forall_fmap, Forall_forall. intros acc _. reflexivity.
  - apply Forall_fmap. eapply Forall_impl; [exact IH|].
    intros acc Hacc. unfold compose.
    destruct (String.eqb (name acc) n); [apply createAccount_balanced | done].
  - destruct (existsb _ (accounts s)); [done|]. simpl.
    apply Forall_app. split; [done|].
    constructor; [apply createAccount_balanced | constructor].
Qed.

End aggregates.

Lemma generateReports_nets host account r :
  ReportsPage.generateReports host (Some account) = Some r →
  netOfPeriods (ReportData.monthly r)
  = AppContext.calculateAccountBalance (transactions account)
  ∧ netOfPeriods (ReportData.yearly r)
    = AppContext.calculateAccountBalance (transactions account).
Proof.
  intros [= <-]. cbn [ReportData.monthly ReportData.yearly].
  rewrite !periodReports_net, calculateAccountBalance_sum.
  destruct (step_buckets host
              {| ReportsPage.monthlyData := ∅; ReportsPage.yearlyData := ∅;
                 ReportsPage.runningBalanceData := [];
                 ReportsPage.runningBalance := 0 |}
              (Js.sortBy (ReportsPage.dateAfter host) (transactions account)))
    as [Hm Hy].
  rewrite Hm, Hy. cbn [ReportsPage.monthlyData ReportsPage.yearlyData].
  rewrite (sumZ_fmap_Permutation net _ _ (sortBy_Permutation _ _)).
  unfold bucketNet. rewrite map_to_list_empty.
  split; reflexivity.
Qed.

(** Claim C4, as stated: the bucket sums would equal the sum of the
    transaction amounts.  The store after the upload of the sheet with 999
    in its [jumlah] column is reachable; its one account has the monthly and
    the yearly bucket sum 5000000, which is its stored balance, while its
    transaction amounts sum to 999. *)
Lemma bucket_sums_differ_from_amounts :
  reachable Sample.uploadedOverridden
  ∧ ∃ account r,
      accounts Sample.uploadedOverridden = [account]
      ∧ ReportsPage.generateReports (host Sample.env) (Some account) = Some r
      ∧ netOfPeriods (ReportData.monthly r) = 5000000
      ∧ netOfPeriods (ReportData.yearly r) = 5000000
      ∧ balance account = 5000000
      ∧ sumZ (jumlah <$> transactions account) = 999
      ∧ netOfPeriods (ReportData.yearly r)
        ≠ sumZ (jumlah <$> transactions account).
Proof.
  split; [apply reachable_upload, reachable_init|].
  destruct (accounts Sample.uploadedOverridden) as [|account rest] eqn:Haccounts;
    [discriminate Haccounts|].
  destruct rest; [|discriminate Haccounts].
  injection Haccounts as <-.
  eexists _, _. split; [reflexivity|]. split; [reflexivity|].
  repeat split; try (vm_compute; reflexivity).
  vm_compute. discriminate.
Qed.

(** Claim C4, amended.  For every account the report is produced, and the
    net balances (income minus expense) of its monthly buckets and those of
    its yearly buckets have the same sum: the sum over the account's
    transactions of income minus expense, which is the balance
    [calculateAccountBalance] derives and the balance stored with every
    account of a reachable store.  It is the sum of the transaction amounts
    when every amount is the derived one.  Both bucket lists come out in
    strictly ascending order of their period key.  (Amounts are integers
    here, so the sums agree exactly.) *)
Theorem aggregate_conservation (host : JsDate.Host) :
  (∀ account,
     ∃ r, ReportsPage.generateReports host (Some account) = Some r
          ∧ netOfPeriods (ReportData.monthly r)
            = netOfPeriods (ReportData.yearly r)
          ∧ netOfPeriods (ReportData.yearly r)
            = sumZ (net <$> transactions account)
          ∧ sumZ (net <$> transactions account)
            = AppContext.calculateAccountBalance (transactions account)
          ∧ (Forall amountDerived (transactions account) →
             netOfPeriods (ReportData.yearly r)
             = sumZ (jumlah <$> transactions account))
          ∧ StronglySorted periodBefore (ReportData.monthly r)
          ∧ StronglySorted periodBefore (ReportData.yearly r))
  ∧ (∀ s account,
       reachable s → account ∈ accounts s →
       balance account
       = AppContext.calculateAccountBalance (transactions account)).
Proof.
  split.
  - intros account. eexists. split; [reflexivity|].
    destruct (generateReports_nets host account _ eq_refl) as [Hm Hy].
    rewrite Hm, Hy, calculateAccountBalance_sum.
    split; [reflexivity|]. split; [reflexivity|]. split; [reflexivity|].
    split; [|split; apply periodReports_sorted].
    intros Hderived. f_equal. symmetry.
    apply Forall_fmap_ext_1, Hderived.
  - intros s account Hs Hin.
    pose proof (reachable_balanced s Hs) as Hall.
    rewrite Forall_forall in Hall. by apply Hall.
Qed.

Lemma aggregate_conservation_witness :
  ∃ r, ReportsPage.generateReports (host Sample.env) (Some Sample.ledger) = Some r
       ∧ netOfPeriods (ReportData.monthly r) = 70
       ∧ netOfPeriods (ReportData.yearly r) = 70
       ∧ sumZ (jumlah <$> transactions Sample.ledger) = 70.
Proof.
  destruct (proj1 (aggregate_conservation (host Sample.env)) Sample.ledger)
    as (r & Hr & Hmy & Hy & _ & Hamounts & _).
  exists r. split; [exact Hr|].
  assert (Hderived : Forall amountDerived (transactions Sample.ledger)).
  { repeat constructor. }
  rewrite Hmy, <- (Hamounts Hderived).
  repeat split; exact Hy.
Defined.

(** ** The calendar *)

Section calendar.

Lemma allFrom_spec p start count x :
  allFrom p start count = true →
  start ≤ x < start + Z.of_nat count → p x = true.
Proof.
  revert start. induction count as [|c IH]; intros start Hall Hx; [lia|].
  simpl in Hall. destruct (p start) eqn:Hp; [|discriminate].
  destruct (decide (x = start)) as [->|Hne]; [done|].
  apply (IH (start + 1)); [done | lia].
Qed.

Lemma cycleOk_all doe : 0 ≤ doe < 146097 → cycleOk doe = true.
Proof.
  intros Hdoe.
  assert (Hall : allFrom cycleOk 0 (Z.to_nat 146097) = true)
    by (vm_compute; reflexivity).
  apply (allFrom_spec _ _ _ doe Hall). lia.
Qed.

(** [days_from_civil] undoes [civil_from_days]. *)
Lemma civil_roundtrip z :
  JsDate.days_from_civil (JsDate.civil_from_days z).1.1
                         (JsDate.civil_from_days z).1.2
                         (JsDate.civil_from_days z).2 = z.
Proof.
  pose proof (Z.div_mod (z + 719468) 146097 ltac:(lia)) as Hdm.
  pose proof (Z.mod_pos_bound (z + 719468) 146097 ltac:(lia)) as Hb.
  pose proof (cycleOk_all ((z + 719468) mod 146097) Hb) as Hok.
  unfold cycleOk in Hok. unfold JsDate.civil_from_days, JsDate.days_from_civil.
  replace (z + 719468 - (z + 719468) / 146097 * 146097)
    with ((z + 719468) mod 146097) by lia.
  set (era := (z + 719468) / 146097) in *.
  set (doe := (z + 719468) mod 146097) in *.
  set (yoe := (doe - doe / 1460 + doe / 36524 - doe / 146096) / 365) in *.
  set (doy := doe - (365 * yoe + yoe / 4 - yoe / 100)) in *.
  set (mp := (5 * doy + 2) / 153) in *.
  set (d := doy - (153 * mp + 2) / 5 + 1) in *.
  set (m := if mp <? 10 then mp + 3 else mp - 9) in *.
  cbn [fst snd].
  repeat (apply andb_prop in Hok as [Hok ?]).
  assert (Hy : (if m <=? 2
                then (if m <=? 2 then yoe + era * 400 + 1 else yoe + era * 400) - 1
                else (if m <=? 2 then yoe + era * 400 + 1 else yoe + era * 400))
               = yoe + era * 400)
    by (destruct (m <=? 2); lia).
  rewrite Hy.
  assert (Hera : (yoe + era * 400) / 400 = era).
  { rewrite Z.div_add by lia. rewrite Z.div_small by lia. lia. }
  rewrite Hera. apply Z.eqb_eq in H.
  set (mp' := if m >? 2 then m - 3 else m + 9) in *.
  clearbody mp' m d mp doy yoe doe era. clear Hy Hera.
  replace (yoe + era * 400 - era * 400) with yoe by lia. lia.
Qed.

(** Moving the local day of month back by one moves the local time back by
    one day; the time value is that local time taken back to UTC. *)
Lemma setDate_previous host t :
  JsDate.setDate host (Some t) ((λ d, d - 1) <$> JsDate.getDate host (Some t))
  = JsDate.TimeClip
      (JsDate.UTC host (JsDate.LocalTime host t - JsDate.msPerDay)).
Proof.
  unfold JsDate.setDate, JsDate.getDate.
  cbn [fmap option_fmap option_map mbind option_bind].
  set (l := JsDate.LocalTime host t).
  pose proof (civil_roundtrip (l / JsDate.msPerDay)) as Hrt.
  destruct (JsDate.civil_from_days (l / JsDate.msPerDay)) as [[y m] d].
  cbn [fst snd] in *. do 2 f_equal.
  assert (Hlin : JsDate.days_from_civil y m 1 + (d - 1 - 1)
                 = JsDate.days_from_civil y m d - 1)
    by (unfold JsDate.days_from_civil; lia).
  rewrite Hlin, Hrt. unfold JsDate.msPerDay.
  pose proof (Z.div_mod l 86400000 ltac:(lia)). lia.
Qed.

End calendar.

(** ** Dates of sheet cells *)

Section cellDates.
Context (env : Env).

Lemma excelEpoch_value : UploadPage.excelEpoch = -2209161600000.
Proof. reflexivity. Qed.

Lemma TimeClip_in_range t :
  - JsDate.maxTime ≤ t ≤ JsDate.maxTime → JsDate.TimeClip t = Some t.
Proof.
  intros Ht. unfold JsDate.TimeClip.
  destruct (Z.leb_spec (Z.abs t) JsDate.maxTime); [done | lia].
Qed.

Lemma TimeClip_out_of_range t :
  JsDate.maxTime < t → JsDate.TimeClip t = None.
Proof.
  intros Ht. unfold JsDate.TimeClip.
  destruct (Z.leb_spec (Z.abs t) JsDate.maxTime); [lia | done].
Qed.

Lemma parseExcelDate_positive n :
  0 < n →
  UploadPage.parseExcelDate env (Js.Num n)
  = JsDate.toISODate
      (let date := JsDate.TimeClip (UploadPage.excelEpoch + n * 86400000) in
       if n >=? 60
       then JsDate.setDate (host env) date
              ((λ d, d - 1) <$> JsDate.getDate (host env) date)
       else date).
Proof.
  intros Hn. unfold UploadPage.parseExcelDate. cbn [Js.truthy].
  destruct (Z.eqb_spec n 0) as [->|_]; [lia|]. cbn [negb andb].
  destruct (Z.gtb_spec n 0); [done | lia].
Qed.

Lemma parseExcelDate_early n :
  0 < n < 60 →
  UploadPage.parseExcelDate env (Js.Num n)
  = Ok (JsDate.isoDate (UploadPage.excelEpoch + n * 86400000)).
Proof.
  intros Hn. rewrite parseExcelDate_positive by lia. cbn zeta.
  destruct (Z.geb_spec n 60); [lia|].
  rewrite TimeClip_in_range; [done|].
  rewrite excelEpoch_value. unfold JsDate.maxTime. lia.
Qed.

Lemma isoDate_same_day a b :
  a / JsDate.msPerDay = b / JsDate.msPerDay → JsDate.isoDate a = JsDate.isoDate b.
Proof. unfold JsDate.isoDate. by intros ->. Qed.

(** From serial 60 on the date is moved back by one local day. *)
Lemma parseExcelDate_shifted n :
  60 ≤ n ≤ maxSerial →
  UploadPage.parseExcelDate env (Js.Num n)
  = Ok (JsDate.isoDate
          (JsDate.UTC (host env)
             (JsDate.LocalTime (host env) (UploadPage.excelEpoch + n * 86400000)
              - JsDate.msPerDay))).
Proof.
  intros Hn. unfold maxSerial in Hn.
  rewrite parseExcelDate_positive by lia. cbn zeta.
  destruct (Z.geb_spec n 60); [|lia].
  rewrite TimeClip_in_range
    by (rewrite excelEpoch_value; unfold JsDate.maxTime; lia).
  rewrite setDate_previous.
  rewrite TimeClip_in_range; [done|].
  unfold JsDate.UTC, JsDate.LocalTime.
  set (t := UploadPage.excelEpoch + n * 86400000).
  pose proof (JsDate.LocalTZA_day (host env) t) as Hday.
  subst t. rewrite excelEpoch_value in *.
  unfold JsDate.maxTime, JsDate.msPerDay in *. lia.
Qed.

(** The day that results, by the offset of local time at the instant of the
    serial ([current]) and at the local time a day earlier ([earlier]). *)
Lemma parseExcelDate_shifted_day n :
  60 ≤ n ≤ maxSerial →
  let t := UploadPage.excelEpoch + n * 86400000 in
  let current := JsDate.LocalTZA (host env) t true in
  let earlier :=
    JsDate.LocalTZA (host env)
      (JsDate.LocalTime (host env) t - JsDate.msPerDay) false in
  UploadPage.parseExcelDate env (Js.Num n)
  = Ok (JsDate.isoDate
          (UploadPage.excelEpoch
           + (if current <? earlier then n - 2
              else if current - earlier <? JsDate.msPerDay then n - 1
              else n) * 86400000)).
Proof.
  intros Hn t current earlier. rewrite parseExcelDate_shifted by done.
  f_equal. apply isoDate_same_day.
  subst earlier current t. unfold JsDate.UTC, JsDate.LocalTime.
  set (t := UploadPage.excelEpoch + n * 86400000).
  set (current := JsDate.LocalTZA (host env) t true).
  set (earlier := JsDate.LocalTZA (host env) (t + current - JsDate.msPerDay) false).
  pose proof (JsDate.LocalTZA_day (host env) t) as Hmoves.
  fold current earlier in Hmoves. clearbody earlier current. subst t.
  rewrite excelEpoch_value. unfold JsDate.msPerDay in *.
  assert (Hday : ∀ k, (-2209161600000 + k * 86400000) / 86400000 = -25569 + k)
    by (intros k; symmetry; apply (Z.div_unique _ _ _ 0); lia).
  rewrite Hday. symmetry.
  destruct (Z.ltb_spec current earlier);
    [|destruct (Z.ltb_spec (current - earlier) 86400000)].
  - apply (Z.div_unique _ _ _ (86400000 + (current - earlier))); lia.
  - apply (Z.div_unique _ _ _ (current - earlier)); lia.
  - apply (Z.div_unique _ _ _ 0); lia.
Qed.

Lemma parseExcelDate_overflow n :
  maxSerial < n →
  UploadPage.parseExcelDate env (Js.Num n) = Throw "Invalid time value".
Proof.
  intros Hn. unfold maxSerial in Hn.
  rewrite parseExcelDate_positive by lia. cbn zeta.
  destruct (Z.geb_spec n 60); [|lia].
  rewrite TimeClip_out_of_range
    by (rewrite excelEpoch_value; unfold JsDate.maxTime; lia).
  reflexivity.
Qed.

Lemma parseExcelDate_cases value :
  (readable value = true ∧ ∃ date, UploadPage.parseExcelDate env value = Ok date)
  ∨ (∃ n msg, value = Js.Num n ∧ maxSerial < n
              ∧ UploadPage.parseExcelDate env value = Throw msg).
Proof.
  destruct value as [| |b|n|s|props].
  - left. split; [done|]. by eexists.
  - left. split; [done|]. by eexists.
  - left. split; [done|]. unfold UploadPage.parseExcelDate.
    destruct b; simpl; by eexists.
  - destruct (decide (n ≤ maxSerial)) as [Hin|Hout].
    + left. split; [by apply Z.leb_le|].
      destruct (decide (n ≤ 0)) as [Hle|Hpos].
      * unfold UploadPage.parseExcelDate. cbn [Js.truthy].
        destruct (Z.eqb_spec n 0) as [->|Hn0]; [by eexists|].
        cbn [negb andb]. destruct (Z.gtb_spec n 0); [lia|].
        destruct (JsDate.ofValue (host env) (Js.Num n)); by eexists.
      * destruct (decide (n < 60)) as [Hlt|Hge].
        { rewrite parseExcelDate_early by lia. by eexists. }
        rewrite parseExcelDate_shifted by lia. by eexists.
    + right. exists n. eexists. split; [done|]. split; [lia|].
      apply parseExcelDate_overflow. lia.
  - left. split; [done|]. unfold UploadPage.parseExcelDate. cbn [Js.truthy].
    destruct (String.eqb s ""); cbn [negb andb]; [by eexists|].
    destruct (JsDate.isIsoDateShape s); [by eexists|].
    destruct (JsDate.ofValue (host env) (Js.Str s)); by eexists.
  - left. split; [done|]. unfold UploadPage.parseExcelDate.
    cbn [Js.truthy negb andb].
    destruct (JsDate.ofValue (host env) (Js.Obj props)); by eexists.
Qed.

Lemma parseExcelDate_result value :
  if readable value
  then ∃ date, UploadPage.parseExcelDate env value = Ok date
  else ∃ msg, UploadPage.parseExcelDate env value = Throw msg.
Proof.
  destruct (parseExcelDate_cases value) as [[-> Hok]|(n & msg & -> & Hn & Hmsg)];
    [done|].
  cbn [readable]. destruct (Z.leb_spec n maxSerial); [lia|]. by exists msg.
Qed.

End cellDates.

(** Claim C2, at the sheet whose date is a date cell.  The workbook is read
    without conversion of dates, so the cell of 2024-01-15 arrives as the
    serial number 45306 of that day.  [parseExcelDate] counts the serial
    from 1899-12-30 and then moves the date back by one more local day: on
    every host whose offset a local day earlier is the offset at that
    instant it returns 2024-01-14, and the upload of the sheet stores one
    transaction dated 2024-01-14 whose other fields are those of the claim.
    With the date typed as text the stored date is 2024-01-15. *)
Theorem salary_row_date_cell :
  (∀ env : Env,
     let t := UploadPage.excelEpoch + 45306 * 86400000 in
     JsDate.LocalTZA (host env)
       (JsDate.LocalTime (host env) t - JsDate.msPerDay) false
     = JsDate.LocalTZA (host env) t true →
     UploadPage.parseExcelDate env (Js.Num 45306) = Ok "2024-01-14")
  ∧ accounts (UploadPage.upload Sample.env AppContext.initialState
                [Sample2.salaryDateSheet "Kas"])
    = [ {| name := "Kas";
           transactions :=
             [ {| id := "tx-1705276800000-1-r1";
                  tanggal := "2024-01-14";
                  uraian := "Gaji bulanan";
                  penerimaan := {[ "gaji" := 5000000 ]};
                  pengeluaran := ∅;
                  jumlah := 5000000;
                  saldo_berjalan := Some 5000000 |} ];
           balance := 5000000 |} ]
  ∧ (tanggal <$> (accounts (UploadPage.upload Sample2.newYorkEnv
                              AppContext.initialState
                              [Sample2.salaryDateSheet "Kas"])
                  ≫= transactions)) = ["2024-01-14"]
  ∧ (∀ env s sheetName,
       (tanggal <$> (accounts (UploadPage.upload env s
                                 [Sample.salarySheet sheetName])
                     ≫= transactions)) = ["2024-01-15"]).
Proof.
  split; [|split; [|split]].
  - intros env t Hoffset.
    assert (Hn : 60 ≤ 45306 ≤ maxSerial) by (unfold maxSerial; lia).
    rewrite (parseExcelDate_shifted_day env 45306 Hn).
    fold t. rewrite Hoffset, Z.ltb_irrefl, Z.sub_diag.
    reflexivity.
  - vm_compute. reflexivity.
  - vm_compute. reflexivity.
  - intros env s sheetName. by rewrite salary_row_uploaded.
Qed.

Lemma salary_row_date_cell_witness :
  UploadPage.parseExcelDate Sample.env (Js.Num 45306) = Ok "2024-01-14".
Proof.
  apply (proj1 salary_row_date_cell Sample.env).
  reflexivity.
Defined.

(** X1.  A positive number in the date column is read as a day count from
    1899-12-30.  A count below 60 gives that day.  A count from 60 on is
    moved back by one local day: it gives the day before when the offset of
    local time a local day earlier is the same or up to a day smaller than
    at the instant of the count (so in every zone that keeps its offset),
    two days before when that earlier offset is larger (as on the day after
    daylight saving ends), and the day itself when the offset has grown by
    a full day. *)
Theorem serial_dates_shift_from_60 (env : Env) (n : Z) :
  let t := UploadPage.excelEpoch + n * 86400000 in
  let current := JsDate.LocalTZA (host env) t true in
  let earlier :=
    JsDate.LocalTZA (host env)
      (JsDate.LocalTime (host env) t - JsDate.msPerDay) false in
  (0 < n < 60 →
   UploadPage.parseExcelDate env (Js.Num n)
   = Ok (JsDate.isoDate (UploadPage.excelEpoch + n * 86400000)))
  ∧ (60 ≤ n ≤ maxSerial → earlier ≤ current < earlier + JsDate.msPerDay →
     UploadPage.parseExcelDate env (Js.Num n)
     = Ok (JsDate.isoDate (UploadPage.excelEpoch + (n - 1) * 86400000)))
  ∧ (60 ≤ n ≤ maxSerial → current < earlier →
     UploadPage.parseExcelDate env (Js.Num n)
     = Ok (JsDate.isoDate (UploadPage.excelEpoch + (n - 2) * 86400000)))
  ∧ (60 ≤ n ≤ maxSerial → current = earlier + JsDate.msPerDay →
     UploadPage.parseExcelDate env (Js.Num n)
     = Ok (JsDate.isoDate (UploadPage.excelEpoch + n * 86400000))).
Proof.
  intros t current earlier.
  split; [apply parseExcelDate_early|].
  split; [|split]; intros Hn Hoffset;
    rewrite (parseExcelDate_shifted_day env n Hn);
    fold t; fold current; fold earlier.
  - destruct (Z.ltb_spec current earlier); [lia|].
    destruct (Z.ltb_spec (current - earlier) JsDate.msPerDay); [done|lia].
  - destruct (Z.ltb_spec current earlier); [done|lia].
  - destruct (Z.ltb_spec current earlier); [unfold JsDate.msPerDay in *; lia|].
    destruct (Z.ltb_spec (current - earlier) JsDate.msPerDay); [lia|done].
Qed.

Lemma serial_dates_shift_from_60_witness :
  UploadPage.parseExcelDate Sample.env (Js.Num 59) = Ok "1900-02-27"
  ∧ UploadPage.parseExcelDate Sample.env (Js.Num 45306) = Ok "2024-01-14"
  ∧ UploadPage.parseExcelDate Sample2.newYorkEnv (Js.Num 45600)
    = Ok "2024-11-02".
Proof.
  split; [|split].
  - etransitivity;
      [apply (proj1 (serial_dates_shift_from_60 Sample.env 59)); lia|].
    reflexivity.
  - etransitivity;
      [apply (proj1 (proj2 (serial_dates_shift_from_60 Sample.env 45306)))|].
    + unfold maxSerial. lia.
    + vm_compute. split; [discriminate|reflexivity].
    + reflexivity.
  - etransitivity;
      [apply (proj1 (proj2 (proj2
                (serial_dates_shift_from_60 Sample2.newYorkEnv 45600))))|].
    + unfold maxSerial. lia.
    + vm_compute. reflexivity.
    + reflexivity.
Defined.

(** X2.  Reading a date cell throws exactly when the cell is a number above
    100025569, the last day count that is a valid time value; every other
    cell yields a date string. *)
Theorem date_cell_throws_iff (env : Env) (value : Js.value) :
  (∃ msg, UploadPage.parseExcelDate env value = Throw msg)
  ↔ ∃ n, value = Js.Num n ∧ maxSerial < n.
Proof.
  split.
  - intros [msg Hthrow].
    destruct (parseExcelDate_cases env value)
      as [[_ [date Hok]]|(n & msg' & -> & Hn & _)]; [congruence|].
    by exists n.
  - intros (n & -> & Hn). eexists. by apply parseExcelDate_overflow.
Qed.

Lemma date_cell_throws_iff_witness :
  ∃ msg, UploadPage.parseExcelDate Sample.env Sample2.farFuture = Throw msg.
Proof.
  apply (proj2 (date_cell_throws_iff Sample.env Sample2.farFuture)).
  exists 100025570. split; [reflexivity | unfold maxSerial; lia].
Defined.

(** ** The sheet parser *)

Section parser.
Context (env : Env).

Lemma findIndexFrom_none {A} (p : A → bool) i l :
  existsb p l = false → Js.findIndexFrom p i l = -1.
Proof.
  revert i. induction l as [|x l IH]; intros i; simpl; [done|].
  destruct (p x); simpl; [discriminate | apply IH].
Qed.

Lemma findIndexFrom_some {A} (p : A → bool) i l :
  0 ≤ i → existsb p l = true → 0 ≤ Js.findIndexFrom p i l.
Proof.
  revert i. induction l as [|x l IH]; intros i Hi; simpl; [discriminate|].
  destruct (p x); simpl; [done|]. intros H. apply IH; [lia | done].
Qed.

Lemma findIndex_missing column headers :
  hasColumn column headers = false →
  (Js.findIndex (λ h, String.eqb (Js.toLowerCase h) column) headers =? -1) = true.
Proof.
  intros H. apply Z.eqb_eq. by apply findIndexFrom_none.
Qed.

Lemma findIndex_present column headers :
  hasColumn column headers = true →
  (Js.findIndex (λ h, String.eqb (Js.toLowerCase h) column) headers =? -1) = false.
Proof.
  intros H. apply Z.eqb_neq.
  pose proof (findIndexFrom_some _ 0 headers (Z.le_refl 0) H) as Hge.
  unfold Js.findIndex. lia.
Qed.

Lemma categories_fold prefix headers row cols (acc : gmap string Z) k :
  let value col := UploadPage.getNumberValue row col in
  let category col := Js.dropPrefixCI prefix (default "" (Js.at_ headers col)) in
  let m := foldl (λ (acc : gmap string Z) col,
                    if value col >? 0 then <[category col := value col]> acc
                    else acc) acc cols in
  (∀ v, m !! k = Some v →
        acc !! k = Some v
        ∨ (0 < v ∧ ∃ col, col ∈ cols ∧ value col = v ∧ k = category col))
  ∧ (is_Some (m !! k)
     ↔ is_Some (acc !! k)
       ∨ ∃ col, col ∈ cols ∧ 0 < value col ∧ k = category col).
Proof.
  intros value category. revert acc.
  induction cols as [|col cols IH]; intros acc; cbn zeta; cbn [foldl].
  - split; [by left|]. split; [by left|].
    intros [?|(col & []%elem_of_nil & _)]; done.
  - destruct (IH (if value col >? 0 then <[category col := value col]> acc
                  else acc)) as [IHv IHd].
    cbn zeta in IHv, IHd. split.
    + intros v Hv. destruct (IHv v Hv) as [Hacc|(Hpos & c & Hc & Hval & Hk)].
      * destruct (Z.gtb_spec (value col) 0) as [Hgt|_]; [|by left].
        destruct (decide (category col = k)) as [Heq|Hne].
        { rewrite Heq, lookup_insert_eq in Hacc. injection Hacc as <-.
          right. split; [lia|]. exists col. by rewrite elem_of_cons; auto. }
        { rewrite lookup_insert_ne in Hacc by done. by left. }
      * right. split; [done|]. exists c. by rewrite elem_of_cons; auto.
    + rewrite IHd. split.
      * intros [Hacc|(c & Hc & Hpos & Hk)].
        { destruct (Z.gtb_spec (value col) 0) as [Hgt|_]; [|by left].
          destruct (decide (category col = k)) as [Heq|Hne].
          - right. exists col. rewrite elem_of_cons. repeat split; auto; lia.
          - rewrite lookup_insert_ne in Hacc by done. by left. }
        { right. exists c. rewrite elem_of_cons. auto. }
      * intros [Hacc|(c & [->|Hc]%elem_of_cons & Hpos & Hk)].
        { left. destruct (value col >? 0); [|done].
          destruct (decide (category col = k)) as [Heq|Hne].
          - rewrite Heq, lookup_insert_eq. by eexists.
          - by rewrite lookup_insert_ne. }
        { left. destruct (Z.gtb_spec (value col) 0) as [_|Hle]; [|lia].
          rewrite Hk, lookup_insert_eq. by eexists. }
        { right. exists c. auto. }
Qed.

End parser.

(** X3.  The category map of a parsed row holds only positive amounts: a key
    is present exactly when some column of that category has a positive
    number in the row, and its amount is the cell of such a column.  Empty,
    non-numeric, zero and negative cells contribute no category. *)
Theorem categories_from_positive_cells (prefix : string) (headers : list string)
    (cols : list Z) (row : list Js.value) (k : string) :
  let category col := Js.dropPrefixCI prefix (default "" (Js.at_ headers col)) in
  let m := UploadPage.categories prefix headers cols row in
  (∀ v, m !! k = Some v →
        0 < v ∧ ∃ col, col ∈ cols ∧ UploadPage.getNumberValue row col = v
                       ∧ k = category col)
  ∧ (is_Some (m !! k)
     ↔ ∃ col, col ∈ cols ∧ 0 < UploadPage.getNumberValue row col
              ∧ k = category col).
Proof.
  intros category m.
  destruct (categories_fold prefix headers row cols ∅ k) as [Hv Hd].
  cbn zeta in Hv, Hd. split.
  - intros v Hm. destruct (Hv v Hm) as [Hempty|H]; [|done].
    by rewrite lookup_empty in Hempty.
  - etrans; [exact Hd|]. split; [|by right].
    intros [[v Hempty]|H]; [|done]. by rewrite lookup_empty in Hempty.
Qed.

Lemma categories_from_positive_cells_witness :
  is_Some (UploadPage.categories "penerimaan_"
             ["tanggal"; "uraian"; "jumlah"; "penerimaan_gaji"; "pengeluaran_sewa"]
             [3] Sample.salaryRow !! "gaji").
Proof.
  apply (proj2 (categories_from_positive_cells "penerimaan_"
                  ["tanggal"; "uraian"; "jumlah"; "penerimaan_gaji";
                   "pengeluaran_sewa"]
                  [3] Sample.salaryRow "gaji")).
  exists 3. split; [apply elem_of_cons; by left|].
  split; [vm_compute; reflexivity | reflexivity].
Defined.

(** ** Sheets and accounts *)

Section sheets.
Context (env : Env).

Lemma existsb_nonEmpty rows :
  existsb nonEmptyRow rows = false ↔ filter (λ row, nonEmptyRow row) rows = [].
Proof.
  induction rows as [|row rows IH]; [done|].
  cbn [existsb]. rewrite filter_cons. destruct row as [|c row].
  - cbn [nonEmptyRow orb]. rewrite decide_False by (simpl; tauto). exact IH.
  - cbn [nonEmptyRow orb]. rewrite decide_True by exact I. split; discriminate.
Qed.

Lemma processRow_empty hs dc uc jc pc kc i st :
  UploadPage.processRow env hs dc uc jc pc kc i [] st = Ok st.
Proof. reflexivity. Qed.

Lemma processRow_append hs dc uc jc pc kc i cell row st st' :
  UploadPage.processRow env hs dc uc jc pc kc i (cell :: row) st = Ok st' →
  ∃ tx, UploadPage.txs st' = UploadPage.txs st ++ [tx]
        ∧ saldo_berjalan tx = Some (UploadPage.runningBalance st').
Proof.
  unfold UploadPage.processRow.
  destruct (UploadPage.parseExcelDate env _) as [date|msg]; simpl; [|discriminate].
  intros [= <-]. simpl. eexists; split; reflexivity.
Qed.

(** The rows processed so far: one transaction per non-empty row, the last
    of which carries the running balance. *)
Lemma processRows_shape hs dc uc jc pc kc i rows st st' :
  UploadPage.processRows env hs dc uc jc pc kc i rows st = Ok st' →
  (UploadPage.txs st = []
   ∨ last (saldo_berjalan <$> UploadPage.txs st)
     = Some (Some (UploadPage.runningBalance st))) →
  length (UploadPage.txs st')
  = (length (UploadPage.txs st)
     + length (filter (λ row, nonEmptyRow row) rows))%nat
  ∧ (UploadPage.txs st' = []
     ∨ last (saldo_berjalan <$> UploadPage.txs st')
       = Some (Some (UploadPage.runningBalance st'))).
Proof.
  revert i st. induction rows as [|row rows IH]; intros i st Hrows Hinv.
  - injection Hrows as <-. split; [simpl; lia | done].
  - cbn [UploadPage.processRows] in Hrows.
    destruct (UploadPage.processRow env hs dc uc jc pc kc i row st)
      as [st1|msg] eqn:Hrow; [|discriminate Hrows].
    cbn [bindR] in Hrows. rewrite filter_cons. destruct row as [|cell row].
    + rewrite processRow_empty in Hrow. injection Hrow as <-.
      rewrite decide_False by (simpl; tauto). by apply (IH (S i)).
    + rewrite decide_True by exact I.
      apply processRow_append in Hrow as (tx & Htxs & Hsaldo).
      destruct (IH (S i) st1 Hrows) as [Hlen Hlast].
      { right. rewrite Htxs, fmap_app.
        change (saldo_berjalan <$> [tx]) with [saldo_berjalan tx].
        by rewrite last_snoc, Hsaldo. }
      split; [|done]. rewrite Hlen, Htxs, length_app. simpl. lia.
Qed.

Lemma processRows_all_empty hs dc uc jc pc kc i rows st :
  existsb nonEmptyRow rows = false →
  UploadPage.processRows env hs dc uc jc pc kc i rows st = Ok st.
Proof.
  revert i. induction rows as [|row rows IH]; intros i; [done|].
  cbn [existsb]. destruct row as [|cell row]; [|discriminate].
  cbn [nonEmptyRow orb UploadPage.processRows]. intros H.
  rewrite processRow_empty. cbn [bindR]. by apply IH.
Qed.

Lemma processSheet_unusable sheet accs :
  usable sheet = false → UploadPage.processSheet env sheet accs = Ok accs.
Proof.
  destruct sheet as [sheetName [|headerRow dataRows]]; [done|].
  unfold usable, UploadPage.processSheet. cbn [snd].
  fold (normalizedHeaders headerRow).
  set (headers := normalizedHeaders headerRow).
  destruct (hasColumn "tanggal" headers) eqn:Hd;
    [|by rewrite (findIndex_missing _ _ Hd)].
  destruct (hasColumn "uraian" headers) eqn:Hu;
    [|by rewrite (findIndex_missing _ _ Hu), orb_true_r].
  destruct (hasColumn "jumlah" headers) eqn:Hj;
    [|by rewrite (findIndex_missing _ _ Hj), !orb_true_r].
  cbn [andb]. intros Hrows.
  rewrite (findIndex_present _ _ Hd), (findIndex_present _ _ Hu),
    (findIndex_present _ _ Hj). cbn [orb].
  by rewrite processRows_all_empty.
Qed.

Lemma processSheet_usable sheet accs accs' :
  usable sheet = true →
  UploadPage.processSheet env sheet accs = Ok accs' →
  ∃ a, accs' = accs ++ [a] ∧ parsedFrom env sheet a.
Proof.
  destruct sheet as [sheetName [|headerRow dataRows]]; [done|].
  unfold usable, UploadPage.processSheet. cbn [snd].
  fold (normalizedHeaders headerRow).
  set (headers := normalizedHeaders headerRow).
  intros (((Hd & Hu)%andb_prop & Hj)%andb_prop & Hrows)%andb_prop.
  rewrite (findIndex_present _ _ Hd), (findIndex_present _ _ Hu),
    (findIndex_present _ _ Hj). cbn [orb].
  destruct (UploadPage.processRows env headers _ _ _ _ _ 1 dataRows _)
    as [st|msg] eqn:Hst; [|discriminate].
  cbn [bindR].
  destruct (processRows_shape _ _ _ _ _ _ _ _ _ _ Hst) as [Hlen Hlast];
    [by left|].
  cbn [UploadPage.txs length Nat.add] in Hlen.
  destruct (UploadPage.txs st) as [|tx txs] eqn:Htxs.
  { exfalso. simpl in Hlen.
    assert (Hnil : filter (λ row, nonEmptyRow row) dataRows = [])
      by (by apply length_zero_iff_nil).
    apply existsb_nonEmpty in Hnil. congruence. }
  intros [= <-]. eexists. split; [reflexivity|].
  unfold parsedFrom. cbn. repeat split; [done | done |].
  by destruct Hlast.
Qed.

Lemma processSheets_shape sheets accs accs' :
  UploadPage.processSheets env sheets accs = Ok accs' →
  ∃ new, accs' = accs ++ new
         ∧ Forall2 (parsedFrom env) (filter (λ sheet, usable sheet) sheets) new.
Proof.
  revert accs. induction sheets as [|sheet sheets IH]; intros accs Hs.
  - injection Hs as <-. exists []. by rewrite app_nil_r.
  - cbn [UploadPage.processSheets] in Hs.
    destruct (UploadPage.processSheet env sheet accs) as [accs1|msg] eqn:H1;
      [|discriminate Hs].
    cbn [bindR] in Hs. destruct (IH accs1 Hs) as (new & -> & Hnew).
    rewrite filter_cons. destruct (usable sheet) eqn:Hu.
    + rewrite decide_True by exact I.
      destruct (processSheet_usable sheet accs accs1 Hu H1) as (a & -> & Ha).
      exists (a :: new). rewrite <- app_assoc. split; [done|].
      by constructor.
    + rewrite decide_False by (intros []).
      rewrite (processSheet_unusable sheet accs Hu) in H1.
      injection H1 as <-. by exists new.
Qed.

Lemma processSheets_unusable sheets accs :
  filter (λ sheet, usable sheet) sheets = [] →
  UploadPage.processSheets env sheets accs = Ok accs.
Proof.
  induction sheets as [|sheet sheets IH]; [done|].
  rewrite filter_cons. destruct (usable sheet) eqn:Hu.
  - rewrite decide_True by exact I. discriminate.
  - rewrite decide_False by (intros []). intros Hrest.
    cbn [UploadPage.processSheets].
    rewrite (processSheet_unusable sheet accs Hu). cbn [bindR]. by apply IH.
Qed.

Lemma parseWorkbook_shape workbook accs :
  UploadPage.parseWorkbook env workbook = Ok accs →
  accs ≠ []
  ∧ Forall2 (parsedFrom env) (filter (λ sheet, usable sheet) workbook) accs.
Proof.
  unfold UploadPage.parseWorkbook.
  destruct workbook as [|sheet sheets]; [discriminate|].
  destruct (UploadPage.processSheets env (sheet :: sheets) [])
    as [accs0|msg] eqn:Hs; [|discriminate].
  cbn [bindR]. destruct accs0 as [|a accs0]; [discriminate|].
  intros [= <-]. split; [done|].
  by destruct (processSheets_shape _ _ _ Hs) as (new & -> & Hnew).
Qed.

End sheets.

Section outcome.
Context (env : Env).

Lemma processRows_result hs dc uc jc pc kc i rows st :
  if forallb readable
       ((λ row, default Js.Null (Js.at_ row dc))
          <$> filter (λ row, nonEmptyRow row) rows)
  then ∃ st', UploadPage.processRows env hs dc uc jc pc kc i rows st = Ok st'
  else ∃ msg, UploadPage.processRows env hs dc uc jc pc kc i rows st = Throw msg.
Proof.
  revert i st. induction rows as [|row rows IH]; intros i st.
  - by eexists.
  - rewrite filter_cons. destruct row as [|cell row].
    + rewrite decide_False by (intros []).
      cbn [UploadPage.processRows]. rewrite processRow_empty. cbn [bindR].
      apply IH.
    + rewrite decide_True by exact I. rewrite fmap_cons. cbn [forallb].
      cbn [UploadPage.processRows]. unfold UploadPage.processRow.
      pose proof (parseExcelDate_result env
                    (default Js.Null (Js.at_ (cell :: row) dc))) as Hdate.
      destruct (readable (default Js.Null (Js.at_ (cell :: row) dc))).
      * destruct Hdate as [date ->]. cbn [bindR andb]. apply IH.
      * destruct Hdate as [msg ->]. cbn [bindR andb]. by eexists.
Qed.

Lemma processSheet_result sheet accs :
  if datesReadable sheet
  then ∃ accs', UploadPage.processSheet env sheet accs = Ok accs'
  else ∃ msg, UploadPage.processSheet env sheet accs = Throw msg.
Proof.
  destruct sheet as [sheetName [|headerRow dataRows]]; [by eexists|].
  unfold datesReadable, dateCells, UploadPage.processSheet. cbn [snd].
  fold (normalizedHeaders headerRow).
  set (headers := normalizedHeaders headerRow).
  destruct (hasColumn "tanggal" headers) eqn:Hd;
    [|rewrite (findIndex_missing _ _ Hd); by eexists].
  destruct (hasColumn "uraian" headers) eqn:Hu;
    [|rewrite (findIndex_missing _ _ Hu), orb_true_r; by eexists].
  destruct (hasColumn "jumlah" headers) eqn:Hj;
    [|rewrite (findIndex_missing _ _ Hj), !orb_true_r; by eexists].
  cbn [andb].
  rewrite (findIndex_present _ _ Hd), (findIndex_present _ _ Hu),
    (findIndex_present _ _ Hj). cbn [orb].
  match goal with
  | |- context [UploadPage.processRows env ?hs ?dc ?uc ?jc ?pc ?kc 1 dataRows ?st] =>
      pose proof (processRows_result hs dc uc jc pc kc 1%nat dataRows st) as Hrows
  end.
  destruct (forallb readable _).
  - destruct Hrows as [st' ->]. cbn [bindR].
    destruct (UploadPage.txs st'); by eexists.
  - destruct Hrows as [msg ->]. by eexists.
Qed.

Lemma processSheets_result sheets accs :
  if forallb datesReadable sheets
  then ∃ accs', UploadPage.processSheets env sheets accs = Ok accs'
  else ∃ msg, UploadPage.processSheets env sheets accs = Throw msg.
Proof.
  revert accs. induction sheets as [|sheet sheets IH]; intros accs.
  - by eexists.
  - cbn [forallb UploadPage.processSheets].
    pose proof (processSheet_result sheet accs) as Hsheet.
    destruct (datesReadable sheet).
    + destruct Hsheet as [accs' ->]. cbn [bindR andb]. apply IH.
    + destruct Hsheet as [msg ->]. by eexists.
Qed.

Lemma usable_filter sheets :
  existsb usable sheets = false ↔ filter (λ sheet, usable sheet) sheets = [].
Proof.
  induction sheets as [|sheet sheets IH]; [done|].
  cbn [existsb]. rewrite filter_cons. destruct (usable sheet).
  - rewrite decide_True by exact I. split; discriminate.
  - rewrite decide_False by (intros []). exact IH.
Qed.

Lemma unusable_readable sheet : usable sheet = false → datesReadable sheet = true.
Proof.
  destruct sheet as [sheetName [|headerRow dataRows]]; [done|].
  unfold usable, datesReadable, dateCells. cbn [snd].
  destruct (hasColumn "tanggal" _ && hasColumn "uraian" _
            && hasColumn "jumlah" _); [|done].
  cbn [andb]. intros Hrows.
  apply existsb_nonEmpty in Hrows. by rewrite Hrows.
Qed.

Lemma parseWorkbook_unusable workbook :
  existsb usable workbook = false →
  UploadPage.parseWorkbook env workbook
  = Throw (match workbook with
           | [] => "File does not contain any sheets"
           | _ => "Tidak ada data transaksi yang valid dalam file"
           end).
Proof.
  intros Hnone. destruct workbook as [|sheet sheets]; [done|].
  unfold UploadPage.parseWorkbook.
  by rewrite (processSheets_unusable env _ _ (proj1 (usable_filter _) Hnone)).
Qed.

Lemma upload_failed s workbook msg :
  UploadPage.parseWorkbook env workbook = Throw msg →
  UploadPage.upload env s workbook
  = {| accounts := accounts s;
       currentAccount := currentAccount s;
       isLoading := false;
       error := Some msg;
       isBackendReady := isBackendReady s |}.
Proof.
  intros Hthrow. unfold UploadPage.upload, UploadPage.handleFileUpload.
  by rewrite Hthrow.
Qed.

End outcome.

(** X4.  The accounts the parser returns follow the usable sheets of the
    workbook, in order: one account for each sheet that has the columns
    tanggal, uraian and jumlah and a non-empty data row, named after the
    sheet, with one transaction for each non-empty data row, and with the
    running balance of its last transaction as its balance.  Sheets that
    lack a required column or have only empty rows contribute nothing. *)
Theorem accounts_follow_usable_sheets (env : Env)
    (workbook : list UploadPage.Sheet) (accs : list AccountData.t) :
  UploadPage.parseWorkbook env workbook = Ok accs →
  accs ≠ []
  ∧ Forall2 (parsedFrom env) (filter (λ sheet, usable sheet) workbook) accs.
Proof. apply parseWorkbook_shape. Qed.

Lemma accounts_follow_usable_sheets_witness :
  ∃ a, Forall2 (parsedFrom Sample.env) [Sample2.twoRowSheet] [a].
Proof.
  eexists.
  refine (proj2 (accounts_follow_usable_sheets Sample.env
                   [Sample2.noAmountSheet; Sample2.twoRowSheet] _ _)).
  vm_compute. reflexivity.
Defined.

(** X5.  Parsing a workbook succeeds exactly when some sheet is usable and
    every date cell that is read (in the non-empty rows of the sheets with
    the three required columns) is not a serial number beyond the last
    representable day. *)
Theorem workbook_parses_iff (env : Env) (workbook : list UploadPage.Sheet) :
  (∃ accs, UploadPage.parseWorkbook env workbook = Ok accs)
  ↔ existsb usable workbook = true ∧ forallb datesReadable workbook = true.
Proof.
  destruct (existsb usable workbook) eqn:Husable.
  - pose proof (processSheets_result env workbook []) as Hres.
    destruct workbook as [|sheet sheets]; [discriminate Husable|].
    unfold UploadPage.parseWorkbook.
    destruct (forallb datesReadable (sheet :: sheets)).
    + split; [done|]. intros _. destruct Hres as [accs Hres].
      rewrite Hres. cbn [bindR].
      destruct (processSheets_shape env _ _ _ Hres) as (new & -> & Hnew).
      destruct new as [|a new]; [|by eexists].
      apply Forall2_nil_inv_r in Hnew. apply usable_filter in Hnew. congruence.
    + destruct Hres as [msg ->]. split; [|intros [_ [=]]].
      intros [accs [=]].
  - rewrite (parseWorkbook_unusable env workbook Husable).
    split; [intros [accs [=]] | intros [[=] _]].
Qed.

(** X6.  When no sheet of the workbook is usable the parser fails, with
    the message for a workbook without sheets or the message for a
    workbook without valid transaction data. *)
Theorem no_usable_sheet_message (env : Env) (workbook : list UploadPage.Sheet) :
  existsb usable workbook = false →
  UploadPage.parseWorkbook env workbook
  = Throw (match workbook with
           | [] => "File does not contain any sheets"
           | _ => "Tidak ada data transaksi yang valid dalam file"
           end).
Proof. apply parseWorkbook_unusable. Qed.

Lemma no_usable_sheet_message_witness :
  UploadPage.parseWorkbook Sample.env [Sample2.noAmountSheet]
  = Throw "Tidak ada data transaksi yang valid dalam file".
Proof.
  apply (no_usable_sheet_message Sample.env [Sample2.noAmountSheet]).
  vm_compute. reflexivity.
Defined.

(** X7.  An upload whose parse fails leaves the accounts and the current
    account of the store as they were: it only records the message as the
    store's error and clears the loading flag. *)
Theorem failed_upload_keeps_accounts (env : Env) (s : AppState)
    (workbook : list UploadPage.Sheet) (msg : string) :
  UploadPage.parseWorkbook env workbook = Throw msg →
  UploadPage.upload env s workbook
  = {| accounts := accounts s;
       currentAccount := currentAccount s;
       isLoading := false;
       error := Some msg;
       isBackendReady := isBackendReady s |}.
Proof. apply upload_failed. Qed.

Lemma failed_upload_keeps_accounts_witness :
  accounts (UploadPage.upload Sample.env Sample.twoAccounts
              [("Kas", [Sample.header; [Sample2.farFuture]])])
  = accounts Sample.twoAccounts.
Proof.
  rewrite (failed_upload_keeps_accounts Sample.env Sample.twoAccounts
             [("Kas", [Sample.header; [Sample2.farFuture]])]
             "Invalid time value"); [reflexivity|].
  vm_compute. reflexivity.
Defined.

Section uploaded.
Context (env : Env).

Lemma orNull_truthy a b c : Js.orNull a None = Some c → Js.orNull a b = Some c.
Proof.
  destruct a as [s|]; [|discriminate]. unfold Js.orNull.
  by destruct (String.eqb s "").
Qed.

Lemma parsedFrom_names sheets accs :
  Forall2 (parsedFrom env) sheets accs →
  (λ a, Js.strOr (AccountData.name a) "Akun Tanpa Nama") <$> accs
  = (λ sheet : UploadPage.Sheet, Js.strOr sheet.1 "Akun Tanpa Nama") <$> sheets.
Proof.
  induction 1 as [|sheet a sheets accs (Hname & _) _ IH]; [done|].
  rewrite !fmap_cons. by rewrite Hname, IH.
Qed.

Lemma upload_parsed s workbook accs :
  UploadPage.parseWorkbook env workbook = Ok accs →
  UploadPage.upload env s workbook
  = AppContext.dispatchAll env
      (AppContext.dispatchAll env s [SET_LOADING true; SET_LOADING false])
      (UploadPage.processAndUpdateAccounts env s accs).2.
Proof.
  intros Hparse. destruct (parseWorkbook_shape env _ _ Hparse) as [Hne _].
  unfold UploadPage.upload, UploadPage.handleFileUpload. rewrite Hparse.
  by destruct accs.
Qed.

End uploaded.

(** X8.  After a successful upload the store holds one account for each
    usable sheet, in order, named after the sheet (or "Akun Tanpa Nama" for
    an empty name), each with the balance its transactions add up to; the
    error is cleared and loading is off.  A non-empty current account is
    kept; otherwise the current account becomes the generated id
    "acc-<time>-<sheet name in lower case with dashes>" of the first
    account, not its name. *)
Theorem upload_replaces_accounts (env : Env) (s : AppState)
    (workbook : list UploadPage.Sheet) (accs : list AccountData.t) :
  UploadPage.parseWorkbook env workbook = Ok accs →
  let s' := UploadPage.upload env s workbook in
  let sheets := filter (λ sheet, usable sheet) workbook in
  names s' = (λ sheet : UploadPage.Sheet, Js.strOr sheet.1 "Akun Tanpa Nama") <$> sheets
  ∧ Forall balanced (accounts s')
  ∧ currentAccount s'
    = match Js.orNull (currentAccount s) None with
      | Some c => Some c
      | None =>
          (λ sheet : UploadPage.Sheet,
             "acc-" +:+ pretty (now env) +:+ "-"
               +:+ Js.toLowerCase (Js.dashRuns false sheet.1))
            <$> head sheets
      end
  ∧ error s' = None ∧ isLoading s' = false.
Proof.
  intros Hparse s' sheets. subst s'.
  rewrite (upload_parsed env s workbook accs Hparse).
  destruct (parseWorkbook_shape env _ _ Hparse) as [Hne Hshape].
  fold sheets in Hshape.
  destruct Hshape as [|sheet a sheets' accs' Ha Hrest]; [done|].
  unfold UploadPage.processAndUpdateAccounts.
  set (mapped := imap (UploadPage.mapAccount env) (a :: accs')).
  assert (Hnames :
    name <$> (asAccountBase <$> mapped)
    = (λ sheet : UploadPage.Sheet, Js.strOr sheet.1 "Akun Tanpa Nama")
        <$> (sheet :: sheets')).
  { rewrite <- (parsedFrom_names env (sheet :: sheets') (a :: accs'))
      by (by constructor).
    subst mapped. rewrite <- list_fmap_compose, fmap_imap.
    by rewrite <- (imap_const _ (a :: accs')). }
  assert (Hid : AccountData.id <$> head mapped
                = Some ("acc-" +:+ pretty (now env) +:+ "-"
                          +:+ Js.toLowerCase (Js.dashRuns false sheet.1))).
  { subst mapped. cbn [imap head fmap option_fmap option_map].
    destruct Ha as (_ & Hida & _). unfold UploadPage.mapAccount.
    cbn [AccountData.id]. rewrite Hida. reflexivity. }
  destruct mapped as [|first rest] eqn:Hmapped; [discriminate Hid|].
  injection Hid as Hid.
  set (recompute := λ account : AccountBase,
         {| name := name account;
            transactions := transactions account;
            balance := AppContext.calculateAccountBalance (transactions account) |}).
  match goal with
  | |- context [AppContext.dispatchAll env ?s1 ?acts] =>
      set (final := AppContext.dispatchAll env s1 acts)
  end.
  assert (Haccounts :
    accounts final = recompute <$> (asAccountBase <$> first :: rest))
    by (subst final; by destruct (Js.orNull (currentAccount s) None)).
  split; [|split; [|split; [|split]]].
  - unfold names. rewrite Haccounts, <- Hnames.
    by rewrite <- !list_fmap_compose.
  - rewrite Haccounts. apply Forall_fmap, Forall_forall.
    intros acc _. reflexivity.
  - subst final. destruct (Js.orNull (currentAccount s) None) as [c|] eqn:Hc.
    + apply (orNull_truthy _ _ _ Hc).
    + cbn [snd AppContext.dispatchAll foldl AppContext.appReducer
           currentAccount head fmap option_fmap option_map].
      by rewrite Hid.
  - subst final. by destruct (Js.orNull (currentAccount s) None).
  - subst final. by destruct (Js.orNull (currentAccount s) None).
Qed.

Lemma upload_replaces_accounts_witness :
  names (UploadPage.upload Sample.env Sample.twoAccounts
           [Sample2.noAmountSheet; Sample2.twoRowSheet]) = ["Kas Besar"]
  ∧ currentAccount (UploadPage.upload Sample.env Sample.twoAccounts
                      [Sample2.noAmountSheet; Sample2.twoRowSheet])
    = Some "Bank".
Proof.
  destruct (upload_replaces_accounts Sample.env Sample.twoAccounts
              [Sample2.noAmountSheet; Sample2.twoRowSheet] _
              ltac:(vm_compute; reflexivity))
    as (Hnames & _ & Hcurrent & _).
  split; [exact Hnames | exact Hcurrent].
Defined.

(** ** The editor *)

Section editor.

Lemma withRunningBalance_imap (f : nat → TransactionItem → TransactionItem)
    rb txs :
  (∀ k t, identified t →
          id (f k t) = id t ∧ tanggal (f k t) = tanggal t
          ∧ uraian (f k t) = uraian t ∧ penerimaan (f k t) = penerimaan t
          ∧ pengeluaran (f k t) = pengeluaran t) →
  Forall identified txs →
  TransactionEditor.withRunningBalance rb (imap f txs)
  = TransactionEditor.withRunningBalance rb txs.
Proof.
  intros Hf Htxs. revert f rb Hf.
  induction Htxs as [|t txs Ht _ IH]; intros f rb Hf; [done|].
  cbn [imap TransactionEditor.withRunningBalance].
  destruct (Hf 0%nat t Ht) as (-> & -> & -> & -> & ->).
  f_equal. apply IH. intros k t'. apply Hf.
Qed.

Lemma withRunningBalance_idemp rb txs :
  TransactionEditor.withRunningBalance rb
    (TransactionEditor.withRunningBalance rb txs)
  = TransactionEditor.withRunningBalance rb txs.
Proof.
  revert rb. induction txs as [|t txs IH]; intros rb; [done|].
  cbn [TransactionEditor.withRunningBalance id tanggal uraian penerimaan
       pengeluaran].
  f_equal. apply IH.
Qed.


End editor.

(** X9.  What the editor shows survives a save: when every transaction has
    an id and a date, the list the editor computes from the account the
    store keeps after the save is the list it computes from the saved
    transactions themselves; and computing the display from a displayed
    list changes nothing. *)
Theorem saved_ledger_redisplayed (env : Env) (n : string)
    (txs : list TransactionItem) :
  Forall identified txs →
  TransactionEditor.transactionsWithRunningBalance
    (transactions (AppContext.createAccount env n txs))
  = TransactionEditor.transactionsWithRunningBalance txs
  ∧ TransactionEditor.transactionsWithRunningBalance
      (TransactionEditor.transactionsWithRunningBalance txs)
    = TransactionEditor.transactionsWithRunningBalance txs.
Proof.
  intros Htxs. split; [|apply withRunningBalance_idemp].
  unfold TransactionEditor.transactionsWithRunningBalance.
  cbn [AppContext.createAccount transactions].
  apply withRunningBalance_imap; [|done].
  intros k t [Hid Hdate]. rewrite normalize_asRaw.
  cbn [id tanggal uraian penerimaan pengeluaran].
  by rewrite !strOr_id.
Qed.

Lemma saved_ledger_redisplayed_witness :
  TransactionEditor.transactionsWithRunningBalance
    (transactions (AppContext.createAccount Sample.env "Kas"
                     [Sample.jan10; Sample.jan05]))
  = TransactionEditor.transactionsWithRunningBalance [Sample.jan10; Sample.jan05].
Proof.
  apply (saved_ledger_redisplayed Sample.env "Kas" [Sample.jan10; Sample.jan05]).
  repeat constructor; discriminate.
Defined.



(** X11.  Saving a valid form without an editing id appends exactly one
    transaction and leaves the others as they are.  The new transaction has
    the id "tx-<time>" and the form's date and description, holds the
    amount under the form's category on the side the form's type selects
    (the other side being empty), and its amount is the entered number,
    positive for income and negative for expense. *)
Theorem form_appends_transaction (env : Env) (simpleForm : SimpleFormData.t)
    (editingId : option string) (edited : list TransactionItem) :
  TransactionEditor.hasErrors simpleForm = false →
  Js.orNull editingId None = None →
  ∃ t amount,
    TransactionEditor.handleSaveTransaction env simpleForm editingId edited
    = Some (edited ++ [t])
    ∧ Js.StringToNumber (SimpleFormData.jumlah simpleForm) = Some amount
    ∧ 0 < amount
    ∧ id t = "tx-" +:+ pretty (now env)
    ∧ tanggal t = SimpleFormData.tanggal simpleForm
    ∧ uraian t = SimpleFormData.uraian simpleForm
    ∧ match SimpleFormData.tipe simpleForm with
      | SimpleFormData.Penerimaan =>
          penerimaan t = {[ SimpleFormData.kategori simpleForm := amount ]}
          ∧ pengeluaran t = ∅
      | SimpleFormData.Pengeluaran =>
          penerimaan t = ∅
          ∧ pengeluaran t = {[ SimpleFormData.kategori simpleForm := amount ]}
      end
    ∧ jumlah t = signedAmount (SimpleFormData.tipe simpleForm) amount
    ∧ canonical t.
Proof.
  intros Hvalid Hnew. unfold TransactionEditor.handleSaveTransaction.
  rewrite Hvalid, Hnew.
  unfold TransactionEditor.hasErrors in Hvalid.
  apply orb_false_elim in Hvalid as [Hvalid Hamount].
  apply orb_false_elim in Hvalid as [Hvalid _].
  apply orb_false_elim in Hvalid as [Hdate _].
  destruct (Js.StringToNumber (SimpleFormData.jumlah simpleForm))
    as [amount|]; [|discriminate].
  apply Z.leb_gt in Hamount. apply String.eqb_neq in Hdate.
  eexists _, amount. split; [reflexivity|].
  cbn [id tanggal uraian penerimaan pengeluaran jumlah default].
  assert (Hjumlah :
    sumValues match SimpleFormData.tipe simpleForm with
              | SimpleFormData.Penerimaan =>
                  {[ SimpleFormData.kategori simpleForm := amount ]}
              | SimpleFormData.Pengeluaran => ∅
              end
    - sumValues match SimpleFormData.tipe simpleForm with
                | SimpleFormData.Penerimaan => ∅
                | SimpleFormData.Pengeluaran =>
                    {[ SimpleFormData.kategori simpleForm := amount ]}
                end
    = signedAmount (SimpleFormData.tipe simpleForm) amount).
  { destruct (SimpleFormData.tipe simpleForm); cbn [signedAmount];
      rewrite sumValues_empty, sumValues_singleton; lia. }
  repeat (split; [done|]).
  split; [by destruct (SimpleFormData.tipe simpleForm)|].
  split; [exact Hjumlah|].
  split; [apply fresh_id_nonempty|]. split; [done|reflexivity].
Qed.

Lemma form_appends_transaction_witness :
  ∃ t, TransactionEditor.handleSaveTransaction Sample.env Sample2.expenseForm
         None [Sample.jan10]
       = Some ([Sample.jan10] ++ [t])
       ∧ jumlah t = -250.
Proof.
  destruct (form_appends_transaction Sample.env Sample2.expenseForm None
              [Sample.jan10] eq_refl eq_refl)
    as (t & amount & Hsave & Hamount & _ & _ & _ & _ & _ & Hjumlah & _).
  exists t. split; [exact Hsave|].
  rewrite Hjumlah. vm_compute in Hamount. injection Hamount as <-. reflexivity.
Defined.

(** X12.  Saving a valid form while editing the transaction with id [e]
    keeps the length and the ids of the list and every transaction with
    another id; each transaction with id [e] takes the form's date,
    description, single category and signed amount, and its running
    balance is reset to 0.  When no transaction has the id the list is
    passed on unchanged. *)
Theorem form_replaces_transaction (env : Env) (simpleForm : SimpleFormData.t)
    (e : string) (edited : list TransactionItem) :
  TransactionEditor.hasErrors simpleForm = false →
  e ≠ "" →
  ∃ updated amount,
    TransactionEditor.handleSaveTransaction env simpleForm (Some e) edited
    = Some updated
    ∧ Js.StringToNumber (SimpleFormData.jumlah simpleForm) = Some amount
    ∧ id <$> updated = id <$> edited
    ∧ (∀ i t, edited !! i = Some t → id t ≠ e → updated !! i = Some t)
    ∧ (∀ i t, edited !! i = Some t → id t = e →
              ∃ t', updated !! i = Some t'
                    ∧ tanggal t' = SimpleFormData.tanggal simpleForm
                    ∧ uraian t' = SimpleFormData.uraian simpleForm
                    ∧ jumlah t'
                      = signedAmount (SimpleFormData.tipe simpleForm) amount
                    ∧ amountDerived t'
                    ∧ saldo_berjalan t' = Some 0)
    ∧ (e ∉ id <$> edited → updated = edited).
Proof.
  intros Hvalid He. unfold TransactionEditor.handleSaveTransaction.
  rewrite Hvalid.
  unfold TransactionEditor.hasErrors in Hvalid.
  apply orb_false_elim in Hvalid as [_ Hamount].
  destruct (Js.StringToNumber (SimpleFormData.jumlah simpleForm))
    as [amount|]; [|discriminate].
  cbn [default Js.orNull]. apply String.eqb_neq in He as Heq. rewrite Heq.
  set (penerimaan0 := match SimpleFormData.tipe simpleForm with
                      | SimpleFormData.Penerimaan =>
                          {[ SimpleFormData.kategori simpleForm := amount ]}
                      | SimpleFormData.Pengeluaran => (∅ : gmap string Z)
                      end).
  set (pengeluaran0 := match SimpleFormData.tipe simpleForm with
                       | SimpleFormData.Penerimaan => (∅ : gmap string Z)
                       | SimpleFormData.Pengeluaran =>
                           {[ SimpleFormData.kategori simpleForm := amount ]}
                       end).
  assert (Hjumlah : sumValues penerimaan0 - sumValues pengeluaran0
                    = signedAmount (SimpleFormData.tipe simpleForm) amount).
  { subst penerimaan0 pengeluaran0.
    destruct (SimpleFormData.tipe simpleForm); cbn [signedAmount];
      rewrite sumValues_empty, sumValues_singleton; lia. }
  destruct (find (λ tx, String.eqb (id tx) e) edited) as [found|] eqn:Hfind.
  - apply find_some in Hfind as [Hin Hfound]. apply String.eqb_eq in Hfound.
    eexists _, amount. split; [reflexivity|]. split; [done|].
    split; [|split; [|split]].
    + rewrite <- list_fmap_compose. apply list_fmap_ext.
      intros i t _. unfold compose.
      destruct (String.eqb_spec (id t) e); [|done]. cbn [id]. congruence.
    + intros i t Hi Hne. rewrite list_lookup_fmap, Hi. cbn.
      by rewrite (proj2 (String.eqb_neq _ _) Hne).
    + intros i t Hi Heq'. rewrite list_lookup_fmap, Hi. cbn [fmap option_fmap option_map].
      rewrite (proj2 (String.eqb_eq _ _) Heq').
      eexists. split; [reflexivity|].
      cbn [tanggal uraian jumlah saldo_berjalan]. repeat split; try done.
    + intros Habsent. exfalso. apply Habsent.
      apply list_elem_of_fmap. exists found. split; [done|].
      by apply list_elem_of_In.
  - eexists _, amount. split; [reflexivity|]. split; [done|].
    split; [done|]. split; [done|]. split; [|done].
    intros i t Hi Heq'. exfalso.
    assert (Hnot : String.eqb (id t) e = false).
    { apply (find_none _ _ Hfind t).
      by eapply list_elem_of_In, list_elem_of_lookup_2. }
    apply String.eqb_neq in Hnot. congruence.
Qed.

Lemma form_replaces_transaction_witness :
  ∃ updated,
    TransactionEditor.handleSaveTransaction Sample.env Sample2.expenseForm
      (Some "tx-a") [Sample.jan10; Sample.jan05]
    = Some updated
    ∧ id <$> updated = ["tx-a"; "tx-b"]
    ∧ updated !! 1%nat = Some Sample.jan05.
Proof.
  destruct (form_replaces_transaction Sample.env Sample2.expenseForm "tx-a"
              [Sample.jan10; Sample.jan05] eq_refl)
    as (updated & amount & Hsave & _ & Hids & Hother & _); [discriminate|].
  exists updated. split; [exact Hsave|]. split; [exact Hids|].
  apply Hother; [reflexivity|discriminate].
Defined.



(** ** The provider and the editor page *)

Section provider.
Context (env : Env).

Lemma recompute_balanced (l : list AccountBase) :
  Forall balanced l →
  (λ account,
     {| name := name account;
        transactions := transactions account;
        balance := AppContext.calculateAccountBalance (transactions account) |})
    <$> l = l.
Proof.
  induction 1 as [|acc l Hacc _ IH]; [done|].
  rewrite fmap_cons, IH. f_equal. destruct acc as [n txs b].
  unfold balanced in Hacc. cbn in *. by rewrite Hacc.
Qed.

Lemma restore_save s :
  AppProvider.restore env (AppProvider.save s)
  = {| accounts :=
         (λ account,
            {| name := name account;
               transactions := transactions account;
               balance := AppContext.calculateAccountBalance (transactions account) |})
           <$> accounts s;
       currentAccount :=
         Js.orNull (currentAccount s)
                   (Js.orNull (name <$> head (accounts s)) None);
       isLoading := false;
       error := None;
       isBackendReady := true |}.
Proof.
  unfold AppProvider.restore, AppProvider.save, AppProvider.load.
  cbn [default].
  destruct (Js.orNull (currentAccount s) None) as [c|] eqn:Hc.
  - cbn [AppContext.dispatchAll foldl AppContext.appReducer
         AppContext.initialState currentAccount accounts isLoading error
         isBackendReady].
    by rewrite (orNull_truthy _ _ _ Hc).
  - cbn [AppContext.dispatchAll foldl AppContext.appReducer
         AppContext.initialState currentAccount accounts isLoading error
         isBackendReady Js.orNull].
    f_equal. unfold Datatypes.id.
    destruct (accounts s) as [|a l];
      cbn [fmap list_fmap head option_fmap option_map name];
      (destruct (currentAccount s) as [c|]; [|done]);
      cbn [Js.orNull] in *; by destruct (String.eqb c "").
Qed.

End provider.

(** X14.  Reloading the saved snapshot restores the store: the accounts of
    a reachable store come back as they were, with loading off, no error
    and the backend flag set; the current account comes back as it was
    when it is a non-empty name, and otherwise becomes the first account's
    name (null when that is empty or there is no account).  For a store
    with distinct non-empty names and a valid pointer the snapshot restores
    accounts and pointer exactly. *)
Theorem snapshot_round_trip (env : Env) (s : AppState) :
  reachable s →
  let s' := AppProvider.restore env (AppProvider.save s) in
  accounts s' = accounts s
  ∧ currentAccount s'
    = Js.orNull (currentAccount s) (Js.orNull (name <$> head (accounts s)) None)
  ∧ isLoading s' = false ∧ error s' = None ∧ isBackendReady s' = true
  ∧ (wellNamed s → currentAccount s' = currentAccount s).
Proof.
  intros Hreach s'. subst s'. rewrite restore_save.
  cbn [accounts currentAccount isLoading error isBackendReady].
  split; [by apply recompute_balanced, reachable_balanced|].
  repeat (split; [reflexivity|]).
  intros (_ & Hnonempty & Hpointer). unfold names in *.
  destruct (currentAccount s) as [c|].
  - cbn [Js.orNull]. destruct (String.eqb_spec c ""); [|done]. by subst c.
  - by rewrite Hpointer.
Qed.

Lemma snapshot_round_trip_witness :
  AppProvider.restore Sample.env (AppProvider.save Sample.twoAccounts)
  = Sample.twoAccounts.
Proof.
  destruct (snapshot_round_trip Sample.env Sample.twoAccounts)
    as (Haccounts & Hcurrent & Hloading & Herror & Hbackend & _).
  { apply reachable_dispatchAll, reachable_init. }
  destruct (AppProvider.restore Sample.env (AppProvider.save Sample.twoAccounts)).
  cbn in Haccounts, Hcurrent, Hloading, Herror, Hbackend.
  by subst.
Defined.

(** X15.  After the editor page's render has dispatched its automatic
    selection, an account is selected whenever the store holds accounts,
    whatever the pointer was before (null or the name of no account); a
    selection that already resolves is left alone. *)
Theorem editor_selects_an_account (env : Env) (s : AppState) :
  let s' := AppContext.dispatchAll env s (EditorRender.autoSelect s) in
  accounts s' = accounts s
  ∧ (accounts s ≠ [] → is_Some (EditorPage.selectedAccount s'))
  ∧ (is_Some (EditorPage.selectedAccount s) → s' = s)
  ∧ (EditorPage.selectedAccount s = None →
     EditorPage.selectedAccount s' = head (accounts s)).
Proof.
  unfold EditorRender.autoSelect.
  destruct (EditorPage.selectedAccount s) as [acc|] eqn:Hsel.
  - cbn. rewrite Hsel. split; [done|]. split; [by eexists|].
    split; [done|]. discriminate.
  - destruct (accounts s) as [|first rest] eqn:Haccs.
    + cbn. rewrite Hsel, Haccs. split; [done|]. split; [done|].
      split; [by intros [? [=]]|done].
    + cbn [AppContext.dispatchAll foldl AppContext.appReducer].
      unfold EditorPage.selectedAccount.
      cbn [currentAccount accounts]. rewrite Haccs. cbn [find head].
      rewrite String.eqb_refl.
      split; [done|]. split; [by eexists|].
      split; [by intros [? [=]]|done].
Qed.

(** X16.  Adding an account from the editor page: for a non-empty name
    that no account has, the store gains an empty account of that name
    with balance 0 at the end of the list and selects it; for an empty or
    already used name nothing is dispatched and the store is unchanged. *)
Theorem page_adds_empty_account (env : Env) (s : AppState) (n : string) :
  let s' := AppContext.dispatchAll env s (EditorPage.handleAddAccount s n) in
  (n ≠ "" → n ∉ names s →
   s' = {| accounts :=
             accounts s ++ [ {| name := n; transactions := []; balance := 0 |} ];
           currentAccount := Some n;
           isLoading := isLoading s;
           error := error s;
           isBackendReady := isBackendReady s |})
  ∧ (n = "" ∨ n ∈ names s → s' = s).
Proof.
  unfold EditorPage.handleAddAccount. split.
  - intros Hn Hfresh. rewrite (proj2 (String.eqb_neq _ _) Hn).
    destruct (existsb _ (accounts s)) eqn:Hex.
    { exfalso. apply Hfresh. by apply existsb_name. }
    cbn [negb andb AppContext.dispatchAll foldl].
    pose proof (add_account_cases env s
                  {| name := n; transactions := []; balance := 0 |}) as [_ Hadd].
    unfold effectiveName in Hadd. cbn [name transactions] in Hadd.
    rewrite (strOr_id n) in Hadd by done. by apply Hadd.
  - intros [->|Hused]; [done|].
    apply existsb_name in Hused. rewrite Hused.
    by rewrite andb_false_r.
Qed.

Lemma page_adds_empty_account_witness :
  names (AppContext.dispatchAll Sample.env Sample.twoAccounts
           (EditorPage.handleAddAccount Sample.twoAccounts "Gudang"))
  = ["Kas"; "Bank"; "Gudang"].
Proof.
  rewrite (proj1 (page_adds_empty_account Sample.env Sample.twoAccounts "Gudang")).
  - reflexivity.
  - discriminate.
  - vm_compute. intros Hin. repeat (apply elem_of_cons in Hin as [Hin|Hin]; [discriminate Hin|]).
    by apply elem_of_nil in Hin.
Defined.

(** ** The validators *)

Section validators.

Lemma somePositive_spec (m : gmap string Z) :
  Validators.somePositive m = true ↔ ∃ k v, m !! k = Some v ∧ 0 < v.
Proof.
  unfold Validators.somePositive.
  apply (map_fold_weak_ind
           (λ (r : bool) (m : gmap string Z),
              r = true ↔ ∃ k v, m !! k = Some v ∧ 0 < v)).
  - split; [discriminate|]. intros (k & v & Hk & _).
    by rewrite lookup_empty in Hk.
  - intros i x m' r Hfresh IH. rewrite orb_true_iff, IH. split.
    + intros [(k & v & Hk & Hv)|Hx].
      * exists k, v. split; [|done]. rewrite lookup_insert_ne; [done|].
        intros ->. congruence.
      * exists i, x. rewrite lookup_insert_eq. split; [done|].
        by apply Z.gtb_lt.
    + intros (k & v & Hk & Hv). destruct (decide (i = k)) as [->|Hne].
      * rewrite lookup_insert_eq in Hk. injection Hk as ->.
        right. by apply Z.gtb_lt.
      * rewrite lookup_insert_ne in Hk by done. left. by exists k, v.
Qed.

Lemma categoryErrors_empty field label (m : gmap string Z)
    (errors0 : gmap string string) :
  Validators.categoryErrors field label m errors0 = ∅
  ↔ errors0 = ∅
    ∧ ∀ k, is_Some (m !! k) → Validators.getCategoryNameError k = None.
Proof.
  unfold Validators.categoryErrors.
  apply (map_fold_weak_ind
           (λ (r : gmap string string) (m : gmap string Z),
              r = ∅ ↔ errors0 = ∅
                      ∧ ∀ k, is_Some (m !! k)
                             → Validators.getCategoryNameError k = None)).
  - split; [|by intros [-> _]]. intros ->. split; [done|].
    intros k [v Hk]. by rewrite lookup_empty in Hk.
  - intros i x m' r Hfresh IH.
    destruct (Validators.getCategoryNameError i) as [error0|] eqn:Hi.
    + split.
      * intros Hempty. by apply insert_non_empty in Hempty.
      * intros [_ Hall]. specialize (Hall i). rewrite lookup_insert_eq in Hall.
        rewrite Hi in Hall. by discriminate Hall.
    + rewrite IH. split; intros [Herr Hall]; (split; [done|]); intros k Hk.
      * destruct (decide (i = k)) as [->|Hne]; [done|].
        apply Hall. by rewrite lookup_insert_ne in Hk.
      * apply Hall. destruct (decide (i = k)) as [->|Hne].
        -- rewrite lookup_insert_eq. by eexists.
        -- by rewrite lookup_insert_ne.
Qed.

Lemma category_agree name0 :
  Validators.isValidCategoryName name0 = true
  ↔ Validators.getCategoryNameError name0 = None.
Proof.
  unfold Validators.isValidCategoryName, Validators.getCategoryNameError.
  destruct (String.eqb (Js.trim name0) ""); [done|].
  by destruct (Validators.matchesCategoryName name0).
Qed.

Lemma date_agree host dateString :
  Validators.isValidDate host dateString = true
  ↔ Validators.getDateValidationError host dateString = None.
Proof.
  unfold Validators.isValidDate, Validators.getDateValidationError.
  destruct (String.eqb_spec dateString "") as [->|_]; [done|].
  destruct (JsDate.isIsoDateShape dateString); [|done].
  by destruct (JsDate.ofString host dateString).
Qed.

Lemma number_agree value fieldName :
  Validators.isValidNumber value = true
  ↔ Validators.getNumberValidationError value fieldName = None.
Proof.
  unfold Validators.isValidNumber, Validators.getNumberValidationError.
  assert (Hnum :
    match Js.ToNumeric value with
    | Js.NaN => false
    | Js.Int num => num >=? 0
    | Js.Infinite _ => false
    | Js.Fraction negative => negb negative
    end = true
    ↔ match Js.ToNumeric value with
      | Js.NaN => Some (fieldName +:+ " harus berupa angka")
      | Js.Int num =>
          if num <? 0 then Some (fieldName +:+ " tidak boleh negatif") else None
      | Js.Infinite _ => Some (fieldName +:+ " tidak valid")
      | Js.Fraction negative =>
          if negative then Some (fieldName +:+ " tidak boleh negatif") else None
      end = None).
  { destruct (Js.ToNumeric value) as [|num|negative|negative];
      [done| |done|by destruct negative].
    destruct (Z.ltb_spec num 0), (Z.geb_spec num 0); try lia; done. }
  destruct value as [| |b|n|[|c s]|props]; try exact Hnum. done.
Qed.


End validators.

(** X17.  Each validity predicate agrees with its message function: a
    date, a number or a category name is accepted exactly when the
    corresponding function reports no error, whatever the host makes of
    a date string.  A value that coerces to an infinity is rejected with
    the message that the field is not valid. *)
Theorem validators_agree_with_messages (host : JsDate.Host) :
  (∀ dateString,
     Validators.isValidDate host dateString = true
     ↔ Validators.getDateValidationError host dateString = None)
  ∧ (∀ value fieldName,
       Validators.isValidNumber value = true
       ↔ Validators.getNumberValidationError value fieldName = None)
  ∧ (∀ name0,
       Validators.isValidCategoryName name0 = true
       ↔ Validators.getCategoryNameError name0 = None)
  ∧ (∀ value fieldName negative,
       Js.ToNumeric value = Js.Infinite negative →
       Validators.isValidNumber value = false
       ∧ Validators.getNumberValidationError value fieldName
         = Some (fieldName +:+ " tidak valid")).
Proof.
  split; [exact (date_agree host)|]. split; [exact number_agree|].
  split; [exact category_agree|].
  intros value fieldName negative Hinf.
  unfold Validators.isValidNumber, Validators.getNumberValidationError.
  rewrite Hinf. by destruct value as [| |b|n|[|c s]|props].
Qed.

(** X18.  A transaction is valid exactly when its date is a valid date,
    its description is not blank, some income or expense value is
    positive, and every category name on either side is a valid category
    name. *)
Theorem transaction_valid_iff (host : JsDate.Host) (t : TransactionItem) :
  Validation.isValid (Validators.validateTransaction host t) = true
  ↔ Validators.isValidDate host (tanggal t) = true
    ∧ Js.trim (uraian t) ≠ ""
    ∧ (∃ k v, (penerimaan t !! k = Some v ∨ pengeluaran t !! k = Some v)
              ∧ 0 < v)
    ∧ (∀ k, is_Some (penerimaan t !! k) ∨ is_Some (pengeluaran t !! k)
            → Validators.isValidCategoryName k = true).
Proof.
  unfold Validators.validateTransaction.
  cbn [Validation.isValid Validation.errors Js.ToNumber].
  rewrite Nat.eqb_eq, map_size_empty_iff, !categoryErrors_empty.
  rewrite date_agree.
  assert (Hpositive :
    negb (Validators.somePositive (penerimaan t))
    && negb (Validators.somePositive (pengeluaran t)) = false
    ↔ ∃ k v, (penerimaan t !! k = Some v ∨ pengeluaran t !! k = Some v)
             ∧ 0 < v).
  { rewrite andb_false_iff, !negb_false_iff, !somePositive_spec.
    split.
    - intros [(k & v & Hk & Hv)|(k & v & Hk & Hv)]; exists k, v; tauto.
    - intros (k & v & [Hk|Hk] & Hv); [left|right]; by exists k, v. }
  split.
  - intros [[Herrors Hpen] Hpeng].
    destruct (negb _ && negb _) eqn:Hamount;
      [by apply insert_non_empty in Herrors|].
    destruct (String.eqb_spec (Js.trim (uraian t)) "");
      [by apply insert_non_empty in Herrors|].
    destruct (Validators.getDateValidationError host (tanggal t));
      [by apply insert_non_empty in Herrors|].
    split; [done|]. split; [done|]. split; [by apply Hpositive|].
    intros k [Hk|Hk]; apply category_agree; auto.
  - intros (Hdate & Hdesc & Hamount & Hnames).
    apply Hpositive in Hamount. rewrite Hamount, Hdate.
    destruct (String.eqb_spec (Js.trim (uraian t)) ""); [done|].
    split; [split; [done|]|]; intros k Hk; apply category_agree; auto.
Qed.


(** ** The reports *)

Section reports.

Lemma incomeOf_Permutation l1 l2 : l1 ≡ₚ l2 → incomeOf l1 = incomeOf l2.
Proof. apply sumZ_fmap_Permutation. Qed.

Lemma expenseOf_Permutation l1 l2 : l1 ≡ₚ l2 → expenseOf l1 = expenseOf l2.
Proof. apply sumZ_fmap_Permutation. Qed.

Lemma inPeriod_Permutation key k l1 l2 :
  l1 ≡ₚ l2 → inPeriod key k l1 ≡ₚ inPeriod key k l2.
Proof. intros H. unfold inPeriod. by rewrite H. Qed.

(** The bucket of period [k] after adding the transactions [l] one by one. *)
Lemma addTo_fold_lookup (key : string → string) (k : string)
    (l : list TransactionItem) (data : gmap string ReportsPage.Sums) :
  foldl (λ d tx,
           ReportsPage.addTo (key (tanggal tx))
             (ReportsPage.sumNumbers (penerimaan tx))
             (ReportsPage.sumNumbers (pengeluaran tx)) d) data l !! k
  = let zero := {| ReportsPage.income := 0; ReportsPage.expense := 0 |} in
    let sel := inPeriod key k l in
    let sums :=
      {| ReportsPage.income :=
           ReportsPage.income (default zero (data !! k)) + incomeOf sel;
         ReportsPage.expense :=
           ReportsPage.expense (default zero (data !! k)) + expenseOf sel |} in
    match data !! k with
    | Some _ => Some sums
    | None => match sel with [] => None | _ => Some sums end
    end.
Proof.
  revert data. induction l as [|tx l IH]; intros data.
  - cbn [foldl]. unfold inPeriod. rewrite filter_nil.
    destruct (data !! k) as [[i e]|]; [|done].
    cbn. do 2 f_equal; lia.
  - cbn [foldl]. rewrite IH. cbv zeta. unfold inPeriod. rewrite filter_cons.
    unfold ReportsPage.addTo. rewrite !sumNumbers_sumValues.
    destruct (decide (key (tanggal tx) = k)) as [Hk|Hk].
    + rewrite Hk, lookup_insert_eq.
      unfold incomeOf, expenseOf. rewrite !fmap_cons. unfold sumZ.
      destruct (data !! k);
        cbn [foldr default from_option Datatypes.id
             ReportsPage.income ReportsPage.expense];
        do 2 f_equal; lia.
    + by rewrite lookup_insert_ne.
Qed.

Lemma step_monthly host st l :
  ReportsPage.monthlyData (foldl (ReportsPage.step host) st l)
  = foldl (λ d tx,
             ReportsPage.addTo (ReportsPage.monthYearOf host (tanggal tx))
               (ReportsPage.sumNumbers (penerimaan tx))
               (ReportsPage.sumNumbers (pengeluaran tx)) d)
          (ReportsPage.monthlyData st) l.
Proof. revert st. induction l as [|tx l IH]; intros st; [done|]. apply IH. Qed.

Lemma step_yearly host st l :
  ReportsPage.yearlyData (foldl (ReportsPage.step host) st l)
  = foldl (λ d tx,
             ReportsPage.addTo (ReportsPage.yearStrOf host (tanggal tx))
               (ReportsPage.sumNumbers (penerimaan tx))
               (ReportsPage.sumNumbers (pengeluaran tx)) d)
          (ReportsPage.yearlyData st) l.
Proof. revert st. induction l as [|tx l IH]; intros st; [done|]. apply IH. Qed.

Lemma periodReports_elem p data :
  p ∈ ReportsPage.periodReports data
  ↔ ∃ s, data !! BalanceByPeriod.period p = Some s
         ∧ BalanceByPeriod.income p = ReportsPage.income s
         ∧ BalanceByPeriod.expense p = ReportsPage.expense s
         ∧ BalanceByPeriod.balance p
           = BalanceByPeriod.income p - BalanceByPeriod.expense p.
Proof.
  unfold ReportsPage.periodReports. rewrite list_elem_of_fmap. split.
  - intros ([k s] & -> & Hin). rewrite sortBy_Permutation in Hin.
    apply elem_of_map_to_list in Hin. by exists s.
  - intros (s & Hs & Hi & He & Hb).
    exists (BalanceByPeriod.period p, s). split.
    + destruct p as [k i e b]. cbn in *. by subst.
    + rewrite sortBy_Permutation. by apply elem_of_map_to_list.
Qed.

(** The entries of a period table built from the sorted transactions are
    the periods of the transactions, each with the sums of its period. *)
Lemma period_entries key l txs p :
  l ≡ₚ txs →
  p ∈ ReportsPage.periodReports
        (foldl (λ d tx,
                  ReportsPage.addTo (key (tanggal tx))
                    (ReportsPage.sumNumbers (penerimaan tx))
                    (ReportsPage.sumNumbers (pengeluaran tx)) d) ∅ l)
  ↔ sumsPeriod key txs p.
Proof.
  intros Hperm. rewrite periodReports_elem. unfold sumsPeriod.
  setoid_rewrite addTo_fold_lookup. rewrite lookup_empty. cbv zeta.
  pose proof (inPeriod_Permutation key (BalanceByPeriod.period p) _ _ Hperm)
    as Hsel.
  rewrite <- (incomeOf_Permutation _ _ Hsel), <- (expenseOf_Permutation _ _ Hsel).
  assert (Hnil : inPeriod key (BalanceByPeriod.period p) l = []
                 ↔ inPeriod key (BalanceByPeriod.period p) txs = []).
  { split; intros Hn; rewrite Hn in Hsel.
    - by apply Permutation_nil_l in Hsel.
    - by apply Permutation_nil_r in Hsel. }
  destruct (inPeriod key (BalanceByPeriod.period p) l) as [|tx sel] eqn:Hl.
  - split; [by intros (s & [=] & _)|]. intros [Hne _]. exfalso. apply Hne. by apply Hnil.
  - cbn [default ReportsPage.income ReportsPage.expense]. split.
    + intros (s & [= <-] & Hi & He & Hb).
      cbn [ReportsPage.income ReportsPage.expense] in *.
      split; [|split; [lia|split; [lia|done]]].
      intros Hn. apply Hnil in Hn. discriminate Hn.
    + intros (_ & Hi & He & Hb). eexists. split; [reflexivity|].
      cbn [ReportsPage.income ReportsPage.expense]. split; [lia|]. split; [lia|done].
Qed.

End reports.

(** X20.  The monthly and yearly tables of a report hold exactly the
    periods in which the account has transactions: an entry belongs to the
    table exactly when some transaction falls in its period, its income and
    expense are the sums over the transactions of that period, and its
    balance is income minus expense. *)
Theorem period_tables_sum_their_transactions (host : JsDate.Host) (account : AccountBase)
    (r : ReportData.t) :
  ReportsPage.generateReports host (Some account) = Some r →
  (∀ p, p ∈ ReportData.monthly r
        ↔ sumsPeriod (ReportsPage.monthYearOf host) (transactions account) p)
  ∧ (∀ p, p ∈ ReportData.yearly r
          ↔ sumsPeriod (ReportsPage.yearStrOf host) (transactions account) p).
Proof.
  intros [= <-]. cbn [ReportData.monthly ReportData.yearly].
  rewrite step_monthly, step_yearly.
  cbn [ReportsPage.monthlyData ReportsPage.yearlyData].
  split; intros p; apply period_entries, sortBy_Permutation.
Qed.

Lemma period_tables_sum_their_transactions_witness :
  ∃ r, ReportsPage.generateReports (host Sample.env) (Some Sample.ledger) = Some r
       ∧ {| BalanceByPeriod.period := "2024-01";
            BalanceByPeriod.income := 100;
            BalanceByPeriod.expense := 30;
            BalanceByPeriod.balance := 70 |} ∈ ReportData.monthly r.
Proof.
  eexists. split; [reflexivity|].
  apply (proj1 (period_tables_sum_their_transactions (host Sample.env) Sample.ledger _ eq_refl)).
  vm_compute. split; [discriminate|]. repeat split.
Defined.

Section categories.







End categories.



(** ** Balances and columns of a parsed sheet *)

Section balances.
Context (env : Env).

Lemma runningTotals_app start l1 l2 :
  runningTotals start (l1 ++ l2)
  = runningTotals start l1 ++ runningTotals (start + sumZ l1) l2.
Proof.
  revert start. induction l1 as [|a l1 IH]; intros start.
  - cbn. f_equal. lia.
  - cbn [app runningTotals]. rewrite IH. unfold sumZ. cbn [foldr].
    do 3 f_equal. lia.
Qed.

Lemma sumZ_app l1 l2 : sumZ (l1 ++ l2) = sumZ l1 + sumZ l2.
Proof.
  induction l1 as [|a l1 IH]; [done|].
  unfold sumZ in *. cbn [app foldr]. lia.
Qed.

Lemma processRows_untyped hs dc uc jc pc kc i rows st st' :
  Forall (λ row, UploadPage.getNumberValue row jc = 0) rows →
  UploadPage.processRows env hs dc uc jc pc kc i rows st = Ok st' →
  ∃ new,
    UploadPage.txs st' = UploadPage.txs st ++ new
    ∧ saldo_berjalan <$> new
      = Some <$> runningTotals (UploadPage.runningBalance st) (net <$> new)
    ∧ UploadPage.runningBalance st'
      = UploadPage.runningBalance st + sumZ (net <$> new).
Proof.
  intros Hrows. revert i st.
  induction Hrows as [|row rows Hrow _ IH]; intros i st Hst.
  - injection Hst as <-. exists []. rewrite app_nil_r. cbn. split; [done|].
    split; [done|lia].
  - cbn [UploadPage.processRows] in Hst.
    destruct (UploadPage.processRow env hs dc uc jc pc kc i row st)
      as [st1|msg] eqn:H1; [|discriminate Hst].
    cbn [bindR] in Hst. destruct (IH _ _ Hst) as (new & Htxs & Hsaldo & Hrb).
    destruct row as [|cell row].
    + rewrite processRow_empty in H1. injection H1 as <-. by exists new.
    + unfold UploadPage.processRow in H1. rewrite Hrow in H1.
      destruct (UploadPage.parseExcelDate env _) as [date|]; [|discriminate H1].
      cbn [bindR Z.eqb] in H1. injection H1 as <-.
      cbn [UploadPage.txs UploadPage.runningBalance] in *.
      rewrite !total_sumValues in *.
      eexists (_ :: new). split; [by rewrite Htxs, <- app_assoc|].
      rewrite !fmap_cons. cbn [saldo_berjalan runningTotals].
      unfold net at 1 3. cbn [penerimaan pengeluaran].
      split; [by rewrite Hsaldo|].
      rewrite Hrb. unfold sumZ. cbn [foldr].
      unfold net at 2. cbn [penerimaan pengeluaran]. lia.
Qed.

Lemma processSheet_untyped sheet accs accs' :
  noTypedBalance sheet →
  UploadPage.processSheet env sheet accs = Ok accs' →
  Forall runningFromZero accs → Forall runningFromZero accs'.
Proof.
  destruct sheet as [sheetName [|headerRow dataRows]];
    [intros _ [= <-]; done|].
  unfold noTypedBalance, amountColumn, UploadPage.processSheet.
  cbn [snd tail]. fold (normalizedHeaders headerRow).
  intros Hrows. destruct (_ || _); [by intros [= <-]|].
  destruct (UploadPage.processRows env _ _ _ _ _ _ 1 dataRows _)
    as [st|msg] eqn:Hst; [|discriminate].
  cbn [bindR].
  destruct (processRows_untyped _ _ _ _ _ _ _ _ _ _ Hrows Hst)
    as (new & Htxs & Hsaldo & Hrb).
  cbn [UploadPage.txs UploadPage.runningBalance app] in Htxs, Hsaldo, Hrb.
  destruct (UploadPage.txs st) as [|tx txs] eqn:Hnew; [by intros [= <-]|].
  intros [= <-] Haccs. apply Forall_app. split; [done|].
  constructor; [|constructor]. unfold runningFromZero.
  cbn [AccountData.balance AccountData.transactions].
  rewrite calculateAccountBalance_sum, Hrb, Htxs. split; [lia|done].
Qed.

Lemma processSheets_untyped sheets accs accs' :
  Forall noTypedBalance sheets →
  UploadPage.processSheets env sheets accs = Ok accs' →
  Forall runningFromZero accs → Forall runningFromZero accs'.
Proof.
  intros Hsheets. revert accs.
  induction Hsheets as [|sheet sheets Hsheet _ IH]; intros accs.
  - by intros [= <-].
  - cbn [UploadPage.processSheets].
    destruct (UploadPage.processSheet env sheet accs) as [accs1|msg] eqn:H1;
      [|discriminate].
    cbn [bindR]. intros Hrest Haccs. apply (IH accs1 Hrest).
    by apply (processSheet_untyped sheet accs).
Qed.

End balances.

(** X22.  When no data row of the workbook has a non-zero number in the
    jumlah column, every parsed account is consistent: the running balance
    of each transaction is the running total, from 0, of income minus
    expense, and the account balance is calculateAccountBalance of its
    transactions.  A non-zero number in that column of a row becomes the
    running balance at that row instead. *)
Theorem untyped_balances_accumulate (env : Env) :
  (∀ workbook accs,
     Forall noTypedBalance workbook →
     UploadPage.parseWorkbook env workbook = Ok accs →
     Forall runningFromZero accs)
  ∧ (∀ hs dc uc jc pc kc i row st st',
       row ≠ [] →
       UploadPage.getNumberValue row jc ≠ 0 →
       UploadPage.processRow env hs dc uc jc pc kc i row st = Ok st' →
       UploadPage.runningBalance st' = UploadPage.getNumberValue row jc
       ∧ last (saldo_berjalan <$> UploadPage.txs st')
         = Some (Some (UploadPage.getNumberValue row jc))).
Proof.
  split.
  - intros workbook accs Hworkbook. unfold UploadPage.parseWorkbook.
    destruct workbook as [|sheet sheets]; [discriminate|].
    destruct (UploadPage.processSheets env (sheet :: sheets) [])
      as [accs0|msg] eqn:Hs; [|discriminate].
    cbn [bindR]. destruct accs0 as [|a accs0]; [discriminate|].
    intros [= <-].
    by apply (processSheets_untyped env (sheet :: sheets) [] _ Hworkbook Hs).
  - intros hs dc uc jc pc kc i [|cell row] st st' Hrow Hsaldo; [done|].
    unfold UploadPage.processRow.
    destruct (UploadPage.parseExcelDate env _) as [date|]; [|discriminate].
    cbn [bindR]. intros [= <-].
    cbn [UploadPage.txs UploadPage.runningBalance].
    rewrite (proj2 (Z.eqb_neq _ _) Hsaldo).
    split; [done|]. rewrite fmap_app.
    change (saldo_berjalan <$> [?tx]) with [saldo_berjalan tx].
    by rewrite last_snoc.
Qed.

Lemma untyped_balances_accumulate_witness :
  ∃ accs,
    UploadPage.parseWorkbook Sample.env [Sample.salarySheet "Kas"] = Ok accs
    ∧ Forall runningFromZero accs.
Proof.
  eexists. split; [vm_compute; reflexivity|].
  apply (proj1 (untyped_balances_accumulate Sample.env)
           [Sample.salarySheet "Kas"]).
  - repeat constructor.
  - vm_compute. reflexivity.
Defined.

(** X23.  The category columns of a sheet are the positions of the headers
    that start with the prefix when put in lower case, listed in ascending
    order. *)
Theorem category_columns_by_prefix (prefix : string) (headers : list string) :
  (∀ col, col ∈ UploadPage.prefixedCols prefix headers
          ↔ ∃ i h, col = Z.of_nat i ∧ headers !! i = Some h
                   ∧ Js.startsWith (Js.toLowerCase h) prefix = true)
  ∧ StronglySorted Z.lt (UploadPage.prefixedCols prefix headers).
Proof.
  unfold UploadPage.prefixedCols. split.
  - intros col. rewrite list_elem_of_filter, elem_of_lookup_imap. split.
    + intros (Hcol & i & h & Hval & Hi). exists i, h.
      destruct (Js.startsWith (Js.toLowerCase h) prefix); [done|].
      by subst col.
    + intros (i & h & -> & Hi & Hstart). split; [lia|].
      exists i, h. by rewrite Hstart.
  - assert (Hgen : ∀ (l : list string) (f : nat → Z),
              (∀ i j, (i < j)%nat → f i < f j) → (∀ i, 0 ≤ f i) →
              StronglySorted Z.lt
                (filter (λ i, i ≠ -1)
                   (imap (λ i h, if Js.startsWith (Js.toLowerCase h) prefix
                                 then f i else -1) l))
              ∧ Forall (λ x, f 0%nat ≤ x)
                  (filter (λ i, i ≠ -1)
                     (imap (λ i h, if Js.startsWith (Js.toLowerCase h) prefix
                                   then f i else -1) l))).
    { induction l as [|h l IH]; intros f Hmono Hpos.
      - split; constructor.
      - cbn [imap]. rewrite filter_cons.
        destruct (IH (f ∘ S)) as [Hsorted Hall].
        { intros i j Hij. apply Hmono. lia. }
        { intros i. apply Hpos. }
        assert (Hall' : Forall (λ x, f 0%nat < x)
                  (filter (λ i, i ≠ -1)
                     (imap (λ i h, if Js.startsWith (Js.toLowerCase h) prefix
                                   then (f ∘ S) i else -1) l))).
        { eapply Forall_impl; [exact Hall|]. intros x Hx. cbn in Hx.
          specialize (Hmono 0%nat 1%nat). lia. }
        destruct (Js.startsWith (Js.toLowerCase h) prefix).
        + rewrite decide_True by (specialize (Hpos 0%nat); lia).
          split.
          * by constructor.
          * constructor; [lia|]. eapply Forall_impl; [exact Hall'|].
            intros x Hx. cbn in Hx. lia.
        + rewrite decide_False by (intros Hn; by apply Hn).
          split; [done|]. eapply Forall_impl; [exact Hall'|].
          intros x Hx. cbn in Hx. lia. }
    apply (Hgen headers Z.of_nat); intros; lia.
Qed.

Lemma category_columns_by_prefix_witness :
  UploadPage.prefixedCols "penerimaan_"
    ["tanggal"; "uraian"; "jumlah"; "Penerimaan_Gaji"; "pengeluaran_sewa"]
  = [3].
Proof.
  pose proof (proj1 (category_columns_by_prefix "penerimaan_"
                       ["tanggal"; "uraian"; "jumlah"; "Penerimaan_Gaji";
                        "pengeluaran_sewa"]) 3) as Hcol.
  assert (Hin : 3 ∈ UploadPage.prefixedCols "penerimaan_"
                  ["tanggal"; "uraian"; "jumlah"; "Penerimaan_Gaji";
                   "pengeluaran_sewa"]).
  { apply Hcol. exists 3%nat, "Penerimaan_Gaji". repeat split. }
  reflexivity.
Defined.

(** ** Ids of parsed transactions *)

Section ids.
Context (env : Env).

Lemma noDash_app d1 d2 : noDash d1 = true → noDash d2 = true → noDash (d1 +:+ d2) = true.
Proof.
  induction d1 as [|c d1 IH]; [done|].
  change (String c d1 +:+ d2) with (String c (d1 +:+ d2)).
  cbn [noDash]. intros [Hc Hd1]%andb_prop Hd2.
  by rewrite Hc, IH.
Qed.

Lemma pretty_N_char_noDash x : Ascii.eqb (pretty_N_char x) "-" = false.
Proof.
  destruct x as [|p]; [done|].
  do 4 (destruct p as [p|p|]; try done).
Qed.

Lemma append_assoc (a b c : string) : (a +:+ b) +:+ c = a +:+ (b +:+ c).
Proof.
  induction a as [|ch a IH]; [done|].
  change ((String ch a +:+ b) +:+ c) with (String ch ((a +:+ b) +:+ c)).
  change (String ch a +:+ (b +:+ c)) with (String ch (a +:+ (b +:+ c))).
  by rewrite IH.
Qed.

Lemma pretty_N_go_noDash x s :
  ∃ d, pretty_N_go x s = d +:+ s ∧ noDash d = true.
Proof.
  revert s. induction (N.lt_wf_0 x) as [x _ IH]; intros s.
  destruct (decide (0 < x)%N) as [Hpos|Hzero].
  - rewrite pretty_N_go_step by done.
    destruct (IH (x `div` 10)%N ltac:(by apply N.div_lt)
                 (String (pretty_N_char (x `mod` 10)) s)) as (d & -> & Hd).
    exists (d +:+ String (pretty_N_char (x `mod` 10)) "").
    split; [by rewrite append_assoc|].
    apply noDash_app; [done|]. cbn [noDash].
    by rewrite pretty_N_char_noDash.
  - assert (x = 0%N) as -> by lia. exists "". by rewrite pretty_N_go_0.
Qed.

Lemma pretty_nat_noDash (i : nat) : noDash (pretty i) = true.
Proof.
  unfold pretty, pretty_nat, pretty, pretty_N.
  destruct (decide (N.of_nat i = 0%N)); [done|].
  destruct (pretty_N_go_noDash (N.of_nat i) "") as (d & -> & Hd).
  by apply noDash_app.
Qed.

Lemma noDash_prefix d1 d2 r1 r2 :
  noDash d1 = true → noDash d2 = true →
  d1 +:+ String "-" r1 = d2 +:+ String "-" r2 → d1 = d2.
Proof.
  revert d2. induction d1 as [|c d1 IH]; intros [|c' d2]; cbn [noDash].
  - done.
  - change ("" +:+ String "-" r1) with (String "-" r1).
    change (String c' d2 +:+ String "-" r2) with (String c' (d2 +:+ String "-" r2)).
    intros _ [Hc _]%andb_prop [= <- _]. done.
  - change ("" +:+ String "-" r2) with (String "-" r2).
    change (String c d1 +:+ String "-" r1) with (String c (d1 +:+ String "-" r1)).
    intros [Hc _]%andb_prop _ [= -> _]. done.
  - change (String c d1 +:+ String "-" r1) with (String c (d1 +:+ String "-" r1)).
    change (String c' d2 +:+ String "-" r2) with (String c' (d2 +:+ String "-" r2)).
    intros [_ Hd1]%andb_prop [_ Hd2]%andb_prop [= -> Heq].
    f_equal. by apply IH.
Qed.

(** Ids of different rows differ, whatever the random parts are. *)
Lemma rowId_inj (p q : string) (i j : nat) (r1 r2 : string) :
  p +:+ q +:+ "-" +:+ pretty i +:+ "-" +:+ r1
  = p +:+ q +:+ "-" +:+ pretty j +:+ "-" +:+ r2 →
  i = j.
Proof.
  intros Heq. do 3 apply String.app_inj in Heq.
  change ("-" +:+ r1) with (String "-" r1) in Heq.
  change ("-" +:+ r2) with (String "-" r2) in Heq.
  apply noDash_prefix in Heq; [|apply pretty_nat_noDash..].
  by apply pretty_nat_inj in Heq.
Qed.

Lemma processRows_ids hs dc uc jc pc kc i rows st st' :
  UploadPage.processRows env hs dc uc jc pc kc i rows st = Ok st' →
  ∃ new,
    UploadPage.txs st' = UploadPage.txs st ++ new
    ∧ NoDup (id <$> new)
    ∧ Forall (λ tx, ∃ j r, (i ≤ j)%nat
                           ∧ id tx = "tx-" +:+ pretty (now env) +:+ "-"
                                       +:+ pretty j +:+ "-" +:+ r) new.
Proof.
  revert i st. induction rows as [|row rows IH]; intros i st Hst.
  - injection Hst as <-. exists []. rewrite app_nil_r.
    split; [done|]. split; constructor.
  - cbn [UploadPage.processRows] in Hst.
    destruct (UploadPage.processRow env hs dc uc jc pc kc i row st)
      as [st1|msg] eqn:H1; [|discriminate Hst].
    cbn [bindR] in Hst. destruct (IH _ _ Hst) as (new & Htxs & Hnodup & Hids).
    assert (Hweaken :
      Forall (λ tx, ∃ j r, (i ≤ j)%nat
                           ∧ id tx = "tx-" +:+ pretty (now env) +:+ "-"
                                       +:+ pretty j +:+ "-" +:+ r) new).
    { eapply Forall_impl; [exact Hids|].
      intros tx (j & r & Hj & Hid). exists j, r. split; [lia|done]. }
    destruct row as [|cell row].
    + rewrite processRow_empty in H1. injection H1 as <-. by exists new.
    + unfold UploadPage.processRow in H1.
      destruct (UploadPage.parseExcelDate env _) as [date|]; [|discriminate H1].
      cbn [bindR] in H1. injection H1 as <-.
      cbn [UploadPage.txs] in Htxs.
      eexists (_ :: new). split; [by rewrite Htxs, <- app_assoc|].
      rewrite fmap_cons. cbn [id]. split.
      * constructor; [|done]. intros Hin.
        apply list_elem_of_fmap in Hin as (tx & Hid & Hin).
        rewrite Forall_forall in Hids.
        destruct (Hids tx Hin) as (j & r & Hj & Hidj).
        rewrite Hidj in Hid. apply rowId_inj in Hid. lia.
      * constructor; [|done]. exists i, (random env i).
        split; [lia|done].
Qed.

Lemma processSheet_ids sheet accs accs' :
  UploadPage.processSheet env sheet accs = Ok accs' →
  Forall (λ a, NoDup (id <$> AccountData.transactions a)
               ∧ Forall (λ tx, id tx ≠ "") (AccountData.transactions a)) accs →
  Forall (λ a, NoDup (id <$> AccountData.transactions a)
               ∧ Forall (λ tx, id tx ≠ "") (AccountData.transactions a)) accs'.
Proof.
  destruct sheet as [sheetName [|headerRow dataRows]];
    [by intros [= <-]|].
  unfold UploadPage.processSheet.
  destruct (_ || _); [by intros [= <-]|].
  destruct (UploadPage.processRows env _ _ _ _ _ _ 1 dataRows _)
    as [st|msg] eqn:Hst; [|discriminate].
  cbn [bindR].
  destruct (processRows_ids _ _ _ _ _ _ _ _ _ _ Hst)
    as (new & Htxs & Hnodup & Hids).
  cbn [UploadPage.txs app] in Htxs.
  destruct (UploadPage.txs st) as [|tx txs] eqn:Hnew; [by intros [= <-]|].
  intros [= <-] Haccs. apply Forall_app. split; [done|].
  constructor; [|constructor]. cbn [AccountData.transactions].
  rewrite Htxs. split; [done|].
  eapply Forall_impl; [exact Hids|].
  intros tx' (j & r & _ & ->). discriminate.
Qed.

Lemma processSheets_ids sheets accs accs' :
  UploadPage.processSheets env sheets accs = Ok accs' →
  Forall (λ a, NoDup (id <$> AccountData.transactions a)
               ∧ Forall (λ tx, id tx ≠ "") (AccountData.transactions a)) accs →
  Forall (λ a, NoDup (id <$> AccountData.transactions a)
               ∧ Forall (λ tx, id tx ≠ "") (AccountData.transactions a)) accs'.
Proof.
  revert accs. induction sheets as [|sheet sheets IH]; intros accs.
  - by intros [= <-].
  - cbn [UploadPage.processSheets].
    destruct (UploadPage.processSheet env sheet accs) as [accs1|msg] eqn:H1;
      [|discriminate].
    cbn [bindR]. intros Hrest Haccs. apply (IH accs1 Hrest).
    by apply (processSheet_ids sheet accs).
Qed.

Lemma parseWorkbook_ids workbook accs :
  UploadPage.parseWorkbook env workbook = Ok accs →
  Forall (λ a, NoDup (id <$> AccountData.transactions a)
               ∧ Forall (λ tx, id tx ≠ "") (AccountData.transactions a)) accs.
Proof.
  unfold UploadPage.parseWorkbook.
  destruct workbook as [|sheet sheets]; [discriminate|].
  destruct (UploadPage.processSheets env (sheet :: sheets) [])
    as [accs0|msg] eqn:Hs; [|discriminate].
  cbn [bindR]. destruct accs0 as [|a accs0]; [discriminate|].
  intros [= <-]. by apply (processSheets_ids _ [] _ Hs).
Qed.

Lemma mapTransaction_ids (f : nat → nat) (txs : list TransactionItem) :
  Forall (λ tx, id tx ≠ "") txs →
  id <$> imap (λ k, UploadPage.mapTransaction env (f k)) txs = id <$> txs.
Proof.
  intros Htxs. revert f. induction Htxs as [|tx txs Hid _ IH]; intros f; [done|].
  cbn [imap]. rewrite !fmap_cons. cbn [UploadPage.mapTransaction id].
  rewrite strOr_id by done. f_equal. apply (IH (f ∘ S)).
Qed.

Lemma upload_accounts s workbook accs :
  UploadPage.parseWorkbook env workbook = Ok accs →
  accounts (UploadPage.upload env s workbook)
  = (λ account,
       {| name := name account;
          transactions := transactions account;
          balance := AppContext.calculateAccountBalance (transactions account) |})
      <$> (asAccountBase <$> imap (UploadPage.mapAccount env) accs).
Proof.
  intros Hparse. rewrite (upload_parsed env s workbook accs Hparse).
  destruct (parseWorkbook_shape env _ _ Hparse) as [Hne _].
  unfold UploadPage.processAndUpdateAccounts.
  destruct accs as [|a accs]; [done|].
  destruct (imap (UploadPage.mapAccount env) (a :: accs)) as [|first rest];
    by destruct (Js.orNull (currentAccount s) None).
Qed.

End ids.

(** X24.  The transactions the parser builds from one sheet have pairwise
    different ids (the id carries the row number), and this still holds
    for every account of the store after the upload. *)
Theorem parsed_ids_unique (env : Env) (s : AppState)
    (workbook : list UploadPage.Sheet) (accs : list AccountData.t) :
  UploadPage.parseWorkbook env workbook = Ok accs →
  Forall (λ a, NoDup (id <$> AccountData.transactions a)) accs
  ∧ Forall (λ acc, NoDup (id <$> transactions acc))
      (accounts (UploadPage.upload env s workbook)).
Proof.
  intros Hparse. pose proof (parseWorkbook_ids env _ _ Hparse) as Hids.
  split; [eapply Forall_impl; [exact Hids|]; by intros a [Hnodup _]|].
  rewrite (upload_accounts env s workbook accs Hparse).
  apply Forall_fmap, Forall_fmap, Forall_lookup.
  intros i a' Hi. rewrite list_lookup_imap in Hi.
  destruct (accs !! i) as [a|] eqn:Ha; [|discriminate Hi].
  injection Hi as <-. rewrite Forall_lookup in Hids.
  destruct (Hids i a Ha) as [Hnodup Hnonempty].
  cbn [compose transactions asAccountBase UploadPage.mapAccount
       AccountData.transactions].
  by rewrite (mapTransaction_ids env (λ k, k)).
Qed.

Lemma parsed_ids_unique_witness :
  Forall (λ acc, NoDup (id <$> transactions acc))
    (accounts (UploadPage.upload Sample.env AppContext.initialState
                 [Sample2.twoRowSheet])).
Proof.
  refine (proj2 (parsed_ids_unique Sample.env AppContext.initialState
                   [Sample2.twoRowSheet] _ _)).
  vm_compute. reflexivity.
Defined.



Lemma workbook_parses_iff_witness :
  ∃ accs,
    UploadPage.parseWorkbook Sample.env
      [Sample2.noAmountSheet; Sample2.twoRowSheet] = Ok accs.
Proof.
  apply (proj2 (workbook_parses_iff Sample.env
                  [Sample2.noAmountSheet; Sample2.twoRowSheet])).
  vm_compute. split; reflexivity.
Defined.

Lemma editor_selects_an_account_witness :
  EditorPage.selectedAccount Sample2.dangling = None
  ∧ is_Some (EditorPage.selectedAccount
               (AppContext.dispatchAll Sample.env Sample2.dangling
                  (EditorRender.autoSelect Sample2.dangling))).
Proof.
  split; [vm_compute; reflexivity|].
  apply (proj1 (proj2 (editor_selects_an_account Sample.env Sample2.dangling))).
  vm_compute. discriminate.
Defined.

Lemma validators_agree_with_messages_witness :
  Validators.isValidDate (host Sample.env) "2024-01-15" = true
  ∧ Validators.getNumberValidationError (Js.Str "Infinity") "Jumlah"
    = Some "Jumlah tidak valid"
  ∧ Validators.isValidNumber (Js.Str "5000.00") = true.
Proof.
  destruct (validators_agree_with_messages (host Sample.env))
    as (Hdate & Hnumber & _ & Hinfinite).
  split; [|split].
  - apply (proj2 (Hdate "2024-01-15")). vm_compute. reflexivity.
  - apply (Hinfinite (Js.Str "Infinity") "Jumlah" false). vm_compute. reflexivity.
  - apply (proj2 (Hnumber (Js.Str "5000.00") "Jumlah")). vm_compute. reflexivity.
Defined.

Lemma transaction_valid_iff_witness :
  Validation.isValid
    (Validators.validateTransaction (host Sample.env) Sample.jan10) = true.
Proof.
  apply (proj2 (transaction_valid_iff (host Sample.env) Sample.jan10)).
  split; [vm_compute; reflexivity|]. split; [vm_compute; discriminate|].
  split.
  - exists "penjualan", 100. split; [left; reflexivity|lia].
  - intros c [[v Hc]|[v Hc]].
    + cbn [Sample.jan10 penerimaan] in Hc.
      apply lookup_singleton_Some in Hc as [<- _]. vm_compute. reflexivity.
    + cbn [Sample.jan10 pengeluaran] in Hc. by rewrite lookup_empty in Hc.
Defined.

